(** * Tile orchestration, UDF execution and stitching of
      [GeotrellisTimeSeriesImageCollection]

    A shallow embedding of [openeogeotrellis/GeotrellisImageCollection.py]:
    the dispatcher ([reduce_dimension], [apply_neighborhood]), the two UDF
    modes ([apply_tiles], [apply_tiles_spatiotemporal]), the stitching kernel
    ([_collect_as_xarray.stitch_at_time]) and the zonal mean
    ([polygonal_mean_timeseries]).

    Conventions.
    - Python exceptions are values of [Error]; a computation that may raise
      has type [result A].
    - Timestamps are integers (an epoch offset), raster values are rationals
      or NaN, a numpy array is its shape together with its row-major data.
    - The distributed tile store, the UDF runner, xarray's [groupby] and the
      wall clock are collaborators of the class; they are the fields of
      [Collaborators] and every definition is parametric in them.
    - A layer is lazy: the tiles of a [TiledRasterLayer] are the outcome of
      materialising it, which is where an exception raised inside a mapped
      function shows up.  Calls into the tile store are recorded in a log. *)

From Stdlib Require Import ZArith QArith Lia Ascii String.
From stdpp Require Import base tactics option list strings gmap sorting.

Local Open Scope string_scope.
Local Open Scope Z_scope.

(** ** Raster values, numpy arrays, tiles and keys *)

(** A raster value: a number or the floating-point NaN. *)
Inductive cell : Type :=
  | NaN
  | Num (q : Q).

Inductive DType : Type := dt_int32 | dt_float32 | dt_float64.

(** [numpy.ndarray]: shape, element type and the data in row-major order. *)
Record ndarray : Type := mk_ndarray {
  shape : list nat;
  dtype : DType;
  data : list cell
}.

Inductive CellType : Type :=
  | BIT | INT8 | UINT8 | INT16 | UINT16 | INT32 | FLOAT32 | FLOAT64.

(** [geopyspark.Tile(cells, cell_type, no_data_value)], a named tuple. *)
Record Tile : Type := mk_Tile {
  cells : ndarray;
  cell_type : CellType;
  no_data_value : option cell
}.

(** [geopyspark.SpatialKey(col, row)] and
    [geopyspark.SpaceTimeKey(col, row, instant)]. *)
Inductive Key : Type :=
  | SpatialKey (col row : Z)
  | SpaceTimeKey (col row : Z) (instant : Z).

Definition key_col (k : Key) : Z :=
  match k with SpatialKey c _ => c | SpaceTimeKey c _ _ => c end.

Definition key_row (k : Key) : Z :=
  match k with SpatialKey _ r => r | SpaceTimeKey _ r _ => r end.

Inductive LayerType : Type := SPATIAL | SPACETIME.

Record Extent : Type := mk_Extent { xmin : Q; ymin : Q; xmax : Q; ymax : Q }.

Record TileLayout : Type := mk_TileLayout {
  layoutCols : Z; layoutRows : Z; tileCols : Z; tileRows : Z
}.

Record LayoutDefinition : Type := mk_LayoutDefinition {
  extent : Extent;
  tileLayout : TileLayout
}.

Record Bounds : Type := mk_Bounds { minKey : Key; maxKey : Key }.

(** [geopyspark.Metadata] of a tiled layer. *)
Record Metadata : Type := mk_Metadata {
  bounds : Bounds;
  crs : string;
  layout_definition : LayoutDefinition;
  md_no_data_value : option cell
}.

(** [openeo_udf SpatialExtent]. *)
Record SpatialExtent : Type := mk_SpatialExtent {
  top : Q; bottom : Q; right : Q; left : Q; height : Z; width : Z
}.

(** ** Cube metadata ([openeo.metadata.CollectionMetadata]) *)

Record BandDimension : Type := mk_BandDimension {
  band_dim_name : string;
  band_names : list string
}.

Record CollectionMetadata : Type := mk_CollectionMetadata {
  temporal_dimension_decl : option string;
  band_dimension_decl : option BandDimension;
  spatial_dimensions : list string
}.

Definition has_temporal_dimension (m : CollectionMetadata) : bool :=
  match temporal_dimension_decl m with Some _ => true | None => false end.

Definition has_band_dimension (m : CollectionMetadata) : bool :=
  match band_dimension_decl m with Some _ => true | None => false end.

(** ** The UDF exchange envelope *)

(** [xarray.DataArray(values, coords, dims, name)]; the two coordinates the
    class ever sets are [t] and [bands]. *)
Record DataArray : Type := mk_DataArray {
  values : ndarray;
  coords_t : option (list Z);
  coords_bands : option (list string);
  dims : list string;
  da_name : string
}.

Record DataCube : Type := mk_DataCube { array : DataArray }.

Definition UserContext : Type := list (string * string).

(** [UdfData(proj, datacube_list)] with its [user_context] attribute. *)
Record UdfData : Type := mk_UdfData {
  proj : string * Z;
  datacube_list : list DataCube;
  user_context : UserContext
}.

(** ** Process-graph visitors (the resolved form of a reducer) *)

Inductive PyValue : Type :=
  | PyStr (s : string)
  | PyInt (z : Z)
  | PyNone.

(** The script builder a [GeotrellisTileProcessGraphVisitor] fills in. *)
Inductive Builder : Type := mk_Builder (script : list string).

Inductive Visitor : Type :=
  (** [SingleNodeUDFProcessGraphVisitor] with the entries [udf] and
      [context] of its [udf_args] dict (absent entries are [None]). *)
  | SingleNodeUDFProcessGraphVisitor (udf : option PyValue) (context : option UserContext)
  (** [GeotrellisTileProcessGraphVisitor]: the keys of its [processes] dict in
      insertion order, and its [builder]. *)
  | GeotrellisTileProcessGraphVisitor (processes : list string) (builder : Builder)
  (** Any other [ProcessGraphVisitor]; [processes] is [Some] when the object
      has a dict attribute of that name. *)
  | OtherVisitor (processes : option (list string)).

(** A process graph as received from the client, before it is visited. *)
Inductive ProcessGraph : Type := mk_ProcessGraph (nodes : list (string * string)).

Inductive Reducer : Type :=
  | ReducerDict (pg : ProcessGraph)
  | ReducerVisitor (v : Visitor).

(** ** Exceptions *)

Inductive UnitOf : Type := OfSize | OfOverlap.

Inductive Error : Type :=
  (** [FeatureUnsupportedException('Reduce on dimension {d!r} not supported')] *)
  | UnsupportedDimension (dimension : string)
  (** [FeatureUnsupportedException('Reducer {r!r} not supported')] *)
  | UnsupportedReducer (reducer : string)
  (** [ValueError("Unsupported combination of reducer %s and dimension %s.")] *)
  | UnsupportedCombination (reducer : Visitor) (dimension : string)
  (** [ValueError("The 'run_udf' process requires at least a 'udf' string
      argument, but got: ...")] *)
  | UdfNotAString (udf : option PyValue)
  (** [ValueError("The provided UDF should return one datacube, but got: "
      + str(cubes))] *)
  | UdfContractViolation (cubes : list DataCube)
  (** [OpenEOApiException("Unexpected spatial dimensions in
      apply_neighborhood, expecting exactly 2 spatial dimensions: ...")] *)
  | UnexpectedSpatialDimensions (dims : list string)
  (** [OpenEOApiException("apply_neighborhood: window sizes ... should be
      specified in pixels ...")], respectively ["... overlap sizes ..."] *)
  | InvalidUnit (what : UnitOf)
  (** [OpenEOApiException("apply_neighborhood: window sizes smaller then 32
      are not yet supported.")] *)
  | WindowTooSmall
  (** The remaining [OpenEOApiException]s of [apply_neighborhood]. *)
  | UnsupportedNeighborhood (msg : string)
  (** [SyntaxError] raised by the builtin [compile]. *)
  | SyntaxError
  (** A failure inside the user code, with its text. *)
  | UdfExecutionError (msg : string)
  (** [openeo.metadata.MetadataException]: a dimension that is not declared. *)
  | MetadataException
  (** Python's own run-time errors. *)
  | ZeroDivisionError
  | AttributeError (attribute : string)
  | KeyError (key : string)
  | IndexError
  | TypeError
  | ValueError (msg : string).

Inductive result (A : Type) : Type :=
  | Ok (a : A)
  | Raise (e : Error).
Arguments Ok {A} a.
Arguments Raise {A} e.

#[global] Instance result_ret : MRet result := fun A a => Ok a.
#[global] Instance result_bind : MBind result := fun A B f m =>
  match m with Ok a => f a | Raise e => Raise e end.
#[global] Instance result_fmap : FMap result := fun A B f m =>
  match m with Ok a => Ok (f a) | Raise e => Raise e end.

Definition is_Ok {A} (r : result A) : bool :=
  match r with Ok _ => true | Raise _ => false end.

(** The [temporal_dimension] and [band_dimension] properties raise when the
    cube declares no such dimension, which is why the class guards some
    accesses with [has_temporal_dimension()] / [has_band_dimension()]. *)
Definition temporal_dimension (m : CollectionMetadata) : result string :=
  match temporal_dimension_decl m with
  | Some n => Ok n
  | None => Raise MetadataException
  end.

Definition band_dimension (m : CollectionMetadata) : result BandDimension :=
  match band_dimension_decl m with
  | Some b => Ok b
  | None => Raise MetadataException
  end.

(** [key.instant]; a [SpatialKey] has no such attribute. *)
Definition key_instant (k : Key) : result Z :=
  match k with
  | SpaceTimeKey _ _ i => Ok i
  | SpatialKey _ _ => Raise (AttributeError "instant")
  end.

(** ** Layers, pyramids and the collaborators of the class *)

(** A tiled layer.  [numpy_rdd] is what materialising the layer yields: the
    (unordered) collection of keyed tiles, or the exception raised while
    computing it. *)
Record TiledRasterLayer : Type := mk_TiledRasterLayer {
  layer_type : LayerType;
  layer_metadata : Metadata;
  numpy_rdd : result (list (Key * Tile))
}.

(** [geopyspark.Pyramid]: zoom level to layer, in dict order. *)
Record Pyramid : Type := mk_Pyramid {
  levels : list (Z * TiledRasterLayer)
}.

(** Calls into the distributed tile store. *)
Inductive StoreCall : Type :=
  | ConvertDataType (ct : CellType)
  | ToNumpyRdd
  | FromNumpyRdd (lt : LayerType)
  | ToSpatialLayer
  | AggregateByCell (reducer : string)
  | MapBands (b : Builder)
  | Retile (sizeX sizeY overlapX overlapY : Z)
  | RemoveOverlap (sizeX sizeY overlapX overlapY : Z).

Class Collaborators : Type := mk_Collaborators {
  (** The builtin [compile(source, 'UDF.py', mode='exec')]. *)
  py_compile : string -> result unit;
  (** The builtin [int] applied to a [str]. *)
  py_int_of_str : string -> result Z;
  (** [openeogeotrellis.run_udf.run_user_code]. *)
  run_user_code : string -> UdfData -> result UdfData;
  (** [DataArray.groupby('t')]: the slices of an array, by time label. *)
  groupby_t : DataArray -> list (Z * DataArray);
  (** [datetime.now()] as read while the group of a spatial key is processed. *)
  datetime_now : Key -> Z;
  (** What [convert_data_type] does to one tile. *)
  convert_tile : CellType -> Tile -> Tile;
  (** [GeoPySparkBackendImplementation.accept_process_graph]. *)
  accept_process_graph : ProcessGraph -> result Visitor;
  (** [openeogeotrellis.numpy_aggregators]: the composite of a tile group. *)
  numpy_composite : string -> list Tile -> result Tile;
  (** Primitives of the tile store, as black boxes on layers. *)
  store_to_spatial_layer : TiledRasterLayer -> TiledRasterLayer;
  store_aggregate_by_cell : string -> TiledRasterLayer -> TiledRasterLayer;
  store_mapBands : Builder -> TiledRasterLayer -> TiledRasterLayer;
  store_retile : Z -> Z -> Z -> Z -> TiledRasterLayer -> TiledRasterLayer;
  store_remove_overlap : Z -> Z -> Z -> Z -> TiledRasterLayer -> TiledRasterLayer;
  store_mask : list (Q * Q) -> TiledRasterLayer -> TiledRasterLayer
}.

(** ** Helpers standing for Python and Spark builtins *)

#[global] Instance Key_eq_dec : EqDecision Key.
Proof. solve_decision. Defined.

#[global] Instance LayerType_eq_dec : EqDecision LayerType.
Proof. solve_decision. Defined.

(** [list.sort(key=...)]: a stable sort on an integer key. *)
Fixpoint insert_by {A} (key : A -> Z) (x : A) (l : list A) : list A :=
  match l with
  | [] => [x]
  | y :: l' => if key x <=? key y then x :: l else y :: insert_by key x l'
  end.

Definition sort_by {A} (key : A -> Z) (l : list A) : list A :=
  foldr (insert_by key) [] l.

(** [tile_list.sort(key=lambda tup: tup[0].instant)]: the keys are computed
    first (and may raise), then the list is sorted on them. *)
Definition sort_by_instant (tile_list : list (Key * Tile)) : result (list (Key * Tile)) :=
  decorated ← mapM (fun tup => i ← key_instant tup.1; mret (i, tup)) tile_list;
  mret (map snd (sort_by fst decorated)).

(** Spark's [groupByKey]: one group per distinct key, holding every value
    recorded under that key.  Spark fixes no order; the model keeps the order
    of the input. *)
Definition groupByKey {K V} `{EqDecision K} (rdd : list (K * V)) : list (K * list V) :=
  map (fun k => (k, map snd (filter (fun kv => kv.1 = k) rdd)))
      (remove_dups (map fst rdd)).

(** [np.array(list_of_arrays)]: stacking along a new leading axis. *)
Definition np_array (arrays : list ndarray) : result ndarray :=
  match arrays with
  | [] => Ok (mk_ndarray [0%nat] dt_float64 [])
  | a :: rest =>
      if forallb (fun b => bool_decide (shape b = shape a)) rest
      then Ok (mk_ndarray (length arrays :: shape a) (dtype a) (concat (map data arrays)))
      else Raise (ValueError "setting an array element with a sequence")
  end.

(** ** [_mapTransform] and [_tile_to_datacube] *)

Definition _mapTransform (layoutDefinition : LayoutDefinition) (spatialKey : Key)
  : result SpatialExtent :=
  let ex := extent layoutDefinition in
  let tl := tileLayout layoutDefinition in
  let x_range := (xmax ex - xmin ex)%Q in
  if layoutCols tl =? 0 then Raise ZeroDivisionError else
  let xinc := (x_range / inject_Z (layoutCols tl))%Q in
  let yrange := (ymax ex - ymin ex)%Q in
  if layoutRows tl =? 0 then Raise ZeroDivisionError else
  let yinc := (yrange / inject_Z (layoutRows tl))%Q in
  Ok {| top := (ymax ex - yinc * inject_Z (key_row spatialKey))%Q;
        bottom := (ymax ex - yinc * inject_Z (key_row spatialKey + 1))%Q;
        right := (xmin ex + xinc * inject_Z (key_col spatialKey + 1))%Q;
        left := (xmin ex + xinc * inject_Z (key_col spatialKey))%Q;
        height := tileCols tl;
        width := tileRows tl |}.

Definition _tile_to_datacube (bands_numpy : ndarray) (extent : SpatialExtent)
    (band_dimension : option BandDimension) (start_times : option (list Z)) : DataCube :=
  let temporal := bool_decide (length (shape bands_numpy) = 4%nat) in
  {| array :=
       {| values := bands_numpy;
          coords_t := if temporal then start_times else None;
          coords_bands := band_names <$> band_dimension;
          dims := if temporal then ["t"; "bands"; "x"; "y"] else ["bands"; "x"; "y"];
          da_name := "openEODataChunk" |} |}.

(** ** Grouped mode: [apply_tiles_spatiotemporal] *)

Section UdfPipeline.
Context `{Collaborators}.

(** Lines 232-252 of [tilefunction]: the envelope handed to the user code. *)
Definition spatiotemporal_udf_data (context : UserContext) (metadata : Metadata)
    (openeo_metadata : CollectionMetadata) (tiles : Key * list (Key * Tile))
  : result (list (Key * Tile) * UdfData) :=
  tile_list ← sort_by_instant tiles.2;
  dates ← mapM (fun t => key_instant t.1) tile_list;
  multidim_array ← np_array (map (fun t => cells t.2) tile_list);
  first ← (match tile_list with t :: _ => Ok t | [] => Raise IndexError end);
  extent ← _mapTransform (layout_definition metadata) first.1;
  band_dim ← (if has_band_dimension openeo_metadata
              then Some <$> band_dimension openeo_metadata else Ok None);
  let datacube := _tile_to_datacube multidim_array extent band_dim (Some dates) in
  mret (tile_list, mk_UdfData ("EPSG", 900913) [datacube] context).

(** Lines 254-264: run the user code and rebuild tiles from its result. *)
Definition spatiotemporal_tiles_of_result (tiles : Key * list (Key * Tile))
    (tile_list : list (Key * Tile)) (result_data : UdfData) : result (list (Key * Tile)) :=
  let cubes := datacube_list result_data in
  match cubes with
  | [cube] =>
      let result_array := array cube in
      first ← (match tile_list with t :: _ => Ok t | [] => Raise IndexError end);
      if bool_decide ("t" ∈ dims result_array) then
        Ok (map (fun g : Z * DataArray =>
                   (SpaceTimeKey (key_col tiles.1) (key_row tiles.1) g.1,
                    mk_Tile (values g.2) FLOAT32 (no_data_value first.2)))
                (groupby_t result_array))
      else
        Ok [(SpaceTimeKey (key_col tiles.1) (key_row tiles.1) (datetime_now tiles.1),
             mk_Tile (values result_array) FLOAT32 (no_data_value first.2))]
  | _ => Raise (UdfContractViolation cubes)
  end.

Definition spatiotemporal_tilefunction (function : string) (context : UserContext)
    (metadata : Metadata) (openeo_metadata : CollectionMetadata)
    (tiles : Key * list (Key * Tile)) : result (list (Key * Tile)) :=
  '(tile_list, data) ← spatiotemporal_udf_data context metadata openeo_metadata tiles;
  result_data ← run_user_code function data;
  spatiotemporal_tiles_of_result tiles tile_list result_data.

(** The keyed groups [rdd_function] builds from the float tiles. *)
Definition grouped_by_spatial_key (floatrdd : list (Key * Tile))
  : list (Key * list (Key * Tile)) :=
  groupByKey (map (fun t => (SpatialKey (key_col t.1) (key_row t.1), t)) floatrdd).

Definition convert_data_type (ct : CellType) (rdd : TiledRasterLayer) : TiledRasterLayer :=
  {| layer_type := layer_type rdd;
     layer_metadata := layer_metadata rdd;
     numpy_rdd := map (fun t => (t.1, convert_tile ct t.2)) <$> numpy_rdd rdd |}.

(** [rdd.flatMap(f)] on a lazy collection. *)
Definition flatMap {A B} (f : A -> result (list B)) (l : list A) : result (list B) :=
  (fun groups => mjoin groups) <$> mapM f l.

Definition spatiotemporal_rdd_function (function : string) (context : UserContext)
    (openeo_metadata : CollectionMetadata) (rdd : TiledRasterLayer) : TiledRasterLayer :=
  let floatrdd := numpy_rdd (convert_data_type FLOAT32 rdd) in
  {| layer_type := SPACETIME;
     layer_metadata := layer_metadata rdd;
     numpy_rdd :=
       floatrdd ≫= fun tiles =>
         flatMap (spatiotemporal_tilefunction function context
                    (layer_metadata rdd) openeo_metadata)
                 (grouped_by_spatial_key tiles) |}.

(** ** Single-tile mode: [apply_tiles] *)

Definition tilefunction (function : string) (context : UserContext)
    (metadata : Metadata) (openeo_metadata : CollectionMetadata)
    (geotrellis_tile : Key * Tile) : result (Key * Tile) :=
  let key := geotrellis_tile.1 in
  extent ← _mapTransform (layout_definition metadata) key;
  band_dim ← band_dimension openeo_metadata;
  let datacube := _tile_to_datacube (cells geotrellis_tile.2) extent (Some band_dim) None in
  let data := mk_UdfData ("EPSG", 900913) [datacube] context in
  result_data ← run_user_code function data;
  let cubes := datacube_list result_data in
  match cubes with
  | [cube] =>
      let result_array := array cube in
      Ok (key, mk_Tile (values result_array) (cell_type geotrellis_tile.2)
                       (no_data_value geotrellis_tile.2))
  | _ => Raise (UdfContractViolation cubes)
  end.

Definition rdd_function (function : string) (context : UserContext)
    (openeo_metadata : CollectionMetadata) (rdd : TiledRasterLayer) : TiledRasterLayer :=
  {| layer_type := layer_type rdd;
     layer_metadata := layer_metadata rdd;
     numpy_rdd :=
       numpy_rdd (convert_data_type FLOAT32 rdd) ≫=
         mapM (tilefunction function context (layer_metadata rdd) openeo_metadata) |}.

End UdfPipeline.

(** ** The class, and the log of calls into the tile store *)

Record ImageCollection : Type := mk_ImageCollection {
  pyramid : Pyramid;
  metadata : CollectionMetadata
}.

(** A method of the class: it reads and extends the log of store calls and
    either returns or raises. *)
Definition Exec (A : Type) : Type := list StoreCall -> result A * list StoreCall.

#[global] Instance Exec_ret : MRet Exec := fun A a log => (Ok a, log).
#[global] Instance Exec_bind : MBind Exec := fun A B f m log =>
  match m log with
  | (Ok a, log') => f a log'
  | (Raise e, log') => (Raise e, log')
  end.

#[global] Instance Exec_fmap : FMap Exec := fun A B f m log =>
  match m log with
  | (Ok a, log') => (Ok (f a), log')
  | (Raise e, log') => (Raise e, log')
  end.

Definition call_store (c : StoreCall) : Exec unit := fun log => (Ok tt, (log ++ [c])%list).
Definition lift {A} (r : result A) : Exec A := fun log => (r, log).
Definition raise {A} (e : Error) : Exec A := lift (Raise e).

(** Running a method from a fresh log. *)
Definition run {A} (m : Exec A) : result A * list StoreCall := m [].

(** [Pyramid(levels)] takes [max(levels)], so an empty dict is refused. *)
Definition Pyramid_new (lv : list (Z * TiledRasterLayer)) : result Pyramid :=
  match lv with
  | [] => Raise (ValueError "max() arg is an empty sequence")
  | _ => Ok (mk_Pyramid lv)
  end.

Definition max_zoom (p : Pyramid) : Z :=
  match levels p with
  | [] => 0
  | kl :: rest => foldr (fun kl' m => Z.max kl'.1 m) kl.1 rest
  end.

(** [pyramid.layer_type]: the type of the layer at [max_zoom]. *)
Definition pyramid_layer_type (p : Pyramid) : LayerType :=
  match list_find (fun kl : Z * TiledRasterLayer => kl.1 = max_zoom p) (levels p) with
  | Some (_, kl) => layer_type kl.2
  | None => SPATIAL
  end.

(** [str.upper], [str.lower] and [str.capitalize] on ASCII text. *)
Definition upper_ascii (c : Ascii.ascii) : Ascii.ascii :=
  let n := Ascii.nat_of_ascii c in
  if ((97 <=? n) && (n <=? 122))%nat then Ascii.ascii_of_nat (n - 32) else c.

Definition lower_ascii (c : Ascii.ascii) : Ascii.ascii :=
  let n := Ascii.nat_of_ascii c in
  if ((65 <=? n) && (n <=? 90))%nat then Ascii.ascii_of_nat (n + 32) else c.

Fixpoint map_string (f : Ascii.ascii -> Ascii.ascii) (s : string) : string :=
  match s with
  | EmptyString => EmptyString
  | String c s' => String (f c) (map_string f s')
  end.

Definition upper (s : string) : string := map_string upper_ascii s.
Definition lower (s : string) : string := map_string lower_ascii s.
Definition capitalize (s : string) : string :=
  match s with
  | EmptyString => EmptyString
  | String c s' => String (upper_ascii c) (lower s')
  end.

(** Modelled from the spec: [CollectionMetadata.reduce_dimension] of the
    openeo client library, which is not part of the sources; the spec says
    the dimension metadata "is updated to drop the reduced dimension". *)
Definition metadata_reduce_dimension (m : CollectionMetadata) (dimension : string)
  : CollectionMetadata :=
  {| temporal_dimension_decl :=
       match temporal_dimension_decl m with
       | Some n => if bool_decide (n = dimension) then None else Some n
       | None => None
       end;
     band_dimension_decl :=
       match band_dimension_decl m with
       | Some b => if bool_decide (band_dim_name b = dimension) then None else Some b
       | None => None
       end;
     spatial_dimensions :=
       filter (fun n => n <> dimension) (spatial_dimensions m) |}.

Section Dispatcher.
Context `{Collaborators}.

Definition apply_to_levels (func : TiledRasterLayer -> Exec TiledRasterLayer)
    (self : ImageCollection) : Exec ImageCollection :=
  lv ← mapM (fun kl : Z * TiledRasterLayer => l ← func kl.2; mret (kl.1, l))
            (levels (pyramid self));
  p ← lift (Pyramid_new lv);
  mret (mk_ImageCollection p (metadata self)).

(** [_apply_to_levels_geotrellis_rdd]: the function works on the JVM side of
    a level; [_create_tilelayer] wraps its result with the level's type. *)
Definition _apply_to_levels_geotrellis_rdd
    (func : TiledRasterLayer -> Z -> Exec TiledRasterLayer)
    (self : ImageCollection) : Exec ImageCollection :=
  lv ← mapM (fun kl : Z * TiledRasterLayer =>
               l ← func kl.2 kl.1;
               mret (kl.1, mk_TiledRasterLayer (layer_type kl.2) (layer_metadata l)
                                               (numpy_rdd l)))
            (levels (pyramid self));
  p ← lift (Pyramid_new lv);
  mret (mk_ImageCollection p (metadata self)).

Definition apply_tiles_spatiotemporal (function : string) (context : UserContext)
    (self : ImageCollection) : Exec ImageCollection :=
  (* early compile to detect syntax errors *)
  _ ← lift (py_compile function);
  apply_to_levels
    (fun rdd =>
       _ ← call_store (ConvertDataType FLOAT32);
       _ ← call_store ToNumpyRdd;
       _ ← call_store (FromNumpyRdd SPACETIME);
       mret (spatiotemporal_rdd_function function context (metadata self) rdd))
    self.

Definition apply_tiles (function : string) (context : UserContext)
    (self : ImageCollection) : Exec ImageCollection :=
  apply_to_levels
    (fun rdd =>
       _ ← call_store (ConvertDataType FLOAT32);
       _ ← call_store ToNumpyRdd;
       _ ← call_store (FromNumpyRdd (layer_type rdd));
       mret (rdd_function function context (metadata self) rdd))
    self.

Definition visitor_builder (v : Visitor) : result Builder :=
  match v with
  | GeotrellisTileProcessGraphVisitor _ b => Ok b
  | _ => Raise (AttributeError "builder")
  end.

Definition reduce_bands (pgVisitor : Visitor) (self : ImageCollection)
  : Exec ImageCollection :=
  float_datacube ←
    apply_to_levels
      (fun layer => _ ← call_store (ConvertDataType FLOAT32);
                    mret (convert_data_type FLOAT32 layer))
      self;
  _apply_to_levels_geotrellis_rdd
    (fun rdd level =>
       b ← lift (visitor_builder pgVisitor);
       _ ← call_store (MapBands b);
       mret (store_mapBands b rdd))
    float_datacube.

Definition _normalize_temporal_reducer (self : ImageCollection)
    (dimension reducer : string) : result string :=
  tname ← temporal_dimension (metadata self);
  if bool_decide (dimension <> tname) then Raise (UnsupportedDimension dimension)
  else if bool_decide (upper reducer ∈ ["MIN"; "MAX"; "SUM"; "MEAN"; "VARIANCE"])
  then Ok (capitalize (lower reducer))
  else if bool_decide (upper reducer = "SD") then Ok "StandardDeviation"
  else Raise (UnsupportedReducer reducer).

Definition _aggregate_over_time_numpy (composite : string) (self : ImageCollection)
  : Exec ImageCollection :=
  apply_to_levels
    (fun layer =>
       _ ← call_store ToSpatialLayer;
       _ ← call_store (ConvertDataType FLOAT32);
       _ ← call_store ToNumpyRdd;
       _ ← call_store (FromNumpyRdd SPATIAL);
       let float_layer := convert_data_type FLOAT32 (store_to_spatial_layer layer) in
       mret (mk_TiledRasterLayer SPATIAL (layer_metadata layer)
               (numpy_rdd float_layer ≫= fun tiles =>
                  mapM (fun g : Key * list Tile =>
                          t ← numpy_composite composite g.2; mret (g.1, t))
                       (groupByKey tiles))))
    self.

Definition reduce (reducer dimension : string) (self : ImageCollection)
  : Exec ImageCollection :=
  reducer ← lift (_normalize_temporal_reducer self dimension reducer);
  if bool_decide (reducer ∈ ["Variance"; "StandardDeviation"; "Min"; "Max"; "Sum"])
  then _aggregate_over_time_numpy reducer self
  else apply_to_levels
         (fun layer =>
            _ ← call_store ToSpatialLayer;
            _ ← call_store (AggregateByCell reducer);
            mret (store_aggregate_by_cell reducer (store_to_spatial_layer layer)))
         self.

(** [reducer.processes.popitem()[0]] when [processes] is a dict of length
    one; [None] when the test on [processes] fails. *)
Definition single_process (v : Visitor) : option string :=
  match v with
  | GeotrellisTileProcessGraphVisitor [p] _ => Some p
  | OtherVisitor (Some [p]) => Some p
  | _ => None
  end.

Definition is_udf_visitor (v : Visitor) : bool :=
  match v with SingleNodeUDFProcessGraphVisitor _ _ => true | _ => false end.

(** The tail of [reduce_dimension], from [if result_collection is not None]. *)
Definition reduce_dimension_finish (self : ImageCollection) (dimension : string)
    (result_collection : option ImageCollection) : Exec (option ImageCollection) :=
  match result_collection with
  | None => mret None
  | Some rc =>
      let rc := mk_ImageCollection (pyramid rc)
                  (metadata_reduce_dimension (metadata rc) dimension) in
      temporal ←
        (if has_temporal_dimension (metadata self)
         then tname ← lift (temporal_dimension (metadata self));
              mret (bool_decide (dimension = tname))
         else mret false);
      if temporal && bool_decide (pyramid_layer_type (pyramid self) <> SPATIAL)
      then
        Some <$>
          apply_to_levels
            (fun rdd =>
               if bool_decide (layer_type rdd <> SPATIAL)
               then _ ← call_store ToSpatialLayer; mret (store_to_spatial_layer rdd)
               else mret rdd)
            rc
      else mret (Some rc)
  end.

Definition reduce_dimension (dimension : string) (reducer : Reducer)
    (self : ImageCollection) : Exec (option ImageCollection) :=
  reducer ← (match reducer with
             | ReducerDict pg => lift (accept_process_graph pg)
             | ReducerVisitor v => mret v
             end);
  result_collection ←
    match reducer with
    | SingleNodeUDFProcessGraphVisitor udf context =>
        let context := default [] context in
        match udf with
        | Some (PyStr udf) =>
            tname ← lift (temporal_dimension (metadata self));
            if bool_decide (dimension = tname)
            then Some <$> apply_tiles_spatiotemporal udf context self
            else
              bdim ← lift (band_dimension (metadata self));
              if bool_decide (dimension = band_dim_name bdim)
              then Some <$> apply_tiles udf context self
              else mret None
        | _ => raise (UdfNotAString udf)
        end
    | _ =>
        on_bands ←
          (if has_band_dimension (metadata self)
           then bdim ← lift (band_dimension (metadata self));
                mret (bool_decide (dimension = band_dim_name bdim))
           else mret false);
        if (on_bands : bool) then Some <$> reduce_bands reducer self
        else match single_process reducer with
             | Some p => Some <$> reduce p dimension self
             | None => raise (UnsupportedCombination reducer dimension)
             end
    end;
  reduce_dimension_finish self dimension result_collection.

End Dispatcher.

(** ** [apply_neighborhood] *)

(** An element of the [size] and [overlap] arguments: a dict with the keys
    [dimension], [value] and [unit]; the last two may be missing. *)
Record WindowEntry : Type := mk_WindowEntry {
  we_dimension : string;
  we_value : option PyValue;
  we_unit : option string
}.

#[global] Instance PyValue_eq_dec : EqDecision PyValue.
Proof. solve_decision. Defined.

#[global] Instance WindowEntry_eq_dec : EqDecision WindowEntry.
Proof. solve_decision. Defined.

(** [{e['dimension']: e for e in entries}.get(name)]: a later entry replaces
    an earlier one for the same dimension. *)
Definition dict_get (entries : list WindowEntry) (name : string) : option WindowEntry :=
  last (filter (fun e => we_dimension e = name) entries).

(** [entry.get('unit', None) != 'px'] for [entry = d.get(name, {})]. *)
Definition unit_is_not_px (e : option WindowEntry) : bool :=
  bool_decide ((e ≫= we_unit) <> Some "px").

Section Neighborhood.
Context `{Collaborators}.

Definition py_int (v : PyValue) : result Z :=
  match v with
  | PyInt z => Ok z
  | PyStr s => py_int_of_str s
  | PyNone => Raise TypeError
  end.

(** [int(entry['value'])] *)
Definition int_value (e : WindowEntry) : result Z :=
  match we_value e with
  | Some v => py_int v
  | None => Raise (KeyError "value")
  end.

Definition default_overlap : WindowEntry :=
  mk_WindowEntry "" (Some (PyInt 0)) (Some "px").

(** [temporal_size is None or temporal_size.get('value', None) is None] *)
Definition no_temporal_value (temporal_size : option WindowEntry) : bool :=
  match temporal_size ≫= we_value with
  | None | Some PyNone => true
  | Some _ => false
  end.

Definition single_date (temporal_size temporal_overlap : option WindowEntry) : bool :=
  bool_decide ((temporal_size ≫= we_value) = Some (PyStr "P1D"))
  && bool_decide (temporal_overlap = None).

Definition apply_neighborhood (process : ProcessGraph) (size overlap : list WindowEntry)
    (self : ImageCollection) : Exec ImageCollection :=
  let spatial_dims := spatial_dimensions (metadata self) in
  match spatial_dims with
  | [x; y] =>
      if unit_is_not_px (dict_get size x) || unit_is_not_px (dict_get size y)
      then raise (InvalidUnit OfSize) else
      sizeX ← lift (from_option int_value (Raise (KeyError x)) (dict_get size x));
      sizeY ← lift (from_option int_value (Raise (KeyError y)) (dict_get size y));
      if (sizeX <? 32) || (sizeY <? 32) then raise WindowTooSmall else
      let overlap_x := default default_overlap (dict_get overlap x) in
      let overlap_y := default default_overlap (dict_get overlap y) in
      if unit_is_not_px (Some overlap_x) || unit_is_not_px (Some overlap_y)
      then raise (InvalidUnit OfOverlap) else
      overlap_x_value ← lift (int_value overlap_x);
      overlap_y_value ← lift (int_value overlap_y);
      retiled_collection ←
        _apply_to_levels_geotrellis_rdd
          (fun rdd level =>
             _ ← call_store (Retile sizeX sizeY overlap_x_value overlap_y_value);
             mret (store_retile sizeX sizeY overlap_x_value overlap_y_value rdd))
          self;
      process ← lift (accept_process_graph process);
      temporal ←
        (if has_temporal_dimension (metadata self)
         then tname ← lift (temporal_dimension (metadata self));
              mret (dict_get size tname, dict_get overlap tname)
         else mret (None, None));
      let temporal_size := temporal.1 in
      let temporal_overlap := temporal.2 in
      result_collection ←
        match process with
        | SingleNodeUDFProcessGraphVisitor udf context =>
            let context := default [] context in
            match udf with
            | Some (PyStr udf) =>
                if no_temporal_value temporal_size
                then apply_tiles_spatiotemporal udf context retiled_collection
                else if single_date temporal_size temporal_overlap
                then apply_tiles udf context retiled_collection
                else raise (UnsupportedNeighborhood
                              "for temporal dimension, either process all values, or only single date is supported for now!")
            | _ => raise (UdfNotAString udf)
            end
        | GeotrellisTileProcessGraphVisitor _ _ =>
            if no_temporal_value temporal_size
            then raise (UnsupportedNeighborhood "only supporting complex callbacks on bands")
            else if single_date temporal_size temporal_overlap
            then reduce_bands process self
            else raise (UnsupportedNeighborhood "only supporting complex callbacks on bands")
        | OtherVisitor _ =>
            raise (UnsupportedNeighborhood "only supporting callbacks with a single UDF.")
        end;
      if (overlap_x_value >? 0) || (overlap_y_value >? 0)
      then _apply_to_levels_geotrellis_rdd
             (fun rdd level =>
                _ ← call_store (RemoveOverlap sizeX sizeY overlap_x_value overlap_y_value);
                mret (store_remove_overlap sizeX sizeY overlap_x_value overlap_y_value rdd))
             result_collection
      else mret result_collection
  | _ => raise (UnexpectedSpatialDimensions spatial_dims)
  end.

End Neighborhood.

(** ** Stitching: [_collect_as_xarray] and its kernel [stitch_at_time] *)

(** Windows are tuples [(xmin/mincol, ymin/minrow, width/cols, height/rows)]. *)
Definition Win : Type := Z * Z * Z * Z.

Definition layout_window (md : Metadata) : Win :=
  let layout_pix := tileLayout (layout_definition md) in
  (0, 0, layoutCols layout_pix * tileCols layout_pix,
         layoutRows layout_pix * tileRows layout_pix).

(** The pixel window when no crop box is given (the [else] branch). *)
Definition crop_window_of_bounds (md : Metadata) : Win :=
  let layout_pix := tileLayout (layout_definition md) in
  let xmin := key_col (minKey (bounds md)) in
  let xmax := key_col (maxKey (bounds md)) + 1 in
  let ymin := key_row (minKey (bounds md)) in
  let ymax := key_row (maxKey (bounds md)) + 1 in
  (xmin * tileCols layout_pix, ymin * tileRows layout_pix,
   (xmax - xmin) * tileCols layout_pix, (ymax - ymin) * tileRows layout_pix).

(** [np.arange(a, b)] on integers. *)
Definition arange (a b : Z) : list Z := seqZ a (b - a).

Definition size_of (sh : list nat) : nat := foldr Nat.mul 1%nat sh.

Definition np_full (sh : list nat) (fill : cell) (dt : DType) : ndarray :=
  mk_ndarray sh dt (replicate (size_of sh) fill).

(** [np.empty]: the content is whatever the allocator hands out, [junk]. *)
Definition np_empty (junk : nat -> cell) (sh : list nat) (dt : DType) : ndarray :=
  mk_ndarray sh dt (map junk (seq 0 (size_of sh))).

(** Truth value of a nodata sentinel in [if nodata:]. *)
Definition truthy (nodata : option cell) : bool :=
  match nodata with
  | None => false
  | Some NaN => true
  | Some (Num q) => negb (Qeq_bool q 0)
  end.

(** Row-major position of [a[i, j, k]] in a three-dimensional array. *)
Definition flat3 (sh : list nat) (i j k : nat) : option nat :=
  match sh with
  | [n0; n1; n2] =>
      if ((i <? n0) && (j <? n1) && (k <? n2))%nat
      then Some ((i * n1 + j) * n2 + k)%nat else None
  | _ => None
  end.

Definition get3 (a : ndarray) (i j k : nat) : result cell :=
  match flat3 (shape a) i j k ≫= fun p => data a !! p with
  | Some v => Ok v
  | None => Raise IndexError
  end.

Definition set3 (a : ndarray) (i j k : nat) (v : cell) : result ndarray :=
  match flat3 (shape a) i j k with
  | Some p => Ok (mk_ndarray (shape a) (dtype a) (<[p := v]> (data a)))
  | None => Raise IndexError
  end.

(** [a.reshape((-1, bh, bw))] *)
Definition reshape_blocks (a : ndarray) (bh bw : nat) : result ndarray :=
  if (bh * bw =? 0)%nat then Raise (ValueError "cannot reshape array")
  else if (length (data a) mod (bh * bw) =? 0)%nat
  then Ok (mk_ndarray [(length (data a) / (bh * bw))%nat; bh; bw] (dtype a) (data a))
  else Raise (ValueError "cannot reshape array").

(** [a.transpose((0, 2, 1))] of a three-dimensional array, materialised. *)
Definition transpose_021 (a : ndarray) : result ndarray :=
  match shape a with
  | [n0; n1; n2] =>
      Ok (mk_ndarray [n0; n2; n1] (dtype a)
            (b ← seq 0 n0; x ← seq 0 n2; y ← seq 0 n1;
             [default NaN (data a !! ((b * n1 + y) * n2 + x)%nat)]))
  | _ => Raise (ValueError "axes don't match array")
  end.

Definition index_of (v : Z) (l : list Z) : option nat :=
  fst <$> list_find (fun x => x = v) l.

(** [np.intersect1d(ar1, ar2, assume_unique=True, return_indices=True)]:
    the common values in ascending order and their positions in both
    arguments. *)
Definition intersect1d (ar1 ar2 : list Z) : list Z * list nat * list nat :=
  let int1d := sort_by id (filter (fun v => v ∈ ar2) ar1) in
  (int1d, omap (fun v => index_of v ar1) int1d, omap (fun v => index_of v ar2) int1d).

Fixpoint foldlM {A B} (f : A -> B -> result A) (a : A) (l : list B) : result A :=
  match l with
  | [] => Ok a
  | b :: l' => a' ← f a b; foldlM f a' l'
  end.

(** [window[np.ix_(wbind, xs, ys)] = src[np.ix_(wbind, sxs, sys)]] *)
Definition ix_assign (window : ndarray) (wbind xs ys : list nat)
    (src : ndarray) (sxs sys : list nat) : result ndarray :=
  foldlM (fun w (p : (nat * nat * nat) * (nat * nat * nat)) =>
            v ← get3 src p.2.1.1 p.2.1.2 p.2.2;
            set3 w p.1.1.1 p.1.1.2 p.1.2 v)
         window
         (b ← wbind; xp ← zip xs sxs; yp ← zip ys sys;
          [((b, xp.1, yp.1), (b, xp.2, yp.2))]).

(** One turn of the loop [for iblk in subarrs]. *)
Definition stitch_block (crop_win : Win) (bw bh : nat) (wbind : list nat)
    (window : ndarray) (iblk : Key * Tile) : result ndarray :=
  let '(cx, cy, cw, ch) := crop_win in
  let wxind := arange cx (cx + cw) in
  let wyind := arange cy (cy + ch) in
  let ix := key_col iblk.1 * Z.of_nat bw in
  let iy := key_row iblk.1 * Z.of_nat bh in
  reshaped ← reshape_blocks (cells iblk.2) bh bw;
  iarr ← transpose_021 reshaped;
  let ixind := arange ix (ix + Z.of_nat bw) in
  let iyind := reverse (arange iy (iy + Z.of_nat bh)) in
  let xoverlap := intersect1d wxind ixind in
  let yoverlap := intersect1d wyind iyind in
  if (0 <? length xoverlap.1.2)%nat
     && (0 <? length (map (fun i => (0 <? i)%nat) yoverlap.1.2))%nat
  then ix_assign window wbind xoverlap.1.2 yoverlap.1.2 iarr xoverlap.2 yoverlap.2
  else Ok window.

(** The collector array: filled with the nodata value when that is truthy,
    left uninitialised otherwise. *)
Definition allocate_window (junk : nat -> cell) (nodata : option cell)
    (sh : list nat) (dt : DType) : ndarray :=
  match nodata with
  | Some fill => if truthy nodata then np_full sh fill dt else np_empty junk sh dt
  | None => np_empty junk sh dt
  end.

Definition stitch_at_time (junk : nat -> cell) (crop_win layout_win : Win)
    (items : option Z * list (Key * Tile)) : result (option Z * ndarray) :=
  let subarrs := items.2 in
  first ← (match subarrs with t :: _ => Ok t | [] => Raise IndexError end);
  let shp := shape (cells first.2) in
  (* get block sizes *)
  blk ← (match rev shp with
         | h :: w :: _ => Ok (w, h)
         | _ => Raise (ValueError "not enough values to unpack")
         end);
  let bw : nat := blk.1 in
  let bh : nat := blk.2 in
  let bbands := if (2 <? length shp)%nat
                then foldr Nat.add 0%nat (take (length shp - 2) shp) else 1%nat in
  let wbind := seq 0 bbands in
  let dtype := dtype (cells first.2) in
  let nodata := no_data_value first.2 in
  let '(cx, cy, cw, ch) := crop_win in
  (* allocate collector ndarray *)
  window ← (if (cw <? 0) || (ch <? 0)
            then Raise (ValueError "negative dimensions are not allowed")
            else Ok (allocate_window junk nodata [bbands; Z.to_nat cw; Z.to_nat ch] dtype));
  (* override classic bottom-left corner coord system to top-left *)
  nyblk ← (if (bh =? 0)%nat then Raise ZeroDivisionError
           else Ok (Z.quot layout_win.2 (Z.of_nat bh) - 1));
  let subarrs := map (fun t : Key * Tile =>
                        (SpatialKey (key_col t.1) (nyblk - key_row t.1), t.2)) subarrs in
  (* loop over blocks and merge into *)
  window ← foldlM (stitch_block crop_win bw bh wbind) window subarrs;
  (* return date (or None) - window tuple *)
  Ok (items.1, window).

(** ** Zonal mean: [polygonal_mean_timeseries] *)

(** The accumulator [[(sum, count)]], one pair per band. *)
Abbreviation Acc := (list (Q * Z)).

(** [(~np.isnan(grid)) & (grid != no_data)] for one pixel. *)
Definition without_no_data (no_data : option cell) (v : cell) : bool :=
  match v with
  | NaN => false
  | Num q => match no_data with
             | Some (Num n) => negb (Qeq_bool q n)
             | _ => true
             end
  end.

(** [grid[without_no_data]]: the values that are kept. *)
Definition kept_values (no_data : option cell) (grid : list cell) : list Q :=
  omap (fun v => match v with
                 | Num q => if without_no_data no_data v then Some q else None
                 | NaN => None
                 end) grid.

Definition Qsum (l : list Q) : Q := foldr Qplus 0%Q l.

(** [tile.cells[i]]: the grid of band [i]. *)
Definition band_grid (a : ndarray) (i : nat) : list cell :=
  let sz := size_of (tail (shape a)) in
  take sz (drop (i * sz) (data a)).

(** [len(tile.cells)] *)
Definition n_bands_of (a : ndarray) : result nat :=
  match shape a with
  | n :: _ => Ok n
  | [] => Raise TypeError
  end.

Definition combine_cells (no_data : option cell) (acc : Acc) (tile : Tile) : result Acc :=
  n_bands ← n_bands_of (cells tile);
  let acc := match acc with [] => replicate n_bands (0%Q, 0) | _ => acc end in
  foldlM (fun acc i =>
            let grid := band_grid (cells tile) i in
            let sum := Qsum (kept_values no_data grid) in
            let count := Z.of_nat (length (kept_values no_data grid)) in
            match acc !! i with
            | Some a => Ok (<[i := ((a.1 + sum)%Q, a.2 + count)]> acc)
            | None => Raise IndexError
            end)
         acc (seq 0 n_bands).

Definition combine_values (l1 l2 : Acc) : result Acc :=
  foldlM (fun l1 i =>
            match l1 !! i, l2 !! i with
            | Some a, Some b => Ok (<[i := ((a.1 + b.1)%Q, a.2 + b.2)]> l1)
            | _, _ => Raise IndexError
            end)
         l1 (seq 0 (length l2)).

(** [sum / count] on numpy scalars: [0/0] is NaN. *)
Definition to_mean (values : Q * Z) : cell :=
  if values.2 =? 0 then NaN else Num (values.1 / inject_Z values.2)%Q.

(** Spark's [aggregateByKey(zeroValue, seqFunc, combFunc)] on a partitioned
    collection: every partition folds its values into one combiner per key,
    starting from the zero value; the combiners of a key are then merged. *)
Section AggregateByKey.
Context {V U : Type}.

Definition merge_value {X} (f : U -> X -> result U) (create : X -> result U)
    (d : gmap Z U) (kv : Z * X) : result (gmap Z U) :=
  match d !! kv.1 with
  | Some u => u' ← f u kv.2; Ok (<[kv.1 := u']> d)
  | None => u ← create kv.2; Ok (<[kv.1 := u]> d)
  end.

Definition aggregateByKey (zeroValue : U) (seqFunc : U -> V -> result U)
    (combFunc : U -> U -> result U) (partitions : list (list (Z * V)))
  : result (gmap Z U) :=
  combiners ← mapM (foldlM (merge_value seqFunc (seqFunc zeroValue)) ∅) partitions;
  foldlM (merge_value combFunc Ok) ∅ (combiners ≫= map_to_list).
End AggregateByKey.

Section Zonal.
Context `{Collaborators}.

(** [partition] is how Spark has split the tiles of the layer. *)
Definition polygonal_mean_timeseries
    (partition : list (Key * Tile) -> list (list (Key * Tile)))
    (polygon : list (Q * Q)) (self : ImageCollection)
  : result (list (Z * list (list cell))) :=
  max_level ← (match list_find (fun kl : Z * TiledRasterLayer =>
                                  kl.1 = max_zoom (pyramid self))
                               (levels (pyramid self)) with
               | Some (_, kl) => Ok kl.2
               | None => Raise (KeyError "max_zoom")
               end);
  let masked_layer := store_mask polygon max_level in
  let no_data := md_no_data_value (layer_metadata masked_layer) in
  tiles ← numpy_rdd masked_layer;
  by_instant ← mapM (mapM (fun pair : Key * Tile =>
                             i ← key_instant pair.1; mret (i, pair.2)))
                    (partition tiles);
  polygon_mean_by_timestamp ←
    aggregateByKey [] (combine_cells no_data) combine_values by_instant;
  mret (map (fun tv : Z * Acc => (tv.1, [map to_mean tv.2]))
            (map_to_list polygon_mean_by_timestamp)).
End Zonal.

(** ** A reference instance of the collaborators

    A small deterministic stand-in for the external parts, on which the model
    can be run: a parenthesis check for [compile], a runner that knows three
    literal programs, slicing along the leading axis for [groupby], and a tile
    store whose primitives do the least their contract asks for. *)
Module Reference.

Fixpoint balanced (depth : nat) (s : string) : bool :=
  match s with
  | EmptyString => (depth =? 0)%nat
  | String c s' =>
      if Ascii.eqb c "("%char then balanced (S depth) s'
      else if Ascii.eqb c ")"%char
           then match depth with O => false | S d => balanced d s' end
           else balanced depth s'
  end.

Definition compile (source : string) : result unit :=
  if balanced 0 source then Ok tt else Raise SyntaxError.

Definition identity_udf : string := "def f(udf_data): return udf_data".
Definition empty_udf : string := "def f(udf_data): udf_data.set_datacube_list([])".
Definition twice_udf : string :=
  "def f(udf_data): udf_data.set_datacube_list(2 * udf_data.get_datacube_list())".

Definition as_int_udf : string :=
  "def f(udf_data): udf_data.set_datacube_list([DataCube(c.array.astype('int32')) for c in udf_data.get_datacube_list()])".

Definition astype_int32 (c : DataCube) : DataCube :=
  let a := array c in
  mk_DataCube (mk_DataArray (mk_ndarray (shape (values a)) dt_int32 (data (values a)))
                 (coords_t a) (coords_bands a) (dims a) (da_name a)).

Definition run_code (code : string) (d : UdfData) : result UdfData :=
  if negb (balanced 0 code) then Raise SyntaxError
  else if bool_decide (code = identity_udf) then Ok d
  else if bool_decide (code = empty_udf)
  then Ok (mk_UdfData (proj d) [] (user_context d))
  else if bool_decide (code = twice_udf)
  then Ok (mk_UdfData (proj d) (datacube_list d ++ datacube_list d)%list (user_context d))
  else if bool_decide (code = as_int_udf)
  then Ok (mk_UdfData (proj d) (map astype_int32 (datacube_list d)) (user_context d))
  else Raise (UdfExecutionError "NameError").

(** Slices along the leading axis, labelled by the [t] coordinate and
    ordered by label. *)
Definition groupby (a : DataArray) : list (Z * DataArray) :=
  match coords_t a, shape (values a) with
  | Some ts, _ :: rest =>
      let sz := size_of rest in
      sort_by fst
        (zip ts
           (map (fun i => mk_DataArray
                            (mk_ndarray rest (dtype (values a))
                               (take sz (drop (i * sz) (data (values a)))))
                            None (coords_bands a) (tail (dims a)) (da_name a))
                (seq 0 (length ts))))
  | _, _ => []
  end.

Definition convert (ct : CellType) (t : Tile) : Tile :=
  mk_Tile (mk_ndarray (shape (cells t))
             (match ct with FLOAT32 => dt_float32 | FLOAT64 => dt_float64
                       | _ => dt_int32 end)
             (data (cells t)))
          ct (no_data_value t).

Definition accept (pg : ProcessGraph) : result Visitor :=
  match pg with
  | mk_ProcessGraph [("run_udf", code)] =>
      Ok (SingleNodeUDFProcessGraphVisitor (Some (PyStr code)) None)
  | mk_ProcessGraph nodes =>
      Ok (GeotrellisTileProcessGraphVisitor (map fst nodes) (mk_Builder (map fst nodes)))
  end.

Definition to_spatial (l : TiledRasterLayer) : TiledRasterLayer :=
  mk_TiledRasterLayer SPATIAL (layer_metadata l)
    (map (fun t : Key * Tile => (SpatialKey (key_col t.1) (key_row t.1), t.2))
       <$> numpy_rdd l).

(** Modelled from the spec: the masking primitive of the tile store, which
    is not part of the sources; "pixels outside the polygon become nodata".
    The polygon is taken as the box spanned by its vertices and a pixel is
    inside when its centre is. *)
Definition in_box (polygon : list (Q * Q)) (x y : Q) : bool :=
  existsb (fun p : Q * Q => Qle_bool p.1 x) polygon
  && existsb (fun p : Q * Q => Qle_bool x p.1) polygon
  && existsb (fun p : Q * Q => Qle_bool p.2 y) polygon
  && existsb (fun p : Q * Q => Qle_bool y p.2) polygon.

Definition mask_tile (polygon : list (Q * Q)) (md : Metadata) (kt : Key * Tile)
  : Key * Tile :=
  let ld := layout_definition md in
  let tl := tileLayout ld in
  let ex := extent ld in
  let xres := ((xmax ex - xmin ex) / inject_Z (layoutCols tl * tileCols tl))%Q in
  let yres := ((ymax ex - ymin ex) / inject_Z (layoutRows tl * tileRows tl))%Q in
  let rows := nth 1 (shape (cells kt.2)) 1%nat in
  let cols := nth 2 (shape (cells kt.2)) 1%nat in
  let fill := default NaN (md_no_data_value md) in
  let keep (p : nat) : bool :=
    let i := Z.of_nat ((p / cols) mod rows) in
    let j := Z.of_nat (p mod cols) in
    in_box polygon
      (xmin ex + (inject_Z (key_col kt.1 * tileCols tl + j) + (1 # 2)) * xres)%Q
      (ymax ex - (inject_Z (key_row kt.1 * tileRows tl + i) + (1 # 2)) * yres)%Q in
  (kt.1,
   mk_Tile (mk_ndarray (shape (cells kt.2)) (dtype (cells kt.2))
              (imap (fun p v => if keep p then v else fill) (data (cells kt.2))))
           (cell_type kt.2) (no_data_value kt.2)).

Definition mask (polygon : list (Q * Q)) (l : TiledRasterLayer) : TiledRasterLayer :=
  mk_TiledRasterLayer (layer_type l) (layer_metadata l)
    (map (mask_tile polygon (layer_metadata l)) <$> numpy_rdd l).

Definition first_tile (name : string) (tiles : list Tile) : result Tile :=
  match tiles with t :: _ => Ok t | [] => Raise IndexError end.

Definition int_of_str (s : string) : result Z :=
  if bool_decide (s = "32") then Ok 32
  else if bool_decide (s = "16") then Ok 16
  else Raise (ValueError "invalid literal for int() with base 10").

Definition collaborators : Collaborators := {|
  py_compile := compile;
  py_int_of_str := int_of_str;
  run_user_code := run_code;
  groupby_t := groupby;
  datetime_now := fun _ => 0;
  convert_tile := convert;
  accept_process_graph := accept;
  numpy_composite := first_tile;
  store_to_spatial_layer := to_spatial;
  store_aggregate_by_cell := fun _ l => l;
  store_mapBands := fun _ l => l;
  store_retile := fun _ _ _ _ l => l;
  store_remove_overlap := fun _ _ _ _ l => l;
  store_mask := mask
|}.

End Reference.

(** ** Notions used to state the properties *)

(** The spatial part of a key. *)
Definition spatial_of (k : Key) : Key := SpatialKey (key_col k) (key_row k).

Definition is_spacetime (k : Key) : bool :=
  match k with SpaceTimeKey _ _ _ => true | SpatialKey _ _ => false end.

(** The instant of a space-time key (0 for a key that has none). *)
Definition instant_of (k : Key) : Z :=
  match k with SpaceTimeKey _ _ i => i | SpatialKey _ _ => 0 end.

(** The instants under which a level holds a tile for the spatial key [sk]. *)
Definition instants_at (sk : Key) (tiles : list (Key * Tile)) : list Z :=
  map (fun t : Key * Tile => instant_of t.1)
      (filter (fun t : Key * Tile => spatial_of t.1 = sk) tiles).

(** The visitor a reducer argument stands for ([reduce_dimension] visits a
    dict first). *)
Definition resolved `{Collaborators} (reducer : Reducer) : result Visitor :=
  match reducer with
  | ReducerDict pg => accept_process_graph pg
  | ReducerVisitor v => Ok v
  end.

(** The kept pixel values of band [i] over a list of tiles. *)
Definition band_pixels (no_data : option cell) (i : nat) (tiles : list Tile) : list Q :=
  tiles ≫= fun t => kept_values no_data (band_grid (cells t) i).

(** The accumulator that stands for a list of tiles with [n] bands: per band
    the sum and the number of the kept pixels. *)
Definition summary (no_data : option cell) (n : nat) (tiles : list Tile) : Acc :=
  map (fun i => (Qsum (band_pixels no_data i tiles),
                 Z.of_nat (length (band_pixels no_data i tiles))))
      (seq 0 n).

(** The tiles recorded under an instant. *)
Definition tiles_at {K} `{EqDecision K} (ts : K) (pairs : list (K * Tile)) : list Tile :=
  map snd (filter (fun kv : K * Tile => kv.1 = ts) pairs).

(** A dict of accumulators stands for the tiles seen so far under each
    instant. *)
Definition stands_for (nd : option cell) (n : nat) (d : gmap Z Acc)
    (m : Z -> list Tile) : Prop :=
  forall ts, d !! ts = match m ts with
                       | [] => None
                       | _ => Some (summary nd n (m ts))
                       end.

(** The tiles a level holds for an instant. *)
Definition tiles_of_instant (ts : Z) (tiles : list (Key * Tile)) : list Tile :=
  map snd (filter (fun t : Key * Tile => instant_of t.1 = ts) tiles).

(** Pairwise sum of two accumulators. *)
Definition add_acc (a b : Acc) : Acc :=
  zip_with (fun x y : Q * Z => ((x.1 + y.1)%Q, x.2 + y.2)) a b.

(** A well-formed three-dimensional array. *)
Definition is_3d (a : ndarray) (n0 n1 n2 : nat) : Prop :=
  shape a = [n0; n1; n2] /\ length (data a) = (n0 * n1 * n2)%nat.

(** The window pixel [(x, y)] lies in the pixel range of the block that is
    placed at column [c] and (flipped) row [r]. *)
Definition covers (crop_win : Win) (bw bh : nat) (c r : Z) (x y : nat) : bool :=
  let gx := crop_win.1.1.1 + Z.of_nat x in
  let gy := crop_win.1.1.2 + Z.of_nat y in
  (c * Z.of_nat bw <=? gx) && (gx <? c * Z.of_nat bw + Z.of_nat bw)
  && (r * Z.of_nat bh <=? gy) && (gy <? r * Z.of_nat bh + Z.of_nat bh).

(** The position in the data of the tile from which a covered window pixel
    of band [b] is filled. *)
Definition source_position (crop_win : Win) (bw bh : nat) (c r : Z) (b x y : nat) : nat :=
  let sx := Z.to_nat (crop_win.1.1.1 + Z.of_nat x - c * Z.of_nat bw) in
  let sy := Z.to_nat (r * Z.of_nat bh + Z.of_nat bh - 1 - (crop_win.1.1.2 + Z.of_nat y)) in
  ((b * bh + sy) * bw + sx)%nat.

(** ** Example data *)
Module Examples.

(** A 2 x 1 layout of 2 x 2 tiles over three instants. *)
Definition md : Metadata :=
  mk_Metadata (mk_Bounds (SpaceTimeKey 0 0 10) (SpaceTimeKey 1 0 30)) "EPSG:4326"
    (mk_LayoutDefinition (mk_Extent 0 0 8 4) (mk_TileLayout 2 1 2 2)) (Some (Num (-1))).

Definition tile (v : Z) : Tile :=
  mk_Tile (mk_ndarray [1; 2; 2]%nat dt_int32 (replicate 4 (Num (inject_Z v))))
          INT32 (Some (Num (inject_Z (- v)))).

Definition tiles : list (Key * Tile) :=
  [(SpaceTimeKey 0 0 30, tile 3); (SpaceTimeKey 1 0 10, tile 4);
   (SpaceTimeKey 0 0 10, tile 1); (SpaceTimeKey 1 0 30, tile 6);
   (SpaceTimeKey 0 0 20, tile 2); (SpaceTimeKey 1 0 20, tile 5)].

Definition omd : CollectionMetadata :=
  mk_CollectionMetadata (Some "t") (Some (mk_BandDimension "bands" ["B1"])) ["x"; "y"].

Definition layer : TiledRasterLayer := mk_TiledRasterLayer SPACETIME md (Ok tiles).

Definition cube : ImageCollection := mk_ImageCollection (mk_Pyramid [(0, layer)]) omd.

(** The group of the spatial key (0, 0), as [groupByKey] hands it over. *)
Definition group00 : Key * list (Key * Tile) :=
  (SpatialKey 0 0,
   [(SpaceTimeKey 0 0 30, tile 3); (SpaceTimeKey 0 0 10, tile 1);
    (SpaceTimeKey 0 0 20, tile 2)]).

Definition max_reducer : Reducer :=
  ReducerVisitor (GeotrellisTileProcessGraphVisitor ["max"] (mk_Builder ["max"])).

Definition udf_reducer : Reducer :=
  ReducerVisitor (SingleNodeUDFProcessGraphVisitor
                    (Some (PyStr Reference.identity_udf)) None).

Definition udf_graph : ProcessGraph :=
  mk_ProcessGraph [("run_udf", Reference.identity_udf)].

Definition px (dimension : string) (value : Z) : WindowEntry :=
  mk_WindowEntry dimension (Some (PyInt value)) (Some "px").

Definition metres (dimension : string) (value : Z) : WindowEntry :=
  mk_WindowEntry dimension (Some (PyInt value)) (Some "m").

(** One 4 x 4 tile over the extent [0, 4] x [0, 4]; the polygon covers
    its lower left 2 x 2 pixels, which hold 10, 20 and twice nodata. *)
Definition zonal_md : Metadata :=
  mk_Metadata (mk_Bounds (SpaceTimeKey 0 0 10) (SpaceTimeKey 0 0 10)) "EPSG:4326"
    (mk_LayoutDefinition (mk_Extent 0 0 4 4) (mk_TileLayout 1 1 4 4)) (Some (Num (-1))).

Definition zonal_tile : Tile :=
  mk_Tile (mk_ndarray [1; 4; 4]%nat dt_float32
             (map Num [7; 7; 7; 7;
                       7; 7; 7; 7;
                       10; 20; 7; 7;
                       -1; -1; 7; 7]%Q))
          FLOAT32 (Some (Num (-1))).

Definition zonal_cube : ImageCollection :=
  mk_ImageCollection
    (mk_Pyramid [(0, mk_TiledRasterLayer SPACETIME zonal_md
                       (Ok [(SpaceTimeKey 0 0 10, zonal_tile)]))])
    omd.

Definition zonal_polygon : list (Q * Q) := [(0, 0); (0, 2); (2, 2); (2, 0); (0, 0)]%Q.

(** A 2 x 2 grid of single-band 4 x 4 tiles, each with its own content. *)
Definition grid_md : Metadata :=
  mk_Metadata (mk_Bounds (SpatialKey 0 0) (SpatialKey 1 1)) "EPSG:4326"
    (mk_LayoutDefinition (mk_Extent 0 0 8 8) (mk_TileLayout 2 2 4 4)) None.

Definition grid_tile (content : nat -> cell) : Tile :=
  mk_Tile (mk_ndarray [1; 4; 4]%nat dt_float32 (map content (seq 0 16))) FLOAT32 None.

Definition grid (f00 f10 f01 f11 : nat -> cell) : list (Key * Tile) :=
  [(SpatialKey 0 0, grid_tile f00); (SpatialKey 1 0, grid_tile f10);
   (SpatialKey 0 1, grid_tile f01); (SpatialKey 1 1, grid_tile f11)].

Definition numbered (base : Z) (k : nat) : cell := Num (inject_Z (base + Z.of_nat k)).

End Examples.

(** * Further parts of the class *)

From Stdlib Require Import Qround.
From stdpp Require pretty.

(** ** [_collect_as_xarray]: from the tiles of a layer to one array *)

(** Python's true division. *)
Definition py_div (a b : Q) : result Q :=
  if Qeq_bool b 0 then Raise ZeroDivisionError else Ok (a / b)%Q.

(** [np.linspace(start, stop, num)] *)
Definition np_linspace (start stop : Q) (num : Z) : result (list Q) :=
  if num <? 0 then Raise (ValueError "Number of samples must be non-negative")
  else if num =? 1 then Ok [start]
  else Ok (map (fun i => (start + inject_Z i * ((stop - start) / inject_Z (num - 1)))%Q)
               (seqZ 0 num)).

(** The pixel window of a crop box given in the units of the layout extent
    (the [if crop_bounds] branch). *)
Definition crop_window_of_crop_bounds (layout_extent crop_bounds : Extent) (xres yres : Q)
  : result Win :=
  xmin' ← Qfloor <$> py_div (xmin crop_bounds - xmin layout_extent) xres;
  ymin' ← Qfloor <$> py_div (ymin crop_bounds - ymin layout_extent) yres;
  xmax' ← Qceiling <$> py_div (xmax crop_bounds - xmin layout_extent) xres;
  ymax' ← Qceiling <$> py_div (ymax crop_bounds - ymin layout_extent) yres;
  Ok (xmin', ymin', xmax' - xmin', ymax' - ymin').

(** [rdd.filter(f)] with a predicate that may raise. *)
Fixpoint filterM {A} (f : A -> result bool) (l : list A) : result (list A) :=
  match l with
  | [] => Ok []
  | a :: l' =>
      keep ← f a;
      rest ← filterM f l';
      Ok (if (keep : bool) then a :: rest else rest)
  end.

(** The predicate of the [filter] step: both ends of [crop_dates] belong to
    the range. *)
Definition within_crop_dates (has_time : bool) (crop_dates : option (Z * Z))
    (t : Key * Tile) : result bool :=
  match crop_dates with
  | Some (date_from, date_to) =>
      if has_time
      then i ← key_instant t.1; Ok ((date_from <=? i) && (i <=? date_to))
      else Ok true
  | None => Ok true
  end.

(** [(t[0].instant if has_time else None, (t[0], t[1]))] *)
Definition time_label (has_time : bool) (t : Key * Tile) : result (option Z * (Key * Tile)) :=
  if has_time then i ← key_instant t.1; Ok (Some i, t) else Ok (None, t).

(** The chain from [to_numpy_rdd()] to [collect()]: one stitched window per
    time label.  [junk] is what [np.empty] leaves in the window of a label. *)
Definition stitched_windows (junk : option Z -> nat -> cell) (has_time : bool)
    (crop_dates : option (Z * Z)) (crop_win layout_win : Win) (rdd : TiledRasterLayer)
  : result (list (option Z * ndarray)) :=
  tiles ← numpy_rdd rdd;
  kept ← filterM (within_crop_dates has_time crop_dates) tiles;
  labelled ← mapM (time_label has_time) kept;
  mapM (fun items : option Z * list (Key * Tile) =>
          stitch_at_time (junk items.1) crop_win layout_win items)
       (groupByKey labelled).

(** [collection.sort(key=lambda i: i[0])], done only for more than one
    element; a label [None] cannot be compared. *)
Definition sort_by_label {A} (collection : list (option Z * A))
  : result (list (option Z * A)) :=
  if (1 <? length collection)%nat
  then
    decorated ← mapM (fun i : option Z * A =>
                        match i.1 with
                        | Some k => Ok (k, i)
                        | None => Raise TypeError
                        end) collection;
    Ok (map snd (sort_by fst decorated))
  else Ok collection.

(** [a.reshape(list(a.shape[-2:]))] *)
Definition reshape_last_two (a : ndarray) : result ndarray :=
  let sh := drop (length (shape a) - 2) (shape a) in
  if (size_of sh =? length (data a))%nat then Ok (mk_ndarray sh (dtype a) (data a))
  else Raise (ValueError "cannot reshape array").

(** numpy's common element type of two arrays. *)
Definition promote (a b : DType) : DType :=
  match a, b with
  | dt_int32, dt_int32 => dt_int32
  | dt_float32, dt_float32 => dt_float32
  | _, _ => dt_float64
  end.

(** [np.stack(arrays)] *)
Definition np_stack (arrays : list ndarray) : result ndarray :=
  match arrays with
  | [] => Raise (ValueError "need at least one array to stack")
  | a :: rest =>
      if forallb (fun b => bool_decide (shape b = shape a)) rest
      then Ok (mk_ndarray (length arrays :: shape a)
                 (foldr promote (dtype a) (map dtype rest))
                 (concat (map data arrays)))
      else Raise (ValueError "all input arrays must have the same shape")
  end.

(** [a.shape[-3]] *)
Definition shape_third_last (a : ndarray) : result nat :=
  match rev (shape a) with
  | _ :: _ :: n :: _ => Ok n
  | _ => Raise IndexError
  end.

(** What [_collect_as_xarray] hands to [xr.DataArray]: the values, the
    dimension names and the coordinates, and the attributes it assigns to
    the result; or the array without content that stands for an empty
    selection, whose coordinates are all empty. *)
Record Collected : Type := mk_Collected {
  col_values : ndarray;
  col_dims : list string;
  col_t : option (list (option Z));
  col_bands : option (list string);
  col_x : list Q;
  col_y : list Q;
  col_nodata : option cell;
  col_crs : string
}.

Inductive CollectedArray : Type :=
  | EmptySelection (dims : list string) (coords : list string)
  | Filled (c : Collected).

Definition _collect_as_xarray (junk : option Z -> nat -> cell) (self : ImageCollection)
    (rdd : TiledRasterLayer) (crop_bounds : option Extent) (crop_dates : option (Z * Z))
  : result CollectedArray :=
  (* windows/dims are tuples of (xmin/mincol,ymin/minrow,width/cols,height/rows) *)
  let md := layer_metadata rdd in
  let layout_win := layout_window md in
  let layout_extent := extent (layout_definition md) in
  let layout_dim := (xmin layout_extent, ymin layout_extent,
                     (xmax layout_extent - xmin layout_extent)%Q,
                     (ymax layout_extent - ymin layout_extent)%Q) in
  xres ← py_div layout_dim.1.2 (inject_Z layout_win.1.2);
  yres ← py_div layout_dim.2 (inject_Z layout_win.2);
  crop_win ← match crop_bounds with
             | Some crop_bounds =>
                 crop_window_of_crop_bounds layout_extent crop_bounds xres yres
             | None => Ok (crop_window_of_bounds md)
             end;
  let crop_dim := ((layout_dim.1.1.1 + inject_Z crop_win.1.1.1 * xres)%Q,
                   (layout_dim.1.1.2 + inject_Z crop_win.1.1.2 * yres)%Q,
                   (inject_Z crop_win.1.2 * xres)%Q,
                   (inject_Z crop_win.2 * yres)%Q) in
  (* build metadata for the xarrays; coordinates are in the order of t,bands,x,y *)
  let has_time := has_temporal_dimension (metadata self) in
  let has_bands := has_band_dimension (metadata self) in
  coords_bands ← (if has_bands
                  then Some <$> (band_names <$> band_dimension (metadata self))
                  else Ok None);
  coords_x ← np_linspace (crop_dim.1.1.1 + (1 # 2) * xres)%Q
                         (crop_dim.1.1.1 + crop_dim.1.2 - (1 # 2) * xres)%Q crop_win.1.2;
  coords_y ← np_linspace (crop_dim.1.1.2 + (1 # 2) * yres)%Q
                         (crop_dim.1.1.2 + crop_dim.2 - (1 # 2) * yres)%Q crop_win.2;
  let dims := ((if has_time then ["t"] else []) ++
               (if has_bands then ["bands"] else []) ++ ["x"; "y"])%list in
  (* at every date stitch together the layer *)
  collection ← stitched_windows junk has_time crop_dates crop_win layout_win rdd;
  if (length collection =? 0)%nat
  then Ok (EmptySelection dims ((if has_bands then ["bands"] else []) ++ ["x"; "y"])%list)
  else
    collection ← sort_by_label collection;
    collection ← (if has_bands then Ok collection
                  else mapM (fun i : option Z * ndarray =>
                               a ← reshape_last_two i.2; Ok (i.1, a)) collection);
    (* collect to an xarray *)
    if has_time then
      npresult ← np_stack (map snd collection);
      bands ← (match coords_bands with
               | Some names => Ok names
               | None => Raise (KeyError "bands")
               end);
      n_bands ← shape_third_last npresult;
      let bands := if bool_decide (length bands <> n_bands)
                   then map (fun i : nat => "band_" +:+ pretty.pretty_nat i) (seq 0 n_bands)
                   else bands in
      Ok (Filled (mk_Collected npresult dims (Some (map fst collection)) (Some bands)
                    coords_x coords_y (md_no_data_value md) (crs md)))
    else
      first ← (match collection with i :: _ => Ok i | [] => Raise IndexError end);
      Ok (Filled (mk_Collected first.2 dims None coords_bands
                    coords_x coords_y (md_no_data_value md) (crs md))).

(** [_to_xarray]: the level of the highest zoom, uncropped. *)
Definition _to_xarray (junk : option Z -> nat -> cell) (self : ImageCollection)
  : result CollectedArray :=
  spatial_rdd ← (match list_find (fun kl : Z * TiledRasterLayer =>
                                    kl.1 = max_zoom (pyramid self))
                                 (levels (pyramid self)) with
                 | Some (_, kl) => Ok kl.2
                 | None => Raise (KeyError "max_zoom")
                 end);
  _collect_as_xarray junk self spatial_rdd None None.

(** ** Band detection for [ndvi] *)

(** [openeo.metadata.Band(name, common_name, wavelength_um)] *)
Record Band : Type := mk_Band {
  band_name : string;
  band_common_name : option string;
  band_wavelength_um : option Q
}.

Definition has_name (name : string) (b : Band) : bool := bool_decide (band_name b = name).

Definition has_common_name (name : string) (b : Band) : bool :=
  bool_decide (band_common_name b = Some name).

(** [[i for i, b in enumerate(coll) if pred(b)]] *)
Definition indices_where {A} (pred : A -> bool) (coll : list A) : list nat :=
  omap (fun ib : nat * A => if pred ib.2 then Some ib.1 else None) (imap pair coll).

(** The detection at the head of [_ndvi_v04]: each of the two lists is
    unpacked into exactly one index, and the [ValueError] of a failed
    unpacking is replaced by one with a message of its own. *)
Definition _ndvi_v04_indices (bands : list Band) : result (nat * nat) :=
  match indices_where (has_common_name "red") bands with
  | [red_index] =>
      match indices_where (has_common_name "nir") bands with
      | [nir_index] => Ok (red_index, nir_index)
      | _ => Raise (ValueError "Failed to detect 'red' and 'nir' bands")
      end
  | _ => Raise (ValueError "Failed to detect 'red' and 'nir' bands")
  end.

(** The local function [first_index_if(coll, pred, *fallbacks)] of
    [_ndvi_v10]. *)
Fixpoint first_index_if {A} (coll : list A) (pred : A -> bool)
    (fallbacks : list (A -> bool)) : option nat :=
  match fst <$> list_find (fun elem => pred elem = true) coll with
  | Some i => Some i
  | None =>
      match fallbacks with
      | head :: tail => first_index_if coll head tail
      | [] => None
      end
  end.

(** The [code] of the [OpenEOApiException]s of [_ndvi_v10]. *)
Inductive NdviError : Type :=
  | DimensionAmbiguous
  | BandExists
  | RedBandAmbiguous
  | NirBandAmbiguous.

(** Truth value of an optional string argument. *)
Definition truthy_str (s : option string) : bool :=
  match s with
  | Some s => negb (bool_decide (s = ""))
  | None => false
  end.

(** [_ndvi_v10] up to the call of [_ndvi_collection]: the checks and the
    resolution of the two band indices.  [has_bands], [band_names] and
    [bands] are what the cube metadata answers. *)
Definition _ndvi_v10_indices (has_bands : bool) (band_names : list string)
    (bands : list Band) (nir red target_band : option string) : NdviError + (nat * nat) :=
  if negb has_bands then inl DimensionAmbiguous
  else if truthy_str target_band && bool_decide (default "" target_band ∈ band_names)
  then inl BandExists
  else
    let red_index :=
      if negb (truthy_str red)
      then first_index_if bands (has_common_name "red") []
      else first_index_if bands (has_name (default "" red))
                          [has_common_name (default "" red)] in
    let nir_index :=
      if negb (truthy_str nir)
      then first_index_if bands (has_common_name "nir") []
      else first_index_if bands (has_name (default "" nir))
                          [has_common_name (default "" nir)] in
    match red_index with
    | None => inl RedBandAmbiguous
    | Some red_index =>
        match nir_index with
        | None => inl NirBandAmbiguous
        | Some nir_index => inr (red_index, nir_index)
        end
    end.

(** ** [apply] *)

Section Apply.
Context `{Collaborators}.

(** [apply] for a process that is a process graph (a dict) or a visitor
    object.  The result of [apply_tiles] is not kept, and a call that reaches
    the end of the method returns [None].  (A process given by its name
    takes the 0.4 path through the JVM, which is not part of this model.) *)
Definition apply (process : Reducer) (self : ImageCollection)
  : Exec (option ImageCollection) :=
  match process with
  | ReducerDict pg =>
      apply_callback ← lift (accept_process_graph pg);
      (* apply should leave metadata intact, so can do a simple call? *)
      Some <$> reduce_bands apply_callback self
  | ReducerVisitor (SingleNodeUDFProcessGraphVisitor udf context) =>
      let context := default [] context in
      match udf with
      | Some (PyStr udf) =>
          _ ← apply_tiles udf context self;
          mret None
      | _ => raise (UdfNotAString udf)
      end
  | ReducerVisitor _ => mret None
  end.

End Apply.

(** ** Further notions used to state the properties *)

(** Text made of ASCII characters only. *)
Fixpoint is_ascii_text (s : string) : bool :=
  match s with
  | EmptyString => true
  | String c s' => (Ascii.nat_of_ascii c <? 128)%nat && is_ascii_text s'
  end.

(** The names the tile store knows a temporal reducer by. *)
Definition reducer_names : list string :=
  ["Min"; "Max"; "Sum"; "Mean"; "Variance"; "StandardDeviation"].

(** The spatial key of a tile as a pair. *)
Definition col_row (t : Key * Tile) : Z * Z := (key_col t.1, key_row t.1).

(** [i] is the first position of [coll] whose element satisfies [p]. *)
Definition first_at {A} (p : A -> bool) (coll : list A) (i : nat) : Prop :=
  (exists x, coll !! i = Some x /\ p x = true) /\
  forall j y, (j < i)%nat -> coll !! j = Some y -> p y = false.

(** The band an argument of [ndvi] stands for: a band of that name, or
    failing that a band of that common name; without the argument, the band
    whose common name is [fallback]. *)
Definition resolved_band (bands : list Band) (arg : option string) (fallback : string)
    (i : nat) : Prop :=
  if truthy_str arg
  then first_at (has_name (default "" arg)) bands i \/
       (Forall (fun b => has_name (default "" arg) b = false) bands /\
        first_at (has_common_name (default "" arg)) bands i)
  else first_at (has_common_name fallback) bands i.

(** ** More example data *)
Module MoreExamples.

(** A single column of four rows of 2 x 2 tiles, of which the layer holds
    the first row only. *)
Definition strip_md : Metadata :=
  mk_Metadata (mk_Bounds (SpatialKey 0 0) (SpatialKey 0 0)) "EPSG:4326"
    (mk_LayoutDefinition (mk_Extent 0 0 2 8) (mk_TileLayout 1 4 2 2)) None.

Definition strip_tile : Tile :=
  mk_Tile (mk_ndarray [1; 2; 2]%nat dt_float32 (map (Examples.numbered 100) (seq 0 4)))
          FLOAT32 (Some (Num 7)).

(** The same tile with a nodata value of zero. *)
Definition zero_nodata_tile : Tile :=
  mk_Tile (mk_ndarray [1; 2; 2]%nat dt_float32 (map (Examples.numbered 100) (seq 0 4)))
          FLOAT32 (Some (Num 0)).

Definition junk : nat -> cell := Examples.numbered 900.

(** A cube that declares a temporal dimension but no band dimension. *)
Definition cube_without_bands : ImageCollection :=
  mk_ImageCollection (pyramid Examples.cube)
    (mk_CollectionMetadata (Some "t") None ["x"; "y"]).

(** A cube whose metadata names two bands while its tiles hold one. *)
Definition cube_out_of_sync : ImageCollection :=
  mk_ImageCollection (pyramid Examples.cube)
    (mk_CollectionMetadata (Some "t") (Some (mk_BandDimension "bands" ["B1"; "B2"]))
       ["x"; "y"]).

(** A cube that declares bands but no temporal dimension. *)
Definition timeless_cube : ImageCollection :=
  mk_ImageCollection (pyramid Examples.cube)
    (mk_CollectionMetadata None (Some (mk_BandDimension "bands" ["B1"])) ["x"; "y"]).

(** Two neighbouring tiles of the 2 x 2 grid, with their own content. *)
Definition west : Key * Tile := (SpatialKey 0 0, Examples.grid_tile (Examples.numbered 100)).
Definition east : Key * Tile := (SpatialKey 1 0, Examples.grid_tile (Examples.numbered 200)).

(** A spatial layer under a cube, to be reduced to a zonal mean. *)
Definition spatial_layer : TiledRasterLayer :=
  mk_TiledRasterLayer SPATIAL Examples.zonal_md (Ok [(SpatialKey 0 0, Examples.zonal_tile)]).

Definition spatial_cube : ImageCollection :=
  mk_ImageCollection (mk_Pyramid [(0, spatial_layer)]) Examples.omd.

Definition sentinel_bands : list Band :=
  [mk_Band "B02" (Some "blue") None; mk_Band "B04" (Some "red") None;
   mk_Band "B08" (Some "nir") None; mk_Band "red" (Some "rededge") None].

End MoreExamples.

(** * Properties *)

(** ** Sorting and grouping *)

Section SortBy.
Context {A : Type} (key : A -> Z).

Lemma insert_by_perm x l : insert_by key x l ≡ₚ x :: l.
Proof.
  induction l as [|y l IH]; simpl; [done|].
  destruct (key x <=? key y); [done|].
  rewrite IH. apply Permutation_swap.
Qed.

Lemma sort_by_perm l : sort_by key l ≡ₚ l.
Proof.
  induction l as [|x l IH]; simpl; [done|].
  rewrite insert_by_perm. by rewrite IH.
Qed.

Lemma insert_by_sorted x l :
  StronglySorted (fun a b => key a <= key b) l ->
  StronglySorted (fun a b => key a <= key b) (insert_by key x l).
Proof.
  induction 1 as [|y l Hs IH Hy]; simpl.
  - repeat constructor.
  - destruct (Z.leb_spec (key x) (key y)) as [Hle|Hgt].
    + constructor; [by constructor|].
      constructor; [done|].
      eapply Forall_impl; [exact Hy|]. simpl. intros; lia.
    + constructor; [done|].
      rewrite insert_by_perm. constructor; [lia|done].
Qed.

Lemma sort_by_sorted l : StronglySorted (fun a b => key a <= key b) (sort_by key l).
Proof.
  induction l as [|x l IH]; simpl; [constructor|].
  by apply insert_by_sorted.
Qed.

Lemma map_insert_by x l :
  map key (insert_by key x l) = insert_by id (key x) (map key l).
Proof.
  induction l as [|y l IH]; simpl; [done|].
  unfold id at 1. destruct (key x <=? key y); simpl; [done|]. by rewrite IH.
Qed.

Lemma map_sort_by l : map key (sort_by key l) = sort_by id (map key l).
Proof.
  induction l as [|x l IH]; simpl; [done|].
  by rewrite map_insert_by, IH.
Qed.

End SortBy.

Lemma insert_by_decorated {A} (key : A -> Z) (x : A) (d : list (Z * A)) :
  Forall (fun p => p.1 = key p.2) d ->
  map snd (insert_by fst (key x, x) d) = insert_by key x (map snd d).
Proof.
  induction 1 as [|[k y] d Hk _ IH]; simpl in *; [done|].
  subst k. destruct (key x <=? key y); simpl; [done|]. by rewrite IH.
Qed.

Lemma sort_by_decorated {A} (key : A -> Z) (l : list A) :
  Forall (fun p => p.1 = key p.2) (sort_by fst (map (fun a => (key a, a)) l)) /\
  map snd (sort_by fst (map (fun a => (key a, a)) l)) = sort_by key l.
Proof.
  induction l as [|x l [IH1 IH2]]; simpl; [by split|].
  split.
  - rewrite insert_by_perm. by constructor.
  - by rewrite insert_by_decorated, IH2.
Qed.

Lemma mapM_result_Ok {A B} (f : A -> result B) (g : A -> B) (l : list A) :
  Forall (fun a => f a = Ok (g a)) l -> mapM f l = Ok (map g l).
Proof.
  induction 1 as [|a l Ha _ IH]; simpl; [done|].
  by rewrite Ha; simpl; rewrite IH.
Qed.

Lemma sort_by_instant_Ok (l : list (Key * Tile)) :
  Forall (fun t => is_spacetime t.1 = true) l ->
  sort_by_instant l = Ok (sort_by (fun t => instant_of t.1) l).
Proof.
  intros Hst. unfold sort_by_instant.
  rewrite (mapM_result_Ok _ (fun t => (instant_of t.1, t))).
  - simpl. f_equal. apply (sort_by_decorated (fun t : Key * Tile => instant_of t.1)).
  - eapply Forall_impl; [exact Hst|]. intros [[c r|c r i] t]; simpl; [done|done].
Qed.

Lemma group_values {K V} `{EqDecision K} (f : V -> K) (k : K) (l : list V) :
  map snd (filter (fun kv : K * V => kv.1 = k) (map (fun t => (f t, t)) l))
  = filter (fun t => f t = k) l.
Proof.
  induction l as [|x l IH]; simpl; [done|].
  rewrite !filter_cons. simpl.
  destruct (decide (f x = k)); simpl.
  - by rewrite IH.
  - exact IH.
Qed.

Lemma length_groupByKey {K V} `{EqDecision K} (rdd : list (K * V)) :
  length (groupByKey rdd) = length (remove_dups (map fst rdd)).
Proof. unfold groupByKey. by rewrite length_map. Qed.

Lemma elem_of_groupByKey {K V} `{EqDecision K} (rdd : list (K * V)) (g : K * list V) :
  g ∈ groupByKey rdd <->
  g.1 ∈ map fst rdd /\ g.2 = map snd (filter (fun kv : K * V => kv.1 = g.1) rdd).
Proof.
  unfold groupByKey. rewrite list_elem_of_fmap. split.
  - intros (k & -> & Hk). simpl. split; [|done].
    by apply elem_of_remove_dups.
  - intros [Hk Hv]. exists g.1. split; [|by apply elem_of_remove_dups].
    destruct g; simpl in *; by subst.
Qed.

Lemma filter_converted (P : Key -> Prop) `{forall k, Decision (P k)}
    (f : Tile -> Tile) (l : list (Key * Tile)) :
  filter (fun t : Key * Tile => P t.1) (map (fun t : Key * Tile => (t.1, f t.2)) l)
  = map (fun t : Key * Tile => (t.1, f t.2)) (filter (fun t : Key * Tile => P t.1) l).
Proof.
  induction l as [|x l IH]; simpl; [done|].
  rewrite !filter_cons. simpl. destruct (decide (P x.1)); simpl.
  - by rewrite IH.
  - exact IH.
Qed.

Lemma np_array_Ok (a : ndarray) (l : list ndarray) (s : list nat) :
  Forall (fun b => shape b = s) (a :: l) ->
  np_array (a :: l)
  = Ok (mk_ndarray (length (a :: l) :: s) (dtype a) (concat (map data (a :: l)))).
Proof.
  intros Hs. apply Forall_cons in Hs as [Ha Hl]. unfold np_array.
  replace (forallb _ l) with true; [by rewrite Ha|].
  symmetry. apply forallb_forall. intros b Hb. apply bool_decide_eq_true.
  rewrite Ha. rewrite Forall_forall in Hl. apply Hl. by apply list_elem_of_In.
Qed.

Lemma remove_dups_NoDup_length {A} `{EqDecision A} (l : list A) :
  NoDup l -> length (remove_dups l) = length l.
Proof.
  induction 1 as [|x l Hx _ IH]; simpl; [done|].
  destruct (decide_rel elem_of x l); [done|]. simpl. by rewrite IH.
Qed.

Lemma instants_at_NoDup (sk : Key) (tiles : list (Key * Tile)) :
  Forall (fun t => is_spacetime t.1 = true) tiles ->
  NoDup (map fst tiles) ->
  NoDup (instants_at sk tiles).
Proof.
  intros Hst Hnd. unfold instants_at.
  assert (Hnd' : NoDup (map fst (filter (fun t : Key * Tile => spatial_of t.1 = sk) tiles))).
  { clear Hst. induction tiles as [|x l IH]; simpl; [constructor|].
    apply NoDup_cons in Hnd as [Hx Hl]. rewrite filter_cons.
    destruct (decide (spatial_of x.1 = sk)); simpl; [|by apply IH].
    constructor; [|by apply IH].
    intros Hin. apply Hx. apply list_elem_of_fmap in Hin as (y & -> & Hy).
    apply list_elem_of_fmap. exists y. split; [done|].
    by apply list_elem_of_filter in Hy as [_ Hy]. }
  assert (Hall : Forall (fun t : Key * Tile => is_spacetime t.1 = true /\ spatial_of t.1 = sk)
                   (filter (fun t : Key * Tile => spatial_of t.1 = sk) tiles)).
  { apply Forall_forall. intros t Ht. apply list_elem_of_filter in Ht as [Hsk Ht].
    split; [|done]. rewrite Forall_forall in Hst. by apply Hst. }
  revert Hnd' Hall.
  generalize (filter (fun t : Key * Tile => spatial_of t.1 = sk) tiles) as l.
  induction l as [|x l IH]; simpl; intros Hnd' Hall; [constructor|].
  apply NoDup_cons in Hnd' as [Hx Hl]. apply Forall_cons in Hall as [[Hxs Hxk] Hall].
  constructor; [|by apply IH].
  intros Hin. apply Hx.
  apply list_elem_of_fmap in Hin as (y & Hy & Hyl).
  apply list_elem_of_fmap. exists y. split; [|done].
  rewrite Forall_forall in Hall. destruct (Hall y Hyl) as [Hys Hyk].
  destruct x as [[?|c r i] tx], y as [[?|c' r' i'] ty]; simpl in *; try done.
  unfold spatial_of in *. simpl in *. congruence.
Qed.

Lemma _mapTransform_Ok (ld : LayoutDefinition) (k : Key) :
  layoutCols (tileLayout ld) <> 0 ->
  layoutRows (tileLayout ld) <> 0 ->
  exists e, _mapTransform ld k = Ok e.
Proof.
  intros Hc Hr. unfold _mapTransform.
  destruct (Z.eqb_spec (layoutCols (tileLayout ld)) 0); [done|].
  destruct (Z.eqb_spec (layoutRows (tileLayout ld)) 0); [done|].
  by eexists.
Qed.

Lemma band_dimension_if_declared (omd : CollectionMetadata) :
  exists bd, (if has_band_dimension omd
              then Some <$> band_dimension omd else Ok None) = Ok bd.
Proof.
  unfold has_band_dimension, band_dimension.
  destruct (band_dimension_decl omd); simpl; by eexists.
Qed.

(** ** Grouped mode groups by spatial key and sorts by instant *)

(** The groups of a level and the envelope of each group: for a level whose
    keys are unique, with [N] distinct spatial keys and [M] instants under
    each of them, the float tiles fall into [N] groups of size [M], every
    tile in the group of its (column, row); the envelope of a group is built
    from its tiles sorted by ascending instant. *)
Lemma spatiotemporal_groups_and_envelopes `{Collaborators}
    (context : UserContext) (md : Metadata) (omd : CollectionMetadata)
    (tiles : list (Key * Tile)) (N M : nat) (tile_shape : list nat) :
  Forall (fun t => is_spacetime t.1 = true) tiles ->
  NoDup (map fst tiles) ->
  length (remove_dups (map (fun t : Key * Tile => spatial_of t.1) tiles)) = N ->
  (forall sk, sk ∈ map (fun t : Key * Tile => spatial_of t.1) tiles ->
              length (remove_dups (instants_at sk tiles)) = M) ->
  length tile_shape = 3%nat ->
  Forall (fun t => shape (cells (convert_tile FLOAT32 t.2)) = tile_shape) tiles ->
  layoutCols (tileLayout (layout_definition md)) <> 0 ->
  layoutRows (tileLayout (layout_definition md)) <> 0 ->
  let floatrdd := map (fun t : Key * Tile => (t.1, convert_tile FLOAT32 t.2)) tiles in
  let groups := grouped_by_spatial_key floatrdd in
  length groups = N /\
  (forall t, t ∈ floatrdd ->
     exists g, g ∈ groups /\ g.1 = spatial_of t.1 /\ t ∈ g.2) /\
  Forall (fun g : Key * list (Key * Tile) =>
    length g.2 = M /\
    Forall (fun t => spatial_of t.1 = g.1) g.2 /\
    exists tile_list envelope cube,
      spatiotemporal_udf_data context md omd g = Ok (tile_list, envelope) /\
      tile_list ≡ₚ g.2 /\
      StronglySorted Z.le (map (fun t : Key * Tile => instant_of t.1) tile_list) /\
      datacube_list envelope = [cube] /\
      dims (array cube) = ["t"; "bands"; "x"; "y"] /\
      coords_t (array cube)
        = Some (sort_by id (map (fun t : Key * Tile => instant_of t.1) g.2)) /\
      shape (values (array cube)) = M :: tile_shape /\
      data (values (array cube)) = concat (map (fun t : Key * Tile => data (cells t.2)) tile_list))
    groups.
Proof.
  intros Hst Hnd HN HM Hlen Hshape Hcols Hrows floatrdd groups.
  assert (Hkeys : map (fun t : Key * Tile => spatial_of t.1) floatrdd
                  = map (fun t : Key * Tile => spatial_of t.1) tiles).
  { unfold floatrdd. rewrite map_map. done. }
  assert (Hgroup : forall sk,
            map snd (filter (fun kv : Key * (Key * Tile) => kv.1 = sk)
                       (map (fun t : Key * Tile =>
                               (SpatialKey (key_col t.1) (key_row t.1), t)) floatrdd))
            = map (fun t : Key * Tile => (t.1, convert_tile FLOAT32 t.2))
                  (filter (fun t : Key * Tile => spatial_of t.1 = sk) tiles)).
  { intros sk.
    etrans; [exact (group_values (fun t : Key * Tile => spatial_of t.1) sk floatrdd)|].
    unfold floatrdd.
    exact (filter_converted (fun k => spatial_of k = sk) (convert_tile FLOAT32) tiles). }
  split; [|split].
  - unfold groups, grouped_by_spatial_key. rewrite length_groupByKey.
    rewrite map_map. simpl. fold (spatial_of). rewrite <- HN. f_equal. f_equal.
    unfold floatrdd. by rewrite map_map.
  - intros t Ht. exists (spatial_of t.1, filter (fun u : Key * Tile => spatial_of u.1 = spatial_of t.1) floatrdd).
    split; [|split; [done|]].
    + unfold groups, grouped_by_spatial_key. apply elem_of_groupByKey. simpl. split.
      * rewrite map_map. simpl. apply list_elem_of_fmap. by exists t.
      * rewrite Hgroup. unfold floatrdd.
        exact (filter_converted (fun k => spatial_of k = spatial_of t.1) (convert_tile FLOAT32) tiles).
    + simpl. by apply list_elem_of_filter.
  - apply Forall_forall. intros [sk members] Hg.
    unfold groups, grouped_by_spatial_key in Hg.
    apply elem_of_groupByKey in Hg as [Hsk Hmembers]. simpl in Hsk, Hmembers.
    rewrite Hgroup in Hmembers. rewrite map_map in Hsk. simpl in Hsk.
    change (sk ∈ map (fun t : Key * Tile => spatial_of t.1) floatrdd) in Hsk.
    rewrite Hkeys in Hsk.
    set (G := filter (fun t : Key * Tile => spatial_of t.1 = sk) tiles) in *.
    assert (HG : forall t, t ∈ G -> t ∈ tiles /\ spatial_of t.1 = sk).
    { intros t Ht. apply list_elem_of_filter in Ht. tauto. }
    assert (HlenG : length G = M).
    { rewrite <- (HM sk Hsk), remove_dups_NoDup_length by by apply instants_at_NoDup.
      unfold instants_at. by rewrite length_map. }
    simpl. subst members. split; [by rewrite length_map|]. split.
    { apply Forall_forall. intros t Ht. apply list_elem_of_fmap in Ht as (u & -> & Hu).
      simpl. by apply HG. }
    set (members := map (fun t : Key * Tile => (t.1, convert_tile FLOAT32 t.2)) G).
    assert (Hst' : Forall (fun t : Key * Tile => is_spacetime t.1 = true) members).
    { apply Forall_forall. intros t Ht. apply list_elem_of_fmap in Ht as (u & -> & Hu).
      simpl. rewrite Forall_forall in Hst. apply Hst. by apply HG. }
    assert (Hshape' : Forall (fun t : Key * Tile => shape (cells t.2) = tile_shape) members).
    { apply Forall_forall. intros t Ht. apply list_elem_of_fmap in Ht as (u & -> & Hu).
      simpl. rewrite Forall_forall in Hshape. apply Hshape. by apply HG. }
    set (sorted := sort_by (fun t : Key * Tile => instant_of t.1) members).
    assert (Hperm : sorted ≡ₚ members) by apply sort_by_perm.
    assert (Hlen_sorted : length sorted = M).
    { rewrite Hperm. unfold members. by rewrite length_map. }
    unfold spatiotemporal_udf_data. simpl.
    rewrite (sort_by_instant_Ok members Hst'). simpl. fold sorted.
    rewrite (mapM_result_Ok _ (fun t : Key * Tile => instant_of t.1)).
    2:{ rewrite Hperm. eapply Forall_impl; [exact Hst'|].
        intros [[c r|c r i] t]; simpl; done. }
    simpl.
    assert (Hne : exists t0 rest, sorted = t0 :: rest).
    { destruct sorted as [|t0 rest] eqn:E; [|by eauto].
      exfalso. apply Permutation_nil_l in Hperm. unfold members in Hperm.
      apply list_elem_of_fmap in Hsk as (u & Hu & Hin).
      assert (u ∈ G) by (apply list_elem_of_filter; by split).
      destruct G; [by apply elem_of_nil in H0|done]. }
    destruct Hne as (t0 & rest & Hsorted).
    assert (Hshape_sorted : Forall (fun b => shape b = tile_shape)
                              (map (fun t : Key * Tile => cells t.2) sorted)).
    { rewrite Hperm. apply Forall_fmap. exact Hshape'. }
    rewrite Hsorted in Hshape_sorted |- *. simpl in Hshape_sorted.
    change (map (fun t : Key * Tile => cells t.2) (t0 :: rest))
      with (cells t0.2 :: map (fun t : Key * Tile => cells t.2) rest).
    rewrite (np_array_Ok _ _ tile_shape Hshape_sorted). simpl.
    destruct (_mapTransform_Ok (layout_definition md) t0.1 Hcols Hrows) as [ext Hext].
    rewrite Hext. simpl.
    destruct (band_dimension_if_declared omd) as [bd Hbd]. rewrite Hbd. simpl.
    eexists _, _, _. split; [reflexivity|].
    assert (H4 : bool_decide
              (length (S (length (map (fun t : Key * Tile => cells t.2) rest)) :: tile_shape)
               = 4%nat) = true).
    { apply bool_decide_eq_true. simpl. by rewrite Hlen. }
    unfold _tile_to_datacube. simpl shape. rewrite H4. simpl.
    split; [by rewrite <- Hsorted|].
    split.
    { change (StronglySorted Z.le (map (fun t : Key * Tile => instant_of t.1) (t0 :: rest))).
      rewrite <- Hsorted. unfold sorted.
      eapply (StronglySorted_fmap _ (fun a b : Key * Tile => instant_of a.1 <= instant_of b.1));
        [|apply sort_by_sorted].
      simpl. intros; done. }
    split; [done|]. split; [done|]. split.
    { simpl. f_equal.
      change (map (fun t : Key * Tile => instant_of t.1) (t0 :: rest)
              = sort_by id (map (fun t : Key * Tile => instant_of t.1) members)).
      rewrite <- Hsorted. unfold sorted. apply map_sort_by. }
    split.
    { simpl. f_equal. rewrite length_map. rewrite <- Hlen_sorted, Hsorted. done. }
    simpl. by rewrite map_map.
Qed.

(** ** The UDF pipeline: identity, result-count contract, output tiles *)

Lemma tilefunction_identity `{Collaborators} (function : string) (context : UserContext)
    (md : Metadata) (omd : CollectionMetadata) (kt : Key * Tile) :
  (forall d, run_user_code function d = Ok d) ->
  has_band_dimension omd = true ->
  layoutCols (tileLayout (layout_definition md)) <> 0 ->
  layoutRows (tileLayout (layout_definition md)) <> 0 ->
  tilefunction function context md omd kt = Ok kt.
Proof.
  intros Hid Hband Hc Hr. unfold tilefunction.
  destruct (_mapTransform_Ok (layout_definition md) kt.1 Hc Hr) as [ext ->]. simpl.
  unfold has_band_dimension in Hband. unfold band_dimension.
  destruct (band_dimension_decl omd) as [bd|]; [|done]. simpl.
  rewrite Hid. simpl. by destruct kt as [k [c ct nd]].
Qed.

Lemma mapM_result_id {A} (f : A -> result A) (l : list A) :
  Forall (fun a => f a = Ok a) l -> mapM f l = Ok l.
Proof.
  intros Hf. rewrite (mapM_result_Ok f id); [by rewrite map_id|done].
Qed.

Lemma rdd_function_identity `{Collaborators} (function : string) (context : UserContext)
    (omd : CollectionMetadata) (rdd : TiledRasterLayer) :
  (forall d, run_user_code function d = Ok d) ->
  has_band_dimension omd = true ->
  layoutCols (tileLayout (layout_definition (layer_metadata rdd))) <> 0 ->
  layoutRows (tileLayout (layout_definition (layer_metadata rdd))) <> 0 ->
  rdd_function function context omd rdd = convert_data_type FLOAT32 rdd.
Proof.
  intros Hid Hband Hc Hr. unfold rdd_function, convert_data_type. simpl. f_equal.
  destruct (numpy_rdd rdd) as [tiles|e]; simpl; [|done].
  apply mapM_result_id. apply Forall_forall. intros kt _.
  by apply tilefunction_identity.
Qed.

Lemma Exec_bind_eq {A B} (m : Exec A) (f : A -> Exec B) (log : list StoreCall) :
  (m ≫= f) log
  = match m log with
    | (Ok a, log') => f a log'
    | (Raise e, log') => (Raise e, log')
    end.
Proof. reflexivity. Qed.

Lemma Exec_ret_eq {A} (a : A) (log : list StoreCall) :
  (mret a : Exec A) log = (Ok a, log).
Proof. reflexivity. Qed.

Lemma Exec_fmap_eq {A B} (g : A -> B) (m : Exec A) (log : list StoreCall) :
  (g <$> m) log
  = match m log with
    | (Ok a, log') => (Ok (g a), log')
    | (Raise e, log') => (Raise e, log')
    end.
Proof. reflexivity. Qed.

Lemma Exec_bind_lift_Ok {A B} (a : A) (f : A -> Exec B) (log : list StoreCall) :
  (lift (Ok a) ≫= f) log = f a log.
Proof. reflexivity. Qed.

Lemma Exec_bind_lift_Raise {A B} (e : Error) (f : A -> Exec B) (log : list StoreCall) :
  (lift (Raise e) ≫= f) log = (Raise e, log).
Proof. reflexivity. Qed.

Lemma Exec_mapM_cons {A B} (f : A -> Exec B) (x : A) (l : list A) (log : list StoreCall) :
  mapM f (x :: l) log
  = match f x log with
    | (Ok y, log1) =>
        match mapM f l log1 with
        | (Ok k, log2) => (Ok (y :: k), log2)
        | (Raise e, log2) => (Raise e, log2)
        end
    | (Raise e, log1) => (Raise e, log1)
    end.
Proof.
  change (mapM f (x :: l)) with (y ← f x; k ← mapM f l; mret (y :: k)).
  rewrite Exec_bind_eq. destruct (f x log) as [[y|e] log1]; [|done].
  rewrite Exec_bind_eq. by destruct (mapM f l log1) as [[k|e] log2].
Qed.

(** [apply_to_levels] with a function that returns on every level. *)
Lemma apply_to_levels_returns `{Collaborators}
    (func : TiledRasterLayer -> Exec TiledRasterLayer)
    (g : TiledRasterLayer -> TiledRasterLayer) (self : ImageCollection) :
  Forall (fun kl : Z * TiledRasterLayer =>
            forall log, exists log', func kl.2 log = (Ok (g kl.2), log'))
         (levels (pyramid self)) ->
  levels (pyramid self) <> [] ->
  forall log, exists log',
    apply_to_levels func self log
    = (Ok (mk_ImageCollection
             (mk_Pyramid (map (fun kl : Z * TiledRasterLayer => (kl.1, g kl.2))
                              (levels (pyramid self))))
             (metadata self)), log').
Proof.
  intros Hall Hne log. unfold apply_to_levels.
  assert (HmapM : forall log, exists log',
            mapM (fun kl : Z * TiledRasterLayer => l ← func kl.2; mret (kl.1, l))
                 (levels (pyramid self)) log
            = (Ok (map (fun kl : Z * TiledRasterLayer => (kl.1, g kl.2))
                       (levels (pyramid self))), log')).
  { clear Hne. induction Hall as [|kl l Hkl _ IH]; intros log0.
    - by eexists.
    - rewrite Exec_mapM_cons, Exec_bind_eq.
      destruct (Hkl log0) as [log1 ->]. rewrite Exec_ret_eq.
      destruct (IH log1) as [log2 ->]. by eexists. }
  destruct (HmapM log) as [log' Hm].
  rewrite Exec_bind_eq, Hm.
  destruct (levels (pyramid self)) as [|kl l] eqn:E; [done|].
  by eexists.
Qed.

(** Without a band dimension the tile function fails on every tile: it
    reads [openeo_metadata.band_dimension] unguarded. *)
Lemma tilefunction_without_bands `{Collaborators} (function : string) (context : UserContext)
    (md : Metadata) (omd : CollectionMetadata) (kt : Key * Tile) :
  has_band_dimension omd = false ->
  layoutCols (tileLayout (layout_definition md)) <> 0 ->
  layoutRows (tileLayout (layout_definition md)) <> 0 ->
  tilefunction function context md omd kt = Raise MetadataException.
Proof.
  intros Hband Hc Hr. unfold tilefunction.
  destruct (_mapTransform_Ok (layout_definition md) kt.1 Hc Hr) as [ext ->]. simpl.
  unfold has_band_dimension in Hband. unfold band_dimension.
  by destruct (band_dimension_decl omd).
Qed.

Lemma rdd_function_without_bands `{Collaborators} (function : string) (context : UserContext)
    (omd : CollectionMetadata) (rdd : TiledRasterLayer) (tiles : list (Key * Tile)) :
  has_band_dimension omd = false ->
  layoutCols (tileLayout (layout_definition (layer_metadata rdd))) <> 0 ->
  layoutRows (tileLayout (layout_definition (layer_metadata rdd))) <> 0 ->
  numpy_rdd rdd = Ok tiles -> tiles <> [] ->
  numpy_rdd (rdd_function function context omd rdd) = Raise MetadataException.
Proof.
  intros Hband Hc Hr Htiles Hne. unfold rdd_function, convert_data_type.
  cbn [numpy_rdd]. rewrite Htiles. destruct tiles as [|t rest]; [done|].
  set (g := fun t : Key * Tile => (t.1, convert_tile FLOAT32 t.2)).
  set (f := tilefunction function context (layer_metadata rdd) omd).
  change ((y ← f (g t); k ← mapM f (map g rest); mret (y :: k)) = Raise MetadataException).
  unfold f. by rewrite (tilefunction_without_bands _ _ _ _ (g t) Hband Hc Hr).
Qed.


(** The sorted group is not empty when the envelope could be built. *)
Lemma spatiotemporal_udf_data_inv `{Collaborators} (context : UserContext) (md : Metadata)
    (omd : CollectionMetadata) (tiles : Key * list (Key * Tile))
    (tile_list : list (Key * Tile)) (envelope : UdfData) :
  spatiotemporal_udf_data context md omd tiles = Ok (tile_list, envelope) ->
  sort_by_instant tiles.2 = Ok tile_list /\ exists first rest, tile_list = first :: rest.
Proof.
  unfold spatiotemporal_udf_data. intros Hd.
  destruct (sort_by_instant tiles.2) as [tl|] eqn:Es; simpl in Hd; [|done].
  destruct (mapM _ tl) as [dates|]; simpl in Hd; [|done].
  destruct (np_array _) as [arr|]; simpl in Hd; [|done].
  destruct tl as [|first rest]; simpl in Hd; [done|].
  destruct (_mapTransform _ _) as [ext|]; simpl in Hd; [|done].
  destruct (if has_band_dimension omd then _ else _) as [bd|]; simpl in Hd; [|done].
  injection Hd as <- _. split; [done|]. by eexists _, _.
Qed.

(** C7. In single-tile mode and in grouped mode alike, once the user
    function has returned, the tile function raises the contract violation
    exactly when the number of returned cubes is not one; with exactly one
    cube it returns the tiles rebuilt from that cube. *)
Theorem udf_result_count_contract `{Collaborators} (function : string)
    (context : UserContext) (md : Metadata) (omd : CollectionMetadata) :
  (forall (geotrellis_tile : Key * Tile) ext bd result_data,
     _mapTransform (layout_definition md) geotrellis_tile.1 = Ok ext ->
     band_dimension omd = Ok bd ->
     run_user_code function
       (mk_UdfData ("EPSG", 900913)
          [_tile_to_datacube (cells geotrellis_tile.2) ext (Some bd) None] context)
       = Ok result_data ->
     ((exists cubes, tilefunction function context md omd geotrellis_tile
                     = Raise (UdfContractViolation cubes))
      <-> length (datacube_list result_data) <> 1%nat) /\
     (forall cube, datacube_list result_data = [cube] ->
        tilefunction function context md omd geotrellis_tile
        = Ok (geotrellis_tile.1,
              mk_Tile (values (array cube)) (cell_type geotrellis_tile.2)
                      (no_data_value geotrellis_tile.2))))
  /\
  (forall (tiles : Key * list (Key * Tile)) tile_list envelope result_data,
     spatiotemporal_udf_data context md omd tiles = Ok (tile_list, envelope) ->
     run_user_code function envelope = Ok result_data ->
     ((exists cubes, spatiotemporal_tilefunction function context md omd tiles
                     = Raise (UdfContractViolation cubes))
      <-> length (datacube_list result_data) <> 1%nat) /\
     (forall cube, datacube_list result_data = [cube] ->
        exists first rest,
          tile_list = first :: rest /\
          spatiotemporal_tilefunction function context md omd tiles
          = Ok (if bool_decide ("t" ∈ dims (array cube))
                then map (fun g : Z * DataArray =>
                            (SpaceTimeKey (key_col tiles.1) (key_row tiles.1) g.1,
                             mk_Tile (values g.2) FLOAT32 (no_data_value first.2)))
                         (groupby_t (array cube))
                else [(SpaceTimeKey (key_col tiles.1) (key_row tiles.1)
                         (datetime_now tiles.1),
                       mk_Tile (values (array cube)) FLOAT32 (no_data_value first.2))]))).
Proof.
  split.
  - intros kt ext bd rd Hext Hbd Hrun. unfold tilefunction.
    rewrite Hext. simpl. rewrite Hbd. simpl. rewrite Hrun. simpl.
    destruct (datacube_list rd) as [|cube [|cube' cubes]]; simpl.
    + split; [split; [intros _; lia|intros _; by eexists]|done].
    + split; [split; [by intros [? ?]|lia]|]. by intros ? [= ->].
    + split; [split; [intros _; lia|intros _; by eexists]|done].
  - intros tiles tl env rd Hdata Hrun.
    destruct (spatiotemporal_udf_data_inv _ _ _ _ _ _ Hdata) as [_ (first & rest & ->)].
    unfold spatiotemporal_tilefunction. rewrite Hdata. simpl. rewrite Hrun. simpl.
    unfold spatiotemporal_tiles_of_result.
    destruct (datacube_list rd) as [|cube [|cube' cubes]]; simpl.
    + split; [split; [intros _; lia|intros _; by eexists]|done].
    + split.
      * split; [|lia]. intros [? Hx]. by destruct (bool_decide _).
      * intros ? [= ->]. exists first, rest. split; [done|].
        by destruct (bool_decide _).
    + split; [split; [intros _; lia|intros _; by eexists]|done].
Qed.

Lemma mapM_result_inv {A B} (f : A -> result B) (l : list A) (k : list B) :
  mapM f l = Ok k -> Forall2 (fun a b => f a = Ok b) l k.
Proof.
  revert k. induction l as [|a l IH]; intros k Hk.
  - injection Hk as <-. constructor.
  - change (mapM f (a :: l)) with (y ← f a; k ← mapM f l; mret (y :: k)) in Hk.
    destruct (f a) as [b|] eqn:Ea; simpl in Hk; [|done].
    destruct (mapM f l) as [k'|]; simpl in Hk; [|done].
    injection Hk as <-. constructor; [done|]. by apply IH.
Qed.

Lemma sort_by_instant_inv (l tile_list : list (Key * Tile)) :
  sort_by_instant l = Ok tile_list ->
  Forall (fun t : Key * Tile => is_spacetime t.1 = true) l /\
  tile_list = sort_by (fun t : Key * Tile => instant_of t.1) l.
Proof.
  intros Hs.
  assert (Hst : Forall (fun t : Key * Tile => is_spacetime t.1 = true) l).
  { unfold sort_by_instant in Hs.
    destruct (mapM _ l) as [d|] eqn:Ed; simpl in Hs; [|done].
    apply mapM_result_inv in Ed. clear Hs.
    induction Ed as [|a b l d Hab _ IH]; constructor; [|done].
    by destruct a as [[c r|c r i] t]. }
  split; [done|]. rewrite (sort_by_instant_Ok l Hst) in Hs. by injection Hs.
Qed.

(** The head of a list sorted by [key] carries the least key. *)
Lemma sort_by_head_least {A} (key : A -> Z) (l : list A) (x : A) (rest : list A) :
  sort_by key l = x :: rest -> Forall (fun a => key x <= key a) l.
Proof.
  intros Hs. pose proof (sort_by_sorted key l) as Hsorted.
  rewrite Hs in Hsorted. apply StronglySorted_inv in Hsorted as [_ Hx].
  rewrite <- (sort_by_perm key l), Hs. constructor; [lia|done].
Qed.

(** C10. Every tile that grouped mode returns has cell type FLOAT32, whatever
    the array of the user function holds, and carries the nodata value of the
    first tile of the group sorted by ascending instant, which is a tile of
    the group with the earliest instant. *)
Theorem grouped_mode_output_tiles `{Collaborators} (function : string)
    (context : UserContext) (md : Metadata) (omd : CollectionMetadata)
    (tiles : Key * list (Key * Tile)) (out : list (Key * Tile)) :
  spatiotemporal_tilefunction function context md omd tiles = Ok out ->
  exists first rest,
    sort_by_instant tiles.2 = Ok (first :: rest) /\
    first ∈ tiles.2 /\
    Forall (fun t : Key * Tile => is_spacetime t.1 = true
                                  /\ instant_of first.1 <= instant_of t.1) tiles.2 /\
    Forall (fun o : Key * Tile =>
              cell_type o.2 = FLOAT32 /\ no_data_value o.2 = no_data_value first.2) out.
Proof.
  unfold spatiotemporal_tilefunction. intros Hout.
  destruct (spatiotemporal_udf_data context md omd tiles) as [[tl env]|] eqn:Hdata;
    simpl in Hout; [|done].
  destruct (spatiotemporal_udf_data_inv _ _ _ _ _ _ Hdata) as [Hsort (first & rest & ->)].
  destruct (sort_by_instant_inv _ _ Hsort) as [Hst Hsorted].
  exists first, rest. split; [done|]. split; [|split].
  - rewrite <- (sort_by_perm (fun t : Key * Tile => instant_of t.1) tiles.2), <- Hsorted.
    apply list_elem_of_here.
  - apply Forall_and. split; [done|].
    by apply (sort_by_head_least (fun t : Key * Tile => instant_of t.1) _ first rest).
  - destruct (run_user_code function env) as [rd|]; simpl in Hout; [|done].
    unfold spatiotemporal_tiles_of_result in Hout.
    destruct (datacube_list rd) as [|cube [|cube' cubes]]; simpl in Hout; try done.
    destruct (bool_decide _); injection Hout as <-.
    + apply Forall_fmap, Forall_forall. by intros g _.
    + by repeat constructor.
Qed.

(** ** Eager syntax check *)

(** C3 (grouped mode checks, single-tile mode does not).  When the builtin
    [compile] rejects the code, [apply_tiles_spatiotemporal] raises at once,
    before any call into the tile store; [apply_tiles] on the same code
    returns a collection. *)
Theorem syntax_check_only_in_grouped_mode `{Collaborators} (function : string)
    (context : UserContext) (self : ImageCollection) :
  py_compile function = Raise SyntaxError ->
  levels (pyramid self) <> [] ->
  run (apply_tiles_spatiotemporal function context self) = (Raise SyntaxError, []) /\
  exists out log, run (apply_tiles function context self) = (Ok out, log).
Proof.
  intros Hc Hne. split.
  - unfold run, apply_tiles_spatiotemporal. rewrite Exec_bind_eq. unfold lift. by rewrite Hc.
  - pose (F := fun rdd : TiledRasterLayer =>
          (_ ← call_store (ConvertDataType FLOAT32);
           _ ← call_store ToNumpyRdd;
           _ ← call_store (FromNumpyRdd (layer_type rdd));
           mret (rdd_function function context (metadata self) rdd)) : Exec TiledRasterLayer).
    pose (G := rdd_function function context (metadata self)).
    assert (HF : Forall (fun kl : Z * TiledRasterLayer =>
              forall log, exists log', F kl.2 log = (Ok (G kl.2), log'))
              (levels (pyramid self))).
    { apply Forall_forall. intros kl _ log. by eexists. }
    destruct (apply_to_levels_returns F G self HF Hne []) as [log Hrun].
    by eexists _, log.
Qed.

(** ** The dispatcher *)

(** C2 (the silent branch).  A UDF reducer whose dimension is neither the
    temporal nor the band dimension makes [reduce_dimension] return [None]:
    nothing is raised and the tile store is not called. *)
Theorem reduce_dimension_udf_other_dimension `{Collaborators} (self : ImageCollection)
    (dimension udf : string) (context : option UserContext)
    (tname : string) (bdim : BandDimension) :
  temporal_dimension_decl (metadata self) = Some tname ->
  band_dimension_decl (metadata self) = Some bdim ->
  dimension <> tname ->
  dimension <> band_dim_name bdim ->
  run (reduce_dimension dimension
         (ReducerVisitor (SingleNodeUDFProcessGraphVisitor (Some (PyStr udf)) context))
         self)
  = (Ok None, []).
Proof.
  intros Ht Hb Hnt Hnb. unfold run, reduce_dimension.
  rewrite Exec_bind_eq, Exec_ret_eq. rewrite Exec_bind_eq.
  rewrite Exec_bind_eq. unfold lift, temporal_dimension, band_dimension.
  rewrite Ht. rewrite bool_decide_eq_false_2 by done.
  rewrite Exec_bind_eq. rewrite Hb. rewrite bool_decide_eq_false_2 by done.
  reflexivity.
Qed.



(** ** The zonal mean *)

(** Addition of rationals is a commutative monoid for Leibniz equality. *)
Lemma Qplus_comm_L (a b : Q) : (a + b)%Q = (b + a)%Q.
Proof.
  destruct a as [an ad], b as [bn bd]. unfold Qplus. simpl. f_equal; [lia|].
  apply Pos.mul_comm.
Qed.

Lemma Qplus_assoc_L (a b c : Q) : (a + (b + c))%Q = ((a + b) + c)%Q.
Proof.
  destruct a as [an ad], b as [bn bd], c as [cn cd]. unfold Qplus. simpl.
  f_equal; [|apply Pos.mul_assoc].
  rewrite !Pos2Z.inj_mul. ring.
Qed.

Lemma Qplus_0_l_L (a : Q) : (0 + a)%Q = a.
Proof. destruct a as [an ad]. unfold Qplus. simpl. f_equal. lia. Qed.

Lemma Qplus_0_r_L (a : Q) : (a + 0)%Q = a.
Proof. rewrite Qplus_comm_L. apply Qplus_0_l_L. Qed.

Lemma Qsum_app (l1 l2 : list Q) : Qsum (l1 ++ l2) = (Qsum l1 + Qsum l2)%Q.
Proof.
  induction l1 as [|q l1 IH]; simpl.
  - by rewrite Qplus_0_l_L.
  - by rewrite IH, Qplus_assoc_L.
Qed.

Lemma Qsum_perm (l1 l2 : list Q) : l1 ≡ₚ l2 -> Qsum l1 = Qsum l2.
Proof.
  induction 1 as [|x l1 l2 _ IH|x y l|l1 l2 l3 _ IH1 _ IH2]; simpl.
  - done.
  - by rewrite IH.
  - rewrite !Qplus_assoc_L. f_equal. apply Qplus_comm_L.
  - by rewrite IH1.
Qed.

Lemma band_pixels_app nd i (T1 T2 : list Tile) :
  band_pixels nd i (T1 ++ T2) = (band_pixels nd i T1 ++ band_pixels nd i T2)%list.
Proof. unfold band_pixels. apply bind_app. Qed.

Lemma foldlM_app {A B} (f : A -> B -> result A) (a : A) (l1 l2 : list B) :
  foldlM f a (l1 ++ l2) = foldlM f a l1 ≫= fun a' => foldlM f a' l2.
Proof.
  revert a. induction l1 as [|b l1 IH]; intros a; simpl; [done|].
  destruct (f a b) as [a'|e]; simpl; [apply IH|done].
Qed.

(** The loops of [combine_cells] and [combine_values]: entry [i] of the
    accumulator is replaced, for every [i] below [n]. *)
Lemma foldlM_seq_update (step : Acc -> nat -> result Acc) (b : nat -> Q * Z)
    (n : nat) (acc : Acc) :
  (forall acc' i a, (i < n)%nat -> acc' !! i = Some a ->
     step acc' i = Ok (<[i := ((a.1 + (b i).1)%Q, a.2 + (b i).2)]> acc')) ->
  (n <= length acc)%nat ->
  exists acc',
    foldlM step acc (seq 0 n) = Ok acc' /\
    length acc' = length acc /\
    forall i, acc' !! i
              = (fun a : Q * Z => if (i <? n)%nat
                                  then ((a.1 + (b i).1)%Q, a.2 + (b i).2) else a)
                  <$> acc !! i.
Proof.
  intros Hstep. induction n as [|n IH]; intros Hlen.
  - exists acc. split; [done|]. split; [done|]. intros i. simpl.
    by destruct (acc !! i).
  - destruct IH as (acc1 & Hfold & Hlen1 & Hlook); [|lia|].
    { intros acc' i a Hi. apply Hstep. lia. }
    rewrite seq_S, foldlM_app, Hfold. simpl.
    destruct (lookup_lt_is_Some_2 acc n) as [a Ha]; [lia|].
    assert (Ha1 : acc1 !! n = Some a).
    { rewrite Hlook, Ha. simpl. by rewrite Nat.ltb_irrefl. }
    rewrite (Hstep acc1 n a) by (lia || done).
    eexists. split; [done|]. split; [by rewrite length_insert|].
    intros i. destruct (decide (i = n)) as [->|Hne].
    + rewrite list_lookup_insert_eq by lia. rewrite Ha. simpl.
      by rewrite (proj2 (Nat.ltb_lt n (S n))) by lia.
    + rewrite list_lookup_insert_ne by done. rewrite Hlook.
      destruct (acc !! i) as [ai|]; [|done]. simpl.
      destruct (Nat.ltb_spec i n), (Nat.ltb_spec i (S n)); try done; lia.
Qed.

Lemma summary_length nd n T : length (summary nd n T) = n.
Proof. unfold summary. by rewrite length_map, length_seq. Qed.

Lemma summary_lookup nd n T i :
  summary nd n T !! i
  = if (i <? n)%nat
    then Some (Qsum (band_pixels nd i T), Z.of_nat (length (band_pixels nd i T)))
    else None.
Proof.
  unfold summary. rewrite list_lookup_fmap.
  destruct (Nat.ltb_spec i n).
  - by rewrite lookup_seq_lt.
  - by rewrite lookup_seq_ge.
Qed.

Lemma summary_nil nd n : summary nd n [] = replicate n (0%Q, 0).
Proof.
  apply list_eq. intros i. rewrite summary_lookup.
  destruct (Nat.ltb_spec i n).
  - by rewrite lookup_replicate_2.
  - symmetry. apply lookup_replicate_None. lia.
Qed.

Lemma combine_cells_summary nd n T tile acc :
  n_bands_of (cells tile) = Ok n ->
  acc = summary nd n T \/ (acc = [] /\ T = []) ->
  combine_cells nd acc tile = Ok (summary nd n (T ++ [tile])).
Proof.
  intros Hn Hacc. unfold combine_cells. rewrite Hn. simpl.
  assert (Hnorm : match acc with [] => replicate n (0%Q, 0) | _ => acc end
                  = summary nd n T).
  { destruct Hacc as [->|[-> ->]]; [|by rewrite summary_nil].
    destruct (summary nd n T) eqn:E; [|done].
    apply (f_equal length) in E. rewrite summary_length in E. simpl in E. by subst n. }
  rewrite Hnorm.
  destruct (foldlM_seq_update
              (fun acc i =>
                 match acc !! i with
                 | Some a =>
                     Ok (<[i := ((a.1 + Qsum (kept_values nd (band_grid (cells tile) i)))%Q,
                                 a.2 + Z.of_nat (length (kept_values nd (band_grid (cells tile) i))))]> acc)
                 | None => Raise IndexError
                 end)
              (fun i => (Qsum (kept_values nd (band_grid (cells tile) i)),
                         Z.of_nat (length (kept_values nd (band_grid (cells tile) i)))))
              n (summary nd n T)) as (acc' & Hfold & _ & Hlook).
  { intros acc0 i a _ Ha. by rewrite Ha. }
  { by rewrite summary_length. }
  rewrite Hfold. f_equal. apply list_eq. intros i.
  rewrite Hlook, !summary_lookup. destruct (Nat.ltb_spec i n); [|done]. simpl.
  rewrite band_pixels_app, Qsum_app, length_app, Nat2Z.inj_add.
  unfold band_pixels at 2 4. simpl. by rewrite app_nil_r.
Qed.

Lemma combine_values_summary nd n T1 T2 :
  combine_values (summary nd n T1) (summary nd n T2) = Ok (summary nd n (T1 ++ T2)).
Proof.
  unfold combine_values. rewrite summary_length.
  destruct (foldlM_seq_update
              (fun l1 i =>
                 match l1 !! i, summary nd n T2 !! i with
                 | Some a, Some b => Ok (<[i := ((a.1 + b.1)%Q, a.2 + b.2)]> l1)
                 | _, _ => Raise IndexError
                 end)
              (fun i => (Qsum (band_pixels nd i T2), Z.of_nat (length (band_pixels nd i T2))))
              n (summary nd n T1)) as (acc' & Hfold & _ & Hlook).
  { intros acc0 i a Hi Ha. rewrite Ha, summary_lookup.
    by rewrite (proj2 (Nat.ltb_lt i n)) by done. }
  { by rewrite summary_length. }
  rewrite Hfold. f_equal. apply list_eq. intros i.
  rewrite Hlook, !summary_lookup. destruct (Nat.ltb_spec i n); [|done]. simpl.
  by rewrite band_pixels_app, Qsum_app, length_app, Nat2Z.inj_add.
Qed.

(** The accumulator is commutative and associative. *)
Lemma combine_values_comm nd n T1 T2 :
  combine_values (summary nd n T1) (summary nd n T2)
  = combine_values (summary nd n T2) (summary nd n T1).
Proof.
  rewrite !combine_values_summary. f_equal. apply list_eq. intros i.
  rewrite !summary_lookup. destruct (i <? n)%nat; [|done].
  rewrite !band_pixels_app, !Qsum_app, !length_app. f_equal. f_equal; [|lia].
  apply Qplus_comm_L.
Qed.

Section Aggregation.
Context (nd : option cell) (n : nat).

Local Abbreviation stands_for := (stands_for nd n).

Lemma stands_for_ext d m m' :
  (forall ts, m ts = m' ts) -> stands_for d m -> stands_for d m'.
Proof. intros Hm Hd ts. rewrite <- Hm. apply Hd. Qed.

Lemma tiles_at_snoc (ts ts0 : Z) (tile : Tile) (P : list (Z * Tile)) :
  tiles_at ts (P ++ [(ts0, tile)])
  = if decide (ts0 = ts) then (tiles_at ts P ++ [tile])%list else tiles_at ts P.
Proof.
  unfold tiles_at. rewrite filter_app, map_app, filter_cons, filter_nil. simpl.
  destruct (decide (ts0 = ts)); simpl; [done|]. by rewrite app_nil_r.
Qed.

Lemma tiles_at_app {K} `{EqDecision K} (ts : K) (P1 P2 : list (K * Tile)) :
  tiles_at ts (P1 ++ P2) = (tiles_at ts P1 ++ tiles_at ts P2)%list.
Proof. unfold tiles_at. by rewrite filter_app, map_app. Qed.

Lemma partition_fold (p P0 : list (Z * Tile)) (d : gmap Z Acc) :
  Forall (fun kv : Z * Tile => n_bands_of (cells kv.2) = Ok n) p ->
  stands_for d (fun ts => tiles_at ts P0) ->
  exists d',
    foldlM (merge_value (combine_cells nd) (combine_cells nd [])) d p = Ok d' /\
    stands_for d' (fun ts => tiles_at ts (P0 ++ p)).
Proof.
  intros Hp. revert P0 d. induction Hp as [|[ts0 tile] p Hn _ IH]; intros P0 d Hd.
  - exists d. split; [done|]. by rewrite app_nil_r.
  - simpl in Hn.
    assert (Hstep : exists d1,
              merge_value (combine_cells nd) (combine_cells nd []) d (ts0, tile) = Ok d1 /\
              stands_for d1 (fun ts => tiles_at ts (P0 ++ [(ts0, tile)]))).
    { unfold merge_value. simpl. pose proof (Hd ts0) as Hts0. simpl in Hts0.
      assert (Hnew : forall u, (u = summary nd n (tiles_at ts0 P0)
                                \/ (u = [] /\ tiles_at ts0 P0 = [])) ->
                stands_for (<[ts0 := summary nd n (tiles_at ts0 P0 ++ [tile])]> d)
                           (fun ts => tiles_at ts (P0 ++ [(ts0, tile)]))).
      { intros u _ ts. rewrite tiles_at_snoc. destruct (decide (ts0 = ts)) as [<-|Hne].
        - rewrite lookup_insert_eq. by destruct (tiles_at ts0 P0).
        - rewrite lookup_insert_ne by done. apply Hd. }
      destruct (tiles_at ts0 P0) as [|t0 T] eqn:ET; rewrite Hts0.
      - rewrite (combine_cells_summary nd n [] tile []) by (done || by right). simpl.
        eexists. split; [done|]. apply (Hnew []). by right.
      - rewrite (combine_cells_summary nd n (t0 :: T) tile) by (done || by left). simpl.
        eexists. split; [done|]. apply (Hnew (summary nd n (t0 :: T))). by left. }
    destruct Hstep as (d1 & Hd1 & Hs1).
    destruct (IH (P0 ++ [(ts0, tile)])%list d1 Hs1) as (d' & Hfold & Hs').
    exists d'. simpl. rewrite Hd1. simpl. split; [done|].
    by rewrite <- app_assoc in Hs'.
Qed.

Lemma merge_fold (l : list (Z * Acc)) (D : gmap Z Acc) (m m' : Z -> list Tile) :
  NoDup (map fst l) ->
  (forall ts a, (ts, a) ∈ l -> m' ts <> [] /\ a = summary nd n (m' ts)) ->
  stands_for D m ->
  exists D',
    foldlM (merge_value combine_values Ok) D l = Ok D' /\
    stands_for D' (fun ts => (m ts ++ if decide (ts ∈ map fst l) then m' ts else [])%list).
Proof.
  revert D m. induction l as [|[ts0 a] l IH]; intros D m Hnd Hl HD.
  - exists D. split; [done|]. eapply stands_for_ext; [|exact HD].
    intros ts. simpl. by rewrite app_nil_r.
  - simpl in Hnd. apply NoDup_cons in Hnd as [Hts0 Hnd].
    destruct (Hl ts0 a) as [Hne ->]; [apply list_elem_of_here|].
    pose (m1 := fun ts => (m ts ++ if decide (ts = ts0) then m' ts0 else [])%list).
    assert (Hstep : exists D1,
              merge_value combine_values Ok D (ts0, summary nd n (m' ts0)) = Ok D1 /\
              stands_for D1 m1).
    { unfold merge_value. simpl. pose proof (HD ts0) as Hts0'.
      assert (Hnew : stands_for (<[ts0 := summary nd n (m ts0 ++ m' ts0)]> D) m1).
      { intros ts. unfold m1. destruct (decide (ts = ts0)) as [->|Hneq].
        - rewrite lookup_insert_eq. destruct (m ts0); [by destruct (m' ts0)|done].
        - rewrite lookup_insert_ne, app_nil_r by done. apply HD. }
      destruct (m ts0) as [|t0 T] eqn:Em; rewrite Hts0'.
      - simpl. eexists. split; [done|]. exact Hnew.
      - rewrite combine_values_summary. simpl. eexists. split; [done|]. exact Hnew. }
    destruct Hstep as (D1 & HD1 & Hs1).
    destruct (IH D1 m1 Hnd) as (D' & Hfold & Hs'); [|exact Hs1|].
    { intros ts a Ha. apply Hl. by apply list_elem_of_further. }
    exists D'. simpl. rewrite HD1. simpl. split; [done|].
    eapply stands_for_ext; [|exact Hs']. intros ts. unfold m1. simpl.
    rewrite <- app_assoc. f_equal.
    destruct (decide (ts = ts0)) as [->|Hneq].
    + destruct (decide (ts0 ∈ map fst l)) as [?|_]; [done|]. rewrite app_nil_r.
      rewrite decide_True; [done|]. apply list_elem_of_here.
    + simpl. destruct (decide (ts ∈ map fst l)) as [Hin|Hnin].
      * rewrite decide_True by by apply list_elem_of_further. done.
      * rewrite decide_False; [done|]. intros Hin. apply elem_of_cons in Hin.
        destruct Hin; [done|done].
Qed.

Lemma merge_combiner (dj D : gmap Z Acc) (m mj : Z -> list Tile) :
  stands_for dj mj -> stands_for D m ->
  exists D',
    foldlM (merge_value combine_values Ok) D (map_to_list dj) = Ok D' /\
    stands_for D' (fun ts => (m ts ++ mj ts)%list).
Proof.
  intros Hj HD.
  destruct (merge_fold (map_to_list dj) D m mj) as (D' & Hfold & Hs).
  - apply NoDup_fst_map_to_list.
  - intros ts a Ha. apply elem_of_map_to_list in Ha. rewrite (Hj ts) in Ha.
    destruct (mj ts); [done|]. split; [done|]. by injection Ha.
  - exact HD.
  - exists D'. split; [done|]. eapply stands_for_ext; [|exact Hs].
    intros ts. simpl. f_equal. destruct (decide _) as [Hin|Hnin]; [done|].
    destruct (mj ts) eqn:Emj; [done|]. exfalso. apply Hnin.
    apply list_elem_of_fmap. exists (ts, summary nd n (mj ts)). split; [done|].
    apply elem_of_map_to_list. rewrite (Hj ts), Emj. done.
Qed.

Lemma aggregateByKey_summary (partitions : list (list (Z * Tile))) :
  Forall (Forall (fun kv : Z * Tile => n_bands_of (cells kv.2) = Ok n)) partitions ->
  exists D,
    aggregateByKey [] (combine_cells nd) combine_values partitions = Ok D /\
    stands_for D (fun ts => tiles_at ts (mjoin partitions)).
Proof.
  intros Hparts. unfold aggregateByKey.
  assert (Hcomb : exists combiners,
            mapM (foldlM (merge_value (combine_cells nd) (combine_cells nd [])) ∅) partitions
            = Ok combiners /\
            Forall2 (fun p d => stands_for d (fun ts => tiles_at ts p)) partitions combiners).
  { induction Hparts as [|p ps Hp _ (cs & Hcs & Hall)].
    - exists []. split; [done|constructor].
    - destruct (partition_fold p [] ∅ Hp) as (d & Hd & Hs); [done|].
      exists (d :: cs).
      change (mapM ?f (p :: ps)) with (y ← f p; k ← mapM f ps; mret (y :: k)).
      rewrite Hd. simpl. rewrite Hcs. simpl. split; [done|]. by constructor. }
  destruct Hcomb as (combiners & -> & Hall). simpl.
  assert (Hmerge : forall D m, stands_for D m ->
            exists D', foldlM (merge_value combine_values Ok) D (combiners ≫= map_to_list)
                       = Ok D' /\
                       stands_for D' (fun ts => (m ts ++ tiles_at ts (mjoin partitions))%list)).
  { clear Hparts. induction Hall as [|p d ps cs Hd _ IH]; intros D m HD.
    - exists D. split; [done|]. eapply stands_for_ext; [|exact HD].
      intros ts. by rewrite app_nil_r.
    - destruct (merge_combiner d D m _ Hd HD) as (D1 & HD1 & Hs1).
      destruct (IH D1 _ Hs1) as (D' & HD' & Hs').
      exists D'. split.
      + change ((d :: cs) ≫= map_to_list) with (map_to_list d ++ (cs ≫= map_to_list))%list.
        by rewrite foldlM_app, HD1.
      + eapply stands_for_ext; [|exact Hs']. intros ts. simpl.
        by rewrite tiles_at_app, app_assoc. }
  destruct (Hmerge ∅ (fun _ => [])) as (D & HD & Hs); [done|].
  exists D. split; [done|]. exact Hs.
Qed.

End Aggregation.

Lemma combine_values_add (l1 l2 : Acc) :
  length l1 = length l2 -> combine_values l1 l2 = Ok (add_acc l1 l2).
Proof.
  intros Hlen. unfold combine_values.
  destruct (foldlM_seq_update
              (fun l1 i =>
                 match l1 !! i, l2 !! i with
                 | Some a, Some b => Ok (<[i := ((a.1 + b.1)%Q, a.2 + b.2)]> l1)
                 | _, _ => Raise IndexError
                 end)
              (fun i => default (0%Q, 0) (l2 !! i))
              (length l2) l1) as (acc' & Hfold & _ & Hlook).
  { intros acc0 i a Hi Ha. rewrite Ha.
    destruct (lookup_lt_is_Some_2 l2 i Hi) as [b ->]. done. }
  { lia. }
  rewrite Hfold. f_equal. apply list_eq. intros i.
  rewrite Hlook. unfold add_acc. rewrite lookup_zip_with.
  destruct (l1 !! i) as [a|] eqn:Ea; simpl; [|done].
  assert (Hi : (i < length l2)%nat).
  { rewrite <- Hlen. by apply lookup_lt_is_Some_1. }
  destruct (lookup_lt_is_Some_2 l2 i Hi) as [b ->]. simpl.
  by rewrite (proj2 (Nat.ltb_lt _ _) Hi).
Qed.

Lemma add_acc_length (l1 l2 : Acc) :
  length l1 = length l2 -> length (add_acc l1 l2) = length l1.
Proof. intros Hlen. unfold add_acc. rewrite length_zip_with. lia. Qed.

Lemma add_acc_comm (l1 l2 : Acc) : add_acc l1 l2 = add_acc l2 l1.
Proof.
  apply list_eq. intros i. unfold add_acc. rewrite !lookup_zip_with.
  destruct (l1 !! i) as [a|], (l2 !! i) as [b|]; simpl; try done.
  by rewrite Qplus_comm_L, Z.add_comm.
Qed.

Lemma add_acc_assoc (l1 l2 l3 : Acc) :
  add_acc (add_acc l1 l2) l3 = add_acc l1 (add_acc l2 l3).
Proof.
  apply list_eq. intros i. unfold add_acc. rewrite !lookup_zip_with.
  destruct (l1 !! i) as [a|], (l2 !! i) as [b|], (l3 !! i) as [c|]; simpl; try done.
  by rewrite Qplus_assoc_L, Z.add_assoc.
Qed.

Lemma summary_perm nd n (T1 T2 : list Tile) :
  T1 ≡ₚ T2 -> summary nd n T1 = summary nd n T2.
Proof.
  intros HT. unfold summary. apply map_ext. intros i.
  assert (Hp : band_pixels nd i T1 ≡ₚ band_pixels nd i T2).
  { unfold band_pixels. by rewrite HT. }
  by rewrite (Qsum_perm _ _ Hp), Hp.
Qed.

Lemma by_instant_Ok (parts : list (list (Key * Tile))) :
  Forall (Forall (fun t : Key * Tile => is_spacetime t.1 = true)) parts ->
  mapM (mapM (fun pair : Key * Tile => i ← key_instant pair.1; mret (i, pair.2))) parts
  = Ok (map (map (fun pair : Key * Tile => (instant_of pair.1, pair.2))) parts).
Proof.
  intros Hall. apply mapM_result_Ok.
  eapply Forall_impl; [exact Hall|]. intros p Hp. simpl.
  apply mapM_result_Ok. eapply Forall_impl; [exact Hp|].
  intros [[c r|c r i] t]; simpl; done.
Qed.

Lemma tiles_at_by_instant (ts : Z) (l : list (Key * Tile)) :
  tiles_at ts (map (fun pair : Key * Tile => (instant_of pair.1, pair.2)) l)
  = tiles_of_instant ts l.
Proof.
  unfold tiles_at, tiles_of_instant. induction l as [|x l IH]; simpl; [done|].
  rewrite !filter_cons. simpl. destruct (decide (instant_of x.1 = ts)); simpl.
  - by rewrite IH.
  - exact IH.
Qed.

Lemma tiles_of_instant_perm (ts : Z) (l1 l2 : list (Key * Tile)) :
  l1 ≡ₚ l2 -> tiles_of_instant ts l1 ≡ₚ tiles_of_instant ts l2.
Proof. intros Hl. unfold tiles_of_instant. by rewrite Hl. Qed.

Lemma tiles_of_instant_nil (ts : Z) (l : list (Key * Tile)) :
  tiles_of_instant ts l = [] <-> ts ∉ map (fun t : Key * Tile => instant_of t.1) l.
Proof.
  unfold tiles_of_instant. induction l as [|x l IH]; simpl.
  - split; [intros _; apply not_elem_of_nil|done].
  - rewrite filter_cons, not_elem_of_cons.
    destruct (decide (instant_of x.1 = ts)) as [<-|Hne]; simpl.
    + split; [done|]. by intros [? _].
    + rewrite IH. split; [by split|by intros [_ ?]].
Qed.


(** ** Stitching *)

(** Row-major positions of a three-dimensional array are distinct. *)
Lemma flat3_inj (n1 n2 i j k i' j' k' : nat) :
  (j < n1)%nat -> (k < n2)%nat -> (j' < n1)%nat -> (k' < n2)%nat ->
  ((i * n1 + j) * n2 + k = (i' * n1 + j') * n2 + k')%nat ->
  i = i' /\ j = j' /\ k = k'.
Proof.
  intros Hj Hk Hj' Hk' Heq.
  assert (Hk_eq : k = k').
  { assert (H1 := f_equal (fun a => a mod n2)%nat Heq). simpl in H1.
    rewrite !(Nat.add_comm _ k), !(Nat.add_comm _ k') in H1.
    rewrite !Nat.Div0.mod_add, !Nat.mod_small in H1 by done. done. }
  subst k'.
  assert (Hrow : (i * n1 + j = i' * n1 + j')%nat).
  { apply Nat.add_cancel_r in Heq. apply Nat.mul_cancel_r in Heq; [done|lia]. }
  assert (Hj_eq : j = j').
  { assert (H1 := f_equal (fun a => a mod n1)%nat Hrow). simpl in H1.
    rewrite !(Nat.add_comm _ j), !(Nat.add_comm _ j') in H1.
    rewrite !Nat.Div0.mod_add, !Nat.mod_small in H1 by done. done. }
  subst j'. split; [|done].
  apply Nat.add_cancel_r in Hrow. apply Nat.mul_cancel_r in Hrow; [done|lia].
Qed.

Lemma flat3_bound (n0 n1 n2 i j k : nat) :
  (i < n0)%nat -> (j < n1)%nat -> (k < n2)%nat ->
  ((i * n1 + j) * n2 + k < n0 * n1 * n2)%nat.
Proof.
  intros Hi Hj Hk.
  assert (H1 : ((i + 1) * n1 <= n0 * n1)%nat) by (apply Nat.mul_le_mono_r; lia).
  assert (H2 : ((i * n1 + j + 1) * n2 <= n0 * n1 * n2)%nat)
    by (apply Nat.mul_le_mono_r; lia).
  lia.
Qed.

Lemma get3_in_range (a : ndarray) (n0 n1 n2 i j k : nat) :
  is_3d a n0 n1 n2 -> (i < n0)%nat -> (j < n1)%nat -> (k < n2)%nat ->
  exists v, data a !! ((i * n1 + j) * n2 + k)%nat = Some v /\ get3 a i j k = Ok v.
Proof.
  intros [Hs Hl] Hi Hj Hk. unfold get3, flat3. rewrite Hs.
  rewrite (proj2 (Nat.ltb_lt i n0)), (proj2 (Nat.ltb_lt j n1)),
          (proj2 (Nat.ltb_lt k n2)) by done. simpl.
  destruct (lookup_lt_is_Some_2 (data a) ((i * n1 + j) * n2 + k)) as [v Hv].
  { rewrite Hl. by apply flat3_bound. }
  exists v. by rewrite Hv.
Qed.

Lemma set3_in_range (a : ndarray) (n0 n1 n2 i j k : nat) (v : cell) :
  is_3d a n0 n1 n2 -> (i < n0)%nat -> (j < n1)%nat -> (k < n2)%nat ->
  exists a', set3 a i j k v = Ok a' /\ is_3d a' n0 n1 n2 /\
    forall i' j' k', (i' < n0)%nat -> (j' < n1)%nat -> (k' < n2)%nat ->
      get3 a' i' j' k' = if decide ((i', j', k') = (i, j, k)) then Ok v
                         else get3 a i' j' k'.
Proof.
  intros [Hs Hl] Hi Hj Hk. unfold set3, flat3. rewrite Hs.
  rewrite (proj2 (Nat.ltb_lt i n0)), (proj2 (Nat.ltb_lt j n1)),
          (proj2 (Nat.ltb_lt k n2)) by done. simpl.
  eexists. split; [done|]. split.
  { split; simpl; [done|]. by rewrite length_insert. }
  intros i' j' k' Hi' Hj' Hk'. unfold get3, flat3. simpl. rewrite Hs.
  rewrite (proj2 (Nat.ltb_lt i' n0)), (proj2 (Nat.ltb_lt j' n1)),
          (proj2 (Nat.ltb_lt k' n2)) by done. simpl.
  destruct (decide ((i', j', k') = (i, j, k))) as [[= -> -> ->]|Hne].
  - rewrite list_lookup_insert_eq; [done|]. rewrite Hl. by apply flat3_bound.
  - rewrite list_lookup_insert_ne; [done|]. intros Heq. apply Hne.
    destruct (flat3_inj n1 n2 i j k i' j' k') as (-> & -> & ->); done.
Qed.

(** Position [i * m + j] of a concatenation of [n] blocks of length [m]. *)
Lemma bind_seq_length {A} (g : nat -> list A) (m n : nat) :
  (forall k, length (g k) = m) -> length (seq 0 n ≫= g) = (n * m)%nat.
Proof.
  intros Hg. induction n as [|n IH]; [done|].
  rewrite seq_S, bind_app, length_app, IH. simpl. rewrite app_nil_r, Hg. lia.
Qed.

Lemma bind_seq_lookup {A} (g : nat -> list A) (m n i j : nat) :
  (forall k, length (g k) = m) -> (i < n)%nat -> (j < m)%nat ->
  (seq 0 n ≫= g) !! (i * m + j)%nat = g i !! j.
Proof.
  intros Hg. induction n as [|n IH]; intros Hi Hj; [lia|].
  rewrite seq_S, bind_app. simpl. rewrite app_nil_r.
  destruct (decide (i = n)) as [->|Hne].
  - rewrite lookup_app_r; rewrite (bind_seq_length g m n Hg); [|lia].
    f_equal. lia.
  - rewrite lookup_app_l; [apply IH; lia|]. rewrite (bind_seq_length g m n Hg). nia.
Qed.

(** The block handed to the window: [cells.reshape((-1, bh, bw)).transpose((0, 2, 1))]
    holds at [b, x, y] the value at position [(b * bh + y) * bw + x] of the
    tile. *)
Lemma block_array (t : ndarray) (nb bw bh : nat) :
  length (data t) = (nb * bw * bh)%nat -> (0 < bw)%nat -> (0 < bh)%nat ->
  exists reshaped iarr,
    reshape_blocks t bh bw = Ok reshaped /\
    transpose_021 reshaped = Ok iarr /\
    is_3d iarr nb bw bh /\
    forall b x y, (b < nb)%nat -> (x < bw)%nat -> (y < bh)%nat ->
      exists v, data t !! ((b * bh + y) * bw + x)%nat = Some v /\ get3 iarr b x y = Ok v.
Proof.
  intros Hlen Hbw Hbh. unfold reshape_blocks.
  assert (Hprod : (length (data t) = nb * (bh * bw))%nat) by lia.
  destruct (Nat.eqb_spec (bh * bw) 0); [nia|].
  rewrite Hprod, Nat.Div0.mod_mul. simpl. rewrite Nat.div_mul by done.
  eexists _, _. split; [reflexivity|]. unfold transpose_021. simpl shape. cbv iota beta.
  set (g := fun b : nat =>
              seq 0 bw ≫= fun x => seq 0 bh ≫= fun y =>
                [default NaN (data t !! ((b * bh + y) * bw + x)%nat)]).
  assert (Hinner : forall b x, length (seq 0 bh ≫= fun y =>
              [default NaN (data t !! ((b * bh + y) * bw + x)%nat)]) = (bh * 1)%nat).
  { intros b x. by apply bind_seq_length. }
  assert (Hg : forall b, length (g b) = (bw * (bh * 1))%nat).
  { intros b. unfold g. apply bind_seq_length. intros x. apply Hinner. }
  split; [reflexivity|]. split.
  { split; [done|]. simpl. fold g. rewrite (bind_seq_length g _ nb Hg). lia. }
  intros b x y Hb Hx Hy.
  destruct (lookup_lt_is_Some_2 (data t) ((b * bh + y) * bw + x)) as [v Hv].
  { rewrite Hlen. nia. }
  exists v. split; [done|]. unfold get3, flat3. simpl.
  rewrite (proj2 (Nat.ltb_lt b nb)), (proj2 (Nat.ltb_lt x bw)),
          (proj2 (Nat.ltb_lt y bh)) by done. simpl. fold g.
  replace ((b * bw + x) * bh + y)%nat with (b * (bw * (bh * 1)) + (x * (bh * 1) + y * 1 + 0))%nat
    by lia.
  rewrite (bind_seq_lookup g _ nb b _ Hg) by (done || nia). unfold g.
  rewrite Nat.add_0_r.
  rewrite (bind_seq_lookup _ _ bw x _ (Hinner b)) by (done || lia).
  replace (y * 1)%nat with (y * 1 + 0)%nat by lia.
  rewrite (bind_seq_lookup _ 1%nat bh y 0) by (done || lia). simpl. by rewrite Hv.
Qed.

(** [np.intersect1d]: a pair of positions is returned exactly when both
    arguments hold the same value there. *)
Lemma index_of_Some (v : Z) (l : list Z) (i : nat) :
  index_of v l = Some i -> l !! i = Some v.
Proof.
  unfold index_of. destruct (list_find _ l) as [[j x]|] eqn:E; [|done].
  intros [= <-]. apply list_find_Some in E as (Hl & -> & _). done.
Qed.

Lemma index_of_NoDup (v : Z) (l : list Z) (i : nat) :
  NoDup l -> l !! i = Some v -> index_of v l = Some i.
Proof.
  intros Hnd Hi. unfold index_of.
  assert (Hfind : list_find (fun x => x = v) l = Some (i, v)); [|by rewrite Hfind].
  apply list_find_Some. split; [done|]. split; [done|].
  intros j y Hj Hlt ->. assert (i = j) by by eapply NoDup_lookup. lia.
Qed.

Lemma zip_omap {A B C} (f : A -> option B) (g : A -> option C) (l : list A) :
  Forall (fun a => is_Some (f a) /\ is_Some (g a)) l ->
  zip (omap f l) (omap g l) = omap (fun a => p ← f a; q ← g a; Some (p, q)) l.
Proof.
  induction 1 as [|a l [[p Hp] [q Hq]] _ IH]; simpl; [done|].
  rewrite Hp, Hq. simpl. f_equal. exact IH.
Qed.

Lemma intersect1d_pairs (ar1 ar2 : list Z) (p q : nat) :
  NoDup ar1 -> NoDup ar2 ->
  (p, q) ∈ zip (intersect1d ar1 ar2).1.2 (intersect1d ar1 ar2).2
  <-> exists v, ar1 !! p = Some v /\ ar2 !! q = Some v.
Proof.
  intros Hnd1 Hnd2. unfold intersect1d. simpl.
  set (c := sort_by id (filter (fun v => v ∈ ar2) ar1)).
  assert (Hc : forall v, v ∈ c <-> v ∈ ar1 /\ v ∈ ar2).
  { intros v. unfold c. rewrite (sort_by_perm id), list_elem_of_filter. tauto. }
  rewrite zip_omap.
  2:{ apply Forall_forall. intros v Hv. apply Hc in Hv as [H1 H2].
      apply list_elem_of_lookup in H1 as [i Hi]. apply list_elem_of_lookup in H2 as [j Hj].
      rewrite (index_of_NoDup v ar1 i), (index_of_NoDup v ar2 j) by done. by split. }
  rewrite list_elem_of_omap. split.
  - intros (v & Hv & Hpq).
    destruct (index_of v ar1) as [p'|] eqn:E1; simpl in Hpq; [|done].
    destruct (index_of v ar2) as [q'|] eqn:E2; simpl in Hpq; [|done].
    injection Hpq as -> ->. exists v. split; by apply index_of_Some.
  - intros (v & H1 & H2). exists v. split.
    + apply Hc. split; by eapply list_elem_of_lookup_2.
    + by rewrite (index_of_NoDup v ar1 p), (index_of_NoDup v ar2 q).
Qed.

Lemma arange_NoDup (a b : Z) : NoDup (arange a b).
Proof. apply NoDup_seqZ. Qed.

Lemma arange_lookup (a : Z) (n p : nat) (v : Z) :
  arange a (a + Z.of_nat n) !! p = Some v <-> v = a + Z.of_nat p /\ (p < n)%nat.
Proof.
  unfold arange. rewrite lookup_seqZ. replace (a + Z.of_nat n - a) with (Z.of_nat n) by lia.
  split; intros [? ?]; split; (done || lia).
Qed.

Lemma arange_length (a : Z) (n : nat) : length (arange a (a + Z.of_nat n)) = n.
Proof. unfold arange. rewrite length_seqZ. lia. Qed.

Lemma arange_reverse_lookup (a : Z) (n q : nat) (v : Z) :
  reverse (arange a (a + Z.of_nat n)) !! q = Some v
  <-> v = a + Z.of_nat n - 1 - Z.of_nat q /\ (q < n)%nat.
Proof.
  rewrite reverse_lookup_Some, arange_length, arange_lookup. split.
  - intros [[-> _] Hq]. split; [lia|done].
  - intros [-> Hq]. split; [|done]. split; lia.
Qed.

(** Element-wise assignment: every position keeps its value or receives the
    source value of an assignment that targets it. *)
Lemma assign_spec (src : ndarray) (s0 s1 s2 n0 n1 n2 : nat)
    (l : list ((nat * nat * nat) * (nat * nat * nat))) (window : ndarray) :
  is_3d src s0 s1 s2 -> is_3d window n0 n1 n2 ->
  Forall (fun p => (p.1.1.1 < n0 /\ p.1.1.2 < n1 /\ p.1.2 < n2)%nat /\
                   (p.2.1.1 < s0 /\ p.2.1.2 < s1 /\ p.2.2 < s2)%nat) l ->
  exists w',
    foldlM (fun w (p : (nat * nat * nat) * (nat * nat * nat)) =>
              v ← get3 src p.2.1.1 p.2.1.2 p.2.2;
              set3 w p.1.1.1 p.1.1.2 p.1.2 v) window l = Ok w' /\
    is_3d w' n0 n1 n2 /\
    forall i j k, (i < n0)%nat -> (j < n1)%nat -> (k < n2)%nat ->
      (exists p, p ∈ l /\ p.1 = (i, j, k) /\
                 get3 w' i j k = get3 src p.2.1.1 p.2.1.2 p.2.2) \/
      ((forall p, p ∈ l -> p.1 <> (i, j, k)) /\ get3 w' i j k = get3 window i j k).
Proof.
  intros Hsrc Hwin Hl. revert window Hwin.
  induction Hl as [|[[[di dj] dk] [[si sj] sk]] l [(Hd0 & Hd1 & Hd2) (Hs0 & Hs1 & Hs2)] _ IH];
    intros window Hwin; simpl in *.
  - exists window. split; [done|]. split; [done|]. intros i j k _ _ _. right.
    split; [|done]. intros p Hp. by apply elem_of_nil in Hp.
  - destruct (get3_in_range src s0 s1 s2 si sj sk Hsrc Hs0 Hs1 Hs2) as (v & _ & Hget).
    rewrite Hget. simpl.
    destruct (set3_in_range window n0 n1 n2 di dj dk v Hwin Hd0 Hd1 Hd2)
      as (w1 & Hset & Hw1 & Hlook).
    rewrite Hset. simpl.
    destruct (IH w1 Hw1) as (w' & Hfold & Hw' & Hspec).
    exists w'. split; [done|]. split; [done|]. intros i j k Hi Hj Hk.
    destruct (Hspec i j k Hi Hj Hk) as [(p & Hp & Hdst & Hval)|[Hnone Hval]].
    + left. exists p. split; [by apply list_elem_of_further|done].
    + rewrite (Hlook i j k Hi Hj Hk) in Hval.
      destruct (decide ((i, j, k) = (di, dj, dk))) as [[= -> -> ->]|Hne].
      * left. exists ((di, dj, dk), (si, sj, sk)). split; [apply list_elem_of_here|].
        split; [done|]. simpl. by rewrite Hval, Hget.
      * right. split; [|done]. intros p Hp. apply elem_of_cons in Hp as [->|Hp].
        -- simpl. congruence.
        -- by apply Hnone.
Qed.

Lemma result_bind_Ok {A B} (a : A) (f : A -> result B) : (Ok a ≫= f) = f a.
Proof. reflexivity. Qed.

Lemma zip_nil_inv {A B} (l1 : list A) (l2 : list B) (p : A * B) :
  p ∈ zip l1 l2 -> (0 < length l1)%nat /\ (0 < length l2)%nat.
Proof.
  destruct l1, l2; simpl; intros Hp; try (by apply elem_of_nil in Hp). lia.
Qed.

Lemma triples_elem (wbind : list nat) (xs ys : list (nat * nat))
    (p : (nat * nat * nat) * (nat * nat * nat)) :
  p ∈ (b ← wbind; xp ← xs; yp ← ys; [((b, xp.1, yp.1), (b, xp.2, yp.2))])
  <-> exists b xp yp, b ∈ wbind /\ xp ∈ xs /\ yp ∈ ys /\
                      p = ((b, xp.1, yp.1), (b, xp.2, yp.2)).
Proof.
  rewrite list_elem_of_bind. split.
  - intros (b & Hp & Hb). apply list_elem_of_bind in Hp as (xp & Hp & Hxp).
    apply list_elem_of_bind in Hp as (yp & Hp & Hyp).
    apply list_elem_of_singleton in Hp. by exists b, xp, yp.
  - intros (b & xp & yp & Hb & Hxp & Hyp & ->). exists b. split; [|done].
    apply list_elem_of_bind. exists xp. split; [|done].
    apply list_elem_of_bind. exists yp. split; [|done].
    by apply list_elem_of_singleton.
Qed.

(** One block: a window pixel inside the pixel range of the block receives
    the value of the block at the matching offset (the rows of the block
    run against the window's y axis), every other pixel is left as it was. *)
Lemma stitch_block_spec (cx cy : Z) (W Hh bw bh nb : nat) (window : ndarray)
    (c r : Z) (tile : Tile) :
  is_3d window nb W Hh ->
  length (data (cells tile)) = (nb * bw * bh)%nat -> (0 < bw)%nat -> (0 < bh)%nat ->
  let crop_win : Win := (cx, cy, Z.of_nat W, Z.of_nat Hh) in
  exists w',
    stitch_block crop_win bw bh (seq 0 nb) window (SpatialKey c r, tile) = Ok w' /\
    is_3d w' nb W Hh /\
    forall b x y, (b < nb)%nat -> (x < W)%nat -> (y < Hh)%nat ->
      if covers crop_win bw bh c r x y
      then exists v, data (cells tile) !! source_position crop_win bw bh c r b x y = Some v /\
                     get3 w' b x y = Ok v
      else get3 w' b x y = get3 window b x y.
Proof.
  intros Hwin Hlen Hbw Hbh crop_win. unfold stitch_block, crop_win.
  cbv beta iota zeta. cbn [fst snd key_col key_row].
  destruct (block_array (cells tile) nb bw bh Hlen Hbw Hbh)
    as (reshaped & iarr & Hre & Hiarr & H3d & Hval).
  rewrite Hre, result_bind_Ok, Hiarr, result_bind_Ok.
  set (xo := intersect1d (arange cx (cx + Z.of_nat W))
                         (arange (c * Z.of_nat bw) (c * Z.of_nat bw + Z.of_nat bw))).
  set (yo := intersect1d (arange cy (cy + Z.of_nat Hh))
                         (reverse (arange (r * Z.of_nat bh) (r * Z.of_nat bh + Z.of_nat bh)))).
  assert (Hx : forall p q, (p, q) ∈ zip xo.1.2 xo.2
                <-> cx + Z.of_nat p = c * Z.of_nat bw + Z.of_nat q /\ (p < W)%nat /\ (q < bw)%nat).
  { intros p q. unfold xo. rewrite intersect1d_pairs by apply arange_NoDup. split.
    - intros (v & H1 & H2). apply arange_lookup in H1 as [-> ?].
      apply arange_lookup in H2 as [? ?]. done.
    - intros (Heq & Hp & Hq). exists (cx + Z.of_nat p). split; apply arange_lookup; done. }
  assert (Hy : forall p q, (p, q) ∈ zip yo.1.2 yo.2
                <-> cy + Z.of_nat p = r * Z.of_nat bh + Z.of_nat bh - 1 - Z.of_nat q
                    /\ (p < Hh)%nat /\ (q < bh)%nat).
  { intros p q. unfold yo.
    rewrite intersect1d_pairs
      by (apply arange_NoDup || (rewrite reverse_Permutation; apply arange_NoDup)).
    split.
    - intros (v & H1 & H2). apply arange_lookup in H1 as [-> ?].
      apply arange_reverse_lookup in H2 as [? ?]. done.
    - intros (Heq & Hp & Hq). exists (cy + Z.of_nat p).
      split; [by apply arange_lookup|by apply arange_reverse_lookup]. }
  assert (Hcov : forall x y, (x < W)%nat -> (y < Hh)%nat ->
            covers (cx, cy, Z.of_nat W, Z.of_nat Hh) bw bh c r x y = true
            <-> exists qx qy, (x, qx) ∈ zip xo.1.2 xo.2 /\ (y, qy) ∈ zip yo.1.2 yo.2).
  { intros x y Hxw Hyh. unfold covers. simpl.
    rewrite !andb_true_iff, !Z.leb_le, !Z.ltb_lt. split.
    - intros [[[H1 H2] H3] H4].
      exists (Z.to_nat (cx + Z.of_nat x - c * Z.of_nat bw)),
             (Z.to_nat (r * Z.of_nat bh + Z.of_nat bh - 1 - (cy + Z.of_nat y))).
      split; [apply Hx|apply Hy]; lia.
    - intros (qx & qy & Hqx & Hqy). apply Hx in Hqx. apply Hy in Hqy. lia. }
  destruct ((0 <? length xo.1.2)%nat
            && (0 <? length (map (fun i : nat => (0 <? i)%nat) yo.1.2))%nat) eqn:Econd.
  - (* the assignment runs *)
    set (l := b ← seq 0 nb; xp ← zip xo.1.2 xo.2; yp ← zip yo.1.2 yo.2;
              [((b, xp.1, yp.1), (b, xp.2, yp.2))]).
    destruct (assign_spec iarr nb bw bh nb W Hh l window H3d Hwin) as (w' & Hfold & Hw' & Hspec).
    { apply Forall_forall. intros p Hp. apply triples_elem in Hp
        as (b & [px qx] & [py qy] & Hb & Hxp & Hyp & ->). simpl.
      apply elem_of_seq in Hb. apply Hx in Hxp. apply Hy in Hyp. lia. }
    exists w'. split; [exact Hfold|]. split; [done|].
    intros b x y Hb Hxw Hyh.
    destruct (covers (cx, cy, Z.of_nat W, Z.of_nat Hh) bw bh c r x y) eqn:Ec.
    + apply Hcov in Ec as (qx & qy & Hqx & Hqy); [|done..].
      assert (Hsrc : source_position (cx, cy, Z.of_nat W, Z.of_nat Hh) bw bh c r b x y
                     = ((b * bh + qy) * bw + qx)%nat).
      { unfold source_position. simpl. apply Hx in Hqx. apply Hy in Hqy.
        f_equal; [f_equal|]; lia. }
      rewrite Hsrc.
      assert (Hqxb : (qx < bw)%nat) by (apply Hx in Hqx; lia).
      assert (Hqyb : (qy < bh)%nat) by (apply Hy in Hqy; lia).
      destruct (Hval b qx qy Hb Hqxb Hqyb) as (v & Hv & Hget).
      exists v. split; [done|].
      destruct (Hspec b x y Hb Hxw Hyh) as [(p & Hp & Hdst & Hgetp)|[Hnone _]].
      * apply triples_elem in Hp as (b' & [px qx'] & [py qy'] & _ & Hxp & Hyp & ->).
        simpl in Hdst, Hgetp. injection Hdst as -> -> ->.
        assert (qx' = qx) as -> by (apply Hx in Hxp; apply Hx in Hqx; lia).
        assert (qy' = qy) as -> by (apply Hy in Hyp; apply Hy in Hqy; lia).
        by rewrite Hgetp.
      * exfalso. apply (Hnone ((b, x, y), (b, qx, qy))); [|done].
        apply triples_elem. exists b, (x, qx), (y, qy). split; [|done].
        apply elem_of_seq. lia.
    + destruct (Hspec b x y Hb Hxw Hyh) as [(p & Hp & Hdst & _)|[_ Hsame]]; [|done].
      exfalso. apply triples_elem in Hp as (b' & [px qx] & [py qy] & _ & Hxp & Hyp & ->).
      simpl in Hdst. injection Hdst as -> -> ->.
      assert (Htrue : covers (cx, cy, Z.of_nat W, Z.of_nat Hh) bw bh c r x y = true)
        by (apply Hcov; [done..|by exists qx, qy]).
      congruence.
  - (* nothing overlaps *)
    exists window. split; [done|]. split; [done|]. intros b x y Hb Hxw Hyh.
    destruct (covers (cx, cy, Z.of_nat W, Z.of_nat Hh) bw bh c r x y) eqn:Ec; [|done].
    exfalso. apply Hcov in Ec as (qx & qy & Hqx & Hqy); [|done..].
    apply zip_nil_inv in Hqx as [Hqx _]. apply zip_nil_inv in Hqy as [Hqy _].
    apply andb_false_iff in Econd as [Hc|Hc]; apply Nat.ltb_ge in Hc.
    + lia.
    + rewrite length_map in Hc. lia.
Qed.

Lemma last_cons_match {A} (x : A) (l : list A) :
  last (x :: l) = match last l with Some y => Some y | None => Some x end.
Proof.
  revert x. induction l as [|y l IH]; intros x; [done|].
  change (last (x :: y :: l)) with (last (y :: l)).
  rewrite (IH y). by destruct (last l).
Qed.

Lemma allocate_window_3d junk nodata (n0 n1 n2 : nat) dt :
  is_3d (allocate_window junk nodata [n0; n1; n2] dt) n0 n1 n2.
Proof.
  assert (Hsize : size_of [n0; n1; n2] = (n0 * n1 * n2)%nat) by (simpl; lia).
  unfold allocate_window, np_full, np_empty.
  destruct nodata as [fill|]; [destruct (truthy _)|]; split; simpl shape; simpl data;
    try done; rewrite ?length_replicate, ?length_map, ?length_seq; done.
Qed.

(** The loop over the blocks: a window pixel holds the value of the last
    block that covers it, or what the window held before. *)
Lemma stitch_blocks_spec (cx cy : Z) (W Hh bw bh nb : nat) (nyblk : Z)
    (subarrs : list (Key * Tile)) (window : ndarray) :
  is_3d window nb W Hh ->
  Forall (fun t : Key * Tile => length (data (cells t.2)) = (nb * bw * bh)%nat) subarrs ->
  (0 < bw)%nat -> (0 < bh)%nat ->
  let crop_win : Win := (cx, cy, Z.of_nat W, Z.of_nat Hh) in
  exists w',
    foldlM (stitch_block crop_win bw bh (seq 0 nb)) window
           (map (fun t : Key * Tile =>
                   (SpatialKey (key_col t.1) (nyblk - key_row t.1), t.2)) subarrs)
    = Ok w' /\
    is_3d w' nb W Hh /\
    forall b x y, (b < nb)%nat -> (x < W)%nat -> (y < Hh)%nat ->
      match last (filter (fun t : Key * Tile =>
                            covers crop_win bw bh (key_col t.1) (nyblk - key_row t.1) x y = true)
                         subarrs) with
      | Some t =>
          exists v,
            data (cells t.2)
              !! source_position crop_win bw bh (key_col t.1) (nyblk - key_row t.1) b x y
            = Some v /\
            get3 w' b x y = Ok v
      | None => get3 w' b x y = get3 window b x y
      end.
Proof.
  intros Hwin Hall Hbw Hbh crop_win. revert window Hwin.
  induction Hall as [|t l Ht _ IH]; intros window Hwin.
  - exists window. split; [done|]. split; [done|]. by intros.
  - destruct (stitch_block_spec cx cy W Hh bw bh nb window
                (key_col t.1) (nyblk - key_row t.1) t.2 Hwin Ht Hbw Hbh)
      as (w1 & Hblock & Hw1 & Hspec1).
    destruct (IH w1 Hw1) as (w' & Hfold & Hw' & Hspec).
    exists w'. split; [|split; [done|]].
    + cbn [map foldlM]. unfold crop_win. rewrite Hblock, result_bind_Ok. exact Hfold.
    + intros b x y Hb Hx Hy. specialize (Hspec b x y Hb Hx Hy).
      specialize (Hspec1 b x y Hb Hx Hy). fold crop_win in Hspec1.
      rewrite filter_cons.
      destruct (decide (covers crop_win bw bh (key_col t.1) (nyblk - key_row t.1) x y = true))
        as [Hc|Hc].
      * rewrite last_cons_match.
        destruct (last (filter _ l)) as [u|]; [done|].
        rewrite Hc in Hspec1. destruct Hspec1 as (v & Hv & Hget).
        exists v. split; [done|]. by rewrite Hspec.
      * apply not_true_is_false in Hc. rewrite Hc in Hspec1.
        destruct (last (filter _ l)) as [u|]; [done|]. by rewrite Hspec.
Qed.

(** C5. [stitch_at_time] places every tile at the pixel offset of its key
    with the row index flipped ([nyblk - row], top-left origin) and copies
    only the pixels in the intersection of the tile's pixel range with the
    window: each window pixel holds the value of the (last) tile whose
    flipped range covers it, and the freshly allocated content where no tile
    does.  For a 2 x 2 grid of 4 x 4 tiles and no crop the result is 8 x 8
    and its pixel [0, 0] is taken from the tile with column 0 and row 1. *)
Theorem stitch_at_time_flips_rows_and_copies_overlap
    (junk : nat -> cell) (cx cy : Z) (W Hh : nat) (layout_win : Win) (ts : option Z)
    (first : Key * Tile) (rest : list (Key * Tile)) (nb bw bh : nat) :
  Forall (fun t : Key * Tile =>
            shape (cells t.2) = [nb; bw; bh] /\
            length (data (cells t.2)) = (nb * bw * bh)%nat) (first :: rest) ->
  (0 < bw)%nat -> (0 < bh)%nat ->
  let subarrs := first :: rest in
  let crop_win : Win := (cx, cy, Z.of_nat W, Z.of_nat Hh) in
  let nyblk := Z.quot layout_win.2 (Z.of_nat bh) - 1 in
  (exists window,
     stitch_at_time junk crop_win layout_win (ts, subarrs) = Ok (ts, window) /\
     is_3d window nb W Hh /\
     forall b x y, (b < nb)%nat -> (x < W)%nat -> (y < Hh)%nat ->
       match last (filter (fun t : Key * Tile =>
                             covers crop_win bw bh (key_col t.1) (nyblk - key_row t.1) x y = true)
                          subarrs) with
       | Some t =>
           exists v,
             data (cells t.2)
               !! source_position crop_win bw bh (key_col t.1) (nyblk - key_row t.1) b x y
             = Some v /\
             get3 window b x y = Ok v
       | None =>
           get3 window b x y
           = get3 (allocate_window junk (no_data_value first.2) [nb; W; Hh]
                     (dtype (cells first.2))) b x y
       end)
  /\
  (forall f00 f10 f01 f11 : nat -> cell,
   exists window,
     stitch_at_time junk (crop_window_of_bounds Examples.grid_md)
       (layout_window Examples.grid_md) (None, Examples.grid f00 f10 f01 f11)
     = Ok (None, window) /\
     shape window = [1; 8; 8]%nat /\
     get3 window 0 0 0 = Ok (f01 12%nat)).
Proof.
  intros Hall Hbw Hbh subarrs crop_win nyblk. split.
  - assert (Hfirst : shape (cells first.2) = [nb; bw; bh]).
    { by apply Forall_cons in Hall as [[? _] _]. }
    assert (Hlens : Forall (fun t : Key * Tile =>
                              length (data (cells t.2)) = (nb * bw * bh)%nat) subarrs).
    { eapply Forall_impl; [exact Hall|]. by intros t [_ ?]. }
    destruct (stitch_blocks_spec cx cy W Hh bw bh nb nyblk subarrs
                (allocate_window junk (no_data_value first.2) [nb; W; Hh]
                   (dtype (cells first.2)))
                (allocate_window_3d _ _ _ _ _ _) Hlens Hbw Hbh)
      as (window & Hfold & Hwin & Hspec).
    exists window. split; [|split; [done|exact Hspec]].
    unfold stitch_at_time, subarrs, crop_win.
    cbv beta iota zeta. cbn [fst snd]. rewrite !result_bind_Ok, Hfirst.
    cbn [rev app length take foldr Nat.ltb Nat.leb Nat.sub].
    rewrite !result_bind_Ok. cbn [fst snd]. rewrite Nat.add_0_r.
    replace ((Z.of_nat W <? 0) || (Z.of_nat Hh <? 0)) with false
      by (symmetry; apply orb_false_iff; split; apply Z.ltb_ge; lia).
    rewrite result_bind_Ok, !Nat2Z.id.
    destruct (Nat.eqb_spec bh 0); [lia|]. rewrite result_bind_Ok.
    fold nyblk. fold subarrs. fold crop_win in Hfold. unfold crop_win in Hfold.
    rewrite Hfold. done.
  - intros f00 f10 f01 f11. eexists. split; [vm_compute; reflexivity|]. split; reflexivity.
Qed.

(** ** More on stitching *)

(** What a freshly allocated window holds. *)
Lemma get3_np_full (n0 n1 n2 : nat) (fill : cell) (dt : DType) (b x y : nat) :
  (b < n0)%nat -> (x < n1)%nat -> (y < n2)%nat ->
  get3 (np_full [n0; n1; n2] fill dt) b x y = Ok fill.
Proof.
  intros Hb Hx Hy.
  assert (H3 : is_3d (np_full [n0; n1; n2] fill dt) n0 n1 n2).
  { split; [done|]. simpl. rewrite length_replicate. lia. }
  destruct (get3_in_range _ n0 n1 n2 b x y H3 Hb Hx Hy) as (v & Hv & ->).
  simpl in Hv. apply lookup_replicate in Hv as [-> _]. done.
Qed.

Lemma get3_np_empty (junk : nat -> cell) (n0 n1 n2 : nat) (dt : DType) (b x y : nat) :
  (b < n0)%nat -> (x < n1)%nat -> (y < n2)%nat ->
  get3 (np_empty junk [n0; n1; n2] dt) b x y = Ok (junk ((b * n1 + x) * n2 + y)%nat).
Proof.
  intros Hb Hx Hy.
  assert (H3 : is_3d (np_empty junk [n0; n1; n2] dt) n0 n1 n2).
  { split; [done|]. simpl. rewrite length_map, length_seq. lia. }
  destruct (get3_in_range _ n0 n1 n2 b x y H3 Hb Hx Hy) as (v & Hv & ->).
  simpl in Hv. rewrite list_lookup_fmap in Hv.
  destruct (seq _ _ !! _) as [p|] eqn:Hp; [|done].
  apply lookup_seq in Hp as [-> _]. simpl in Hv. congruence.
Qed.

(** Two well-formed arrays with the same pixels are the same array. *)
Lemma is_3d_ext (a a' : ndarray) (n0 n1 n2 : nat) :
  is_3d a n0 n1 n2 -> is_3d a' n0 n1 n2 -> dtype a = dtype a' ->
  (forall b x y, (b < n0)%nat -> (x < n1)%nat -> (y < n2)%nat ->
     get3 a b x y = get3 a' b x y) ->
  a = a'.
Proof.
  intros Ha Ha' Hdt Hpix. pose proof Ha as [Hs Hl]. pose proof Ha' as [Hs' Hl'].
  destruct a as [s d l], a' as [s' d' l']. simpl in *. subst s s' d'. f_equal.
  apply list_eq. intros p.
  destruct (decide (p < n0 * n1 * n2)%nat) as [Hp|Hp].
  - assert (Hn2 : (0 < n2)%nat) by (destruct n2; lia).
    assert (Hn1 : (0 < n1)%nat) by (destruct n1; lia).
    set (y := (p mod n2)%nat). set (q := (p / n2)%nat).
    set (x := (q mod n1)%nat). set (b := (q / n1)%nat).
    assert (Hy : (y < n2)%nat) by (apply Nat.mod_upper_bound; lia).
    assert (Hx : (x < n1)%nat) by (apply Nat.mod_upper_bound; lia).
    assert (Hpq : p = (q * n2 + y)%nat).
    { unfold q, y. rewrite (Nat.div_mod_eq p n2) at 1. lia. }
    assert (Hqb : q = (b * n1 + x)%nat).
    { unfold b, x. rewrite (Nat.div_mod_eq q n1) at 1. lia. }
    assert (Hb : (b < n0)%nat).
    { destruct (decide (b < n0)%nat); [done|]. exfalso.
      assert (n0 * n1 <= b * n1)%nat by (apply Nat.mul_le_mono_r; lia).
      assert (n0 * n1 * n2 <= q * n2)%nat by (apply Nat.mul_le_mono_r; lia). lia. }
    specialize (Hpix b x y Hb Hx Hy).
    destruct (get3_in_range (mk_ndarray [n0; n1; n2] d l) n0 n1 n2 b x y Ha Hb Hx Hy)
      as (v & Hv & Hg).
    destruct (get3_in_range (mk_ndarray [n0; n1; n2] d l') n0 n1 n2 b x y Ha' Hb Hx Hy)
      as (v' & Hv' & Hg').
    simpl in Hv, Hv'. rewrite Hpq, Hqb, Hv, Hv'. congruence.
  - rewrite !lookup_ge_None_2; [done|lia..].
Qed.

(** Writing pixels never changes the element type of the window. *)
Lemma foldlM_set3_dtype (src : ndarray)
    (l : list ((nat * nat * nat) * (nat * nat * nat))) (window w' : ndarray) :
  foldlM (fun w (p : (nat * nat * nat) * (nat * nat * nat)) =>
            v ← get3 src p.2.1.1 p.2.1.2 p.2.2;
            set3 w p.1.1.1 p.1.1.2 p.1.2 v) window l = Ok w' ->
  dtype w' = dtype window.
Proof.
  revert window. induction l as [|p l IH]; intros window; simpl.
  - by intros [= ->].
  - destruct (get3 src _ _ _) as [v|]; [|done]. simpl.
    destruct (set3 window _ _ _ v) as [w1|] eqn:Hset; [|done]. simpl.
    intros Hfold. rewrite (IH _ Hfold). unfold set3 in Hset.
    destruct (flat3 _ _ _ _); [|done]. by injection Hset as <-.
Qed.

Lemma stitch_block_dtype (crop_win : Win) (bw bh : nat) (wbind : list nat)
    (window w' : ndarray) (iblk : Key * Tile) :
  stitch_block crop_win bw bh wbind window iblk = Ok w' -> dtype w' = dtype window.
Proof.
  unfold stitch_block. destruct crop_win as [[[cx cy] cw] ch].
  destruct (reshape_blocks _ _ _) as [reshaped|]; [|done]. rewrite result_bind_Ok.
  destruct (transpose_021 _) as [iarr|]; [|done]. rewrite result_bind_Ok.
  cbv zeta. destruct (_ && _).
  - unfold ix_assign. apply foldlM_set3_dtype.
  - by intros [= ->].
Qed.

Lemma stitch_blocks_dtype (crop_win : Win) (bw bh : nat) (wbind : list nat)
    (blocks : list (Key * Tile)) (window w' : ndarray) :
  foldlM (stitch_block crop_win bw bh wbind) window blocks = Ok w' ->
  dtype w' = dtype window.
Proof.
  revert window. induction blocks as [|t l IH]; intros window; simpl.
  - by intros [= ->].
  - destruct (stitch_block _ _ _ _ _ _) as [w1|] eqn:Hblock; [|done]. simpl.
    intros Hfold. rewrite (IH _ Hfold). by eapply stitch_block_dtype.
Qed.

Lemma allocate_window_dtype junk nodata sh dt : dtype (allocate_window junk nodata sh dt) = dt.
Proof. unfold allocate_window. destruct nodata; [destruct (truthy _)|]; done. Qed.

(** The block placed at column [c] and row [r] covers the pixel exactly when
    [c] and [r] are the block coordinates of the pixel. *)
Lemma covers_iff (cx cy cw ch : Z) (bw bh : nat) (c r : Z) (x y : nat) :
  (0 < bw)%nat -> (0 < bh)%nat ->
  covers (cx, cy, cw, ch) bw bh c r x y = true
  <-> c = (cx + Z.of_nat x) `div` Z.of_nat bw /\ r = (cy + Z.of_nat y) `div` Z.of_nat bh.
Proof.
  intros Hbw Hbh. unfold covers. cbn [fst snd].
  rewrite !andb_true_iff, !Z.leb_le, !Z.ltb_lt. split.
  - intros [[[H1 H2] H3] H4]. split.
    + apply (Z.div_unique_pos _ _ _ (cx + Z.of_nat x - c * Z.of_nat bw)); lia.
    + apply (Z.div_unique_pos _ _ _ (cy + Z.of_nat y - r * Z.of_nat bh)); lia.
  - intros [-> ->].
    pose proof (Z.mul_div_le (cx + Z.of_nat x) (Z.of_nat bw) ltac:(lia)).
    pose proof (Z.mul_succ_div_gt (cx + Z.of_nat x) (Z.of_nat bw) ltac:(lia)).
    pose proof (Z.mul_div_le (cy + Z.of_nat y) (Z.of_nat bh) ltac:(lia)).
    pose proof (Z.mul_succ_div_gt (cy + Z.of_nat y) (Z.of_nat bh) ltac:(lia)).
    lia.
Qed.

(** The outcome of [stitch_at_time] on tiles of one shape, pixel by pixel. *)
Lemma stitch_at_time_pixels
    (junk : nat -> cell) (cx cy : Z) (W Hh : nat) (layout_win : Win) (ts : option Z)
    (first : Key * Tile) (rest : list (Key * Tile)) (nb bw bh : nat) :
  Forall (fun t : Key * Tile =>
            shape (cells t.2) = [nb; bw; bh] /\
            length (data (cells t.2)) = (nb * bw * bh)%nat) (first :: rest) ->
  (0 < bw)%nat -> (0 < bh)%nat ->
  let subarrs := first :: rest in
  let crop_win : Win := (cx, cy, Z.of_nat W, Z.of_nat Hh) in
  let nyblk := Z.quot layout_win.2 (Z.of_nat bh) - 1 in
  exists window,
    stitch_at_time junk crop_win layout_win (ts, subarrs) = Ok (ts, window) /\
    is_3d window nb W Hh /\
    dtype window = dtype (cells first.2) /\
    forall b x y, (b < nb)%nat -> (x < W)%nat -> (y < Hh)%nat ->
      match last (filter (fun t : Key * Tile =>
                            covers crop_win bw bh (key_col t.1) (nyblk - key_row t.1) x y = true)
                         subarrs) with
      | Some t =>
          exists v,
            data (cells t.2)
              !! source_position crop_win bw bh (key_col t.1) (nyblk - key_row t.1) b x y
            = Some v /\
            get3 window b x y = Ok v
      | None =>
          get3 window b x y
          = get3 (allocate_window junk (no_data_value first.2) [nb; W; Hh]
                    (dtype (cells first.2))) b x y
      end.
Proof.
  intros Hall Hbw Hbh subarrs crop_win nyblk.
  assert (Hfirst : shape (cells first.2) = [nb; bw; bh]).
  { by apply Forall_cons in Hall as [[? _] _]. }
  assert (Hlens : Forall (fun t : Key * Tile =>
                            length (data (cells t.2)) = (nb * bw * bh)%nat) subarrs).
  { eapply Forall_impl; [exact Hall|]. by intros t [_ ?]. }
  destruct (stitch_blocks_spec cx cy W Hh bw bh nb nyblk subarrs
              (allocate_window junk (no_data_value first.2) [nb; W; Hh]
                 (dtype (cells first.2)))
              (allocate_window_3d _ _ _ _ _ _) Hlens Hbw Hbh)
    as (window & Hfold & Hwin & Hspec).
  exists window. split; [|split; [done|split; [|exact Hspec]]].
  - unfold stitch_at_time, subarrs, crop_win.
    cbv beta iota zeta. cbn [fst snd]. rewrite !result_bind_Ok, Hfirst.
    cbn [rev app length take foldr Nat.ltb Nat.leb Nat.sub].
    rewrite !result_bind_Ok. cbn [fst snd]. rewrite Nat.add_0_r.
    replace ((Z.of_nat W <? 0) || (Z.of_nat Hh <? 0)) with false
      by (symmetry; apply orb_false_iff; split; apply Z.ltb_ge; lia).
    rewrite result_bind_Ok, !Nat2Z.id.
    destruct (Nat.eqb_spec bh 0); [lia|]. rewrite result_bind_Ok.
    fold nyblk. fold subarrs. fold crop_win in Hfold. unfold crop_win in Hfold.
    rewrite Hfold. done.
  - apply stitch_blocks_dtype in Hfold. by rewrite Hfold, allocate_window_dtype.
Qed.

Lemma filter_none {A} (P : A -> Prop) `{forall a, Decision (P a)} (l : list A) :
  (forall a, a ∈ l -> ~ P a) -> filter P l = [].
Proof.
  induction l as [|a l IH]; intros Hl; [done|].
  rewrite filter_cons_False by (apply Hl, list_elem_of_here).
  apply IH. intros a' Ha'. by apply Hl, list_elem_of_further.
Qed.

(** Among tiles with distinct spatial keys, a tile that covers a pixel is
    the only one to do so. *)
Lemma covering_tile_unique (crop_win : Win) (bw bh : nat) (nyblk : Z) (x y : nat)
    (l : list (Key * Tile)) (t : Key * Tile) :
  (0 < bw)%nat -> (0 < bh)%nat ->
  NoDup (map (fun t : Key * Tile => (key_col t.1, key_row t.1)) l) ->
  t ∈ l ->
  covers crop_win bw bh (key_col t.1) (nyblk - key_row t.1) x y = true ->
  filter (fun t : Key * Tile =>
            covers crop_win bw bh (key_col t.1) (nyblk - key_row t.1) x y = true) l = [t].
Proof.
  intros Hbw Hbh Hnd Ht Hc. destruct crop_win as [[[cx cy] cw] ch].
  assert (Hsame : forall t' : Key * Tile, covers (cx, cy, cw, ch) bw bh (key_col t'.1)
                               (nyblk - key_row t'.1) x y = true ->
                             (key_col t'.1, key_row t'.1) = (key_col t.1, key_row t.1)).
  { intros t' Hc'. apply covers_iff in Hc as [H1 H2]; [|done..].
    apply covers_iff in Hc' as [H1' H2']; [|done..]. f_equal; lia. }
  induction l as [|t0 l IH]; [by apply elem_of_nil in Ht|].
  simpl in Hnd. apply NoDup_cons in Hnd as [Hnotin Hnd].
  apply elem_of_cons in Ht as [->|Ht].
  - rewrite filter_cons_True by done. f_equal. apply filter_none.
    intros t' Ht' Hc'. apply Hnotin. rewrite <- (Hsame t' Hc').
    apply (list_elem_of_fmap_2 (fun t : Key * Tile => (key_col t.1, key_row t.1))), Ht'.
  - rewrite filter_cons_False; [by apply IH|].
    intros Hc0. apply Hnotin. rewrite (Hsame t0 Hc0).
    apply (list_elem_of_fmap_2 (fun t : Key * Tile => (key_col t.1, key_row t.1))), Ht.
Qed.

(** X3. Nodata of uncovered pixels. In the stitched window a pixel that no
    tile covers holds the nodata value of the first tile when that value is
    truthy; when the first tile has no nodata value, or the value is zero,
    the window is allocated uninitialised and the pixel holds whatever the
    allocator left there. *)
Theorem uncovered_pixels_hold_nodata
    (junk : nat -> cell) (cx cy : Z) (W Hh : nat) (layout_win : Win) (ts : option Z)
    (first : Key * Tile) (rest : list (Key * Tile)) (nb bw bh : nat) :
  Forall (fun t : Key * Tile =>
            shape (cells t.2) = [nb; bw; bh] /\
            length (data (cells t.2)) = (nb * bw * bh)%nat) (first :: rest) ->
  (0 < bw)%nat -> (0 < bh)%nat ->
  let subarrs := first :: rest in
  let crop_win : Win := (cx, cy, Z.of_nat W, Z.of_nat Hh) in
  let nyblk := Z.quot layout_win.2 (Z.of_nat bh) - 1 in
  exists window,
    stitch_at_time junk crop_win layout_win (ts, subarrs) = Ok (ts, window) /\
    forall b x y, (b < nb)%nat -> (x < W)%nat -> (y < Hh)%nat ->
      (forall t, t ∈ subarrs ->
         covers crop_win bw bh (key_col t.1) (nyblk - key_row t.1) x y = false) ->
      get3 window b x y
      = Ok (match no_data_value first.2 with
            | Some (Num q) => if Qeq_bool q 0 then junk ((b * W + x) * Hh + y)%nat else Num q
            | Some NaN => NaN
            | None => junk ((b * W + x) * Hh + y)%nat
            end).
Proof.
  intros Hall Hbw Hbh subarrs crop_win nyblk.
  destruct (stitch_at_time_pixels junk cx cy W Hh layout_win ts first rest nb bw bh
              Hall Hbw Hbh) as (window & Hrun & _ & _ & Hspec).
  exists window. split; [exact Hrun|]. intros b x y Hb Hx Hy Hnone.
  specialize (Hspec b x y Hb Hx Hy). fold subarrs crop_win nyblk in Hspec.
  rewrite filter_none in Hspec.
  2:{ intros t Ht. rewrite (Hnone t Ht). done. }
  simpl in Hspec. rewrite Hspec. unfold allocate_window.
  destruct (no_data_value first.2) as [[|q]|]; simpl.
  - by apply get3_np_full.
  - destruct (Qeq_bool q 0); simpl; [by apply get3_np_empty|by apply get3_np_full].
  - by apply get3_np_empty.
Qed.

(** X4. Order of the tiles. When the tiles of a group have distinct spatial
    keys, the stitched window does not depend on the order in which the
    tiles arrive, as long as the tile that comes first carries the same
    nodata value and element type. *)
Theorem stitching_ignores_tile_order
    (junk : nat -> cell) (cx cy : Z) (W Hh : nat) (layout_win : Win) (ts : option Z)
    (first first' : Key * Tile) (rest rest' : list (Key * Tile)) (nb bw bh : nat) :
  Forall (fun t : Key * Tile =>
            shape (cells t.2) = [nb; bw; bh] /\
            length (data (cells t.2)) = (nb * bw * bh)%nat) (first :: rest) ->
  (0 < bw)%nat -> (0 < bh)%nat ->
  NoDup (map (fun t : Key * Tile => (key_col t.1, key_row t.1)) (first :: rest)) ->
  first' :: rest' ≡ₚ first :: rest ->
  no_data_value first'.2 = no_data_value first.2 ->
  dtype (cells first'.2) = dtype (cells first.2) ->
  let crop_win : Win := (cx, cy, Z.of_nat W, Z.of_nat Hh) in
  exists window,
    stitch_at_time junk crop_win layout_win (ts, first :: rest) = Ok (ts, window) /\
    stitch_at_time junk crop_win layout_win (ts, first' :: rest') = Ok (ts, window).
Proof.
  intros Hall Hbw Hbh Hnd Hperm Hnodata Hdtype crop_win.
  assert (Hall' : Forall (fun t : Key * Tile =>
                            shape (cells t.2) = [nb; bw; bh] /\
                            length (data (cells t.2)) = (nb * bw * bh)%nat) (first' :: rest')).
  { by rewrite Hperm. }
  assert (Hnd' : NoDup (map (fun t : Key * Tile => (key_col t.1, key_row t.1))
                            (first' :: rest'))).
  { assert (Hp : map (fun t : Key * Tile => (key_col t.1, key_row t.1)) (first' :: rest')
                 ≡ₚ map (fun t : Key * Tile => (key_col t.1, key_row t.1)) (first :: rest))
      by exact (fmap_Permutation _ _ _ Hperm).
    by rewrite Hp. }
  destruct (stitch_at_time_pixels junk cx cy W Hh layout_win ts first rest nb bw bh
              Hall Hbw Hbh) as (w & Hrun & H3d & Hdt & Hspec).
  destruct (stitch_at_time_pixels junk cx cy W Hh layout_win ts first' rest' nb bw bh
              Hall' Hbw Hbh) as (w' & Hrun' & H3d' & Hdt' & Hspec').
  exists w. split; [exact Hrun|]. fold crop_win in Hrun'. rewrite Hrun'. do 2 f_equal.
  apply (is_3d_ext w' w nb W Hh); [done|done|congruence|].
  intros b x y Hb Hx Hy. specialize (Hspec b x y Hb Hx Hy).
  specialize (Hspec' b x y Hb Hx Hy). fold crop_win in Hspec, Hspec'.
  set (nyblk := Z.quot layout_win.2 (Z.of_nat bh) - 1) in *.
  set (P := fun t : Key * Tile =>
              covers crop_win bw bh (key_col t.1) (nyblk - key_row t.1) x y = true) in *.
  destruct (decide (Exists P (first :: rest))) as [Hex|Hno].
  - apply Exists_exists in Hex as (t & Ht & Hc).
    assert (Ht' : t ∈ first' :: rest') by (by rewrite Hperm).
    assert (E : filter P (first :: rest) = [t])
      by exact (covering_tile_unique crop_win bw bh nyblk x y _ t Hbw Hbh Hnd Ht Hc).
    assert (E' : filter P (first' :: rest') = [t])
      by exact (covering_tile_unique crop_win bw bh nyblk x y _ t Hbw Hbh Hnd' Ht' Hc).
    rewrite E in Hspec. rewrite E' in Hspec'.
    simpl in Hspec, Hspec'. destruct Hspec as (v & Hv & ->), Hspec' as (v' & Hv' & ->).
    congruence.
  - rewrite filter_none in Hspec
      by (intros t Ht Hc; apply Hno, Exists_exists; by exists t).
    rewrite filter_none in Hspec'.
    2:{ intros t Ht Hc. apply Hno, Exists_exists. exists t.
        split; [by rewrite <- Hperm|done]. }
    simpl in Hspec, Hspec'. rewrite Hspec, Hspec', Hnodata, Hdtype. done.
Qed.

(** Without a crop box the window is the pixel range of the layer bounds,
    and the block rows are counted from the other end of the layout. *)
Lemma uncropped_window (md : Metadata) (bw bh : nat) :
  let tl := tileLayout (layout_definition md) in
  let mincol := key_col (minKey (bounds md)) in
  let maxcol := key_col (maxKey (bounds md)) in
  let minrow := key_row (minKey (bounds md)) in
  let maxrow := key_row (maxKey (bounds md)) in
  (0 < bh)%nat ->
  tileCols tl = Z.of_nat bw -> tileRows tl = Z.of_nat bh ->
  mincol <= maxcol -> minrow <= maxrow ->
  crop_window_of_bounds md
  = (mincol * Z.of_nat bw, minrow * Z.of_nat bh,
     Z.of_nat (Z.to_nat ((maxcol + 1 - mincol) * Z.of_nat bw)),
     Z.of_nat (Z.to_nat ((maxrow + 1 - minrow) * Z.of_nat bh))) /\
  Z.quot (layout_window md).2 (Z.of_nat bh) - 1 = layoutRows tl - 1.
Proof.
  intros tl mincol maxcol minrow maxrow Hbh Hcols Hrows Hc Hr. split.
  - unfold crop_window_of_bounds. fold tl mincol maxcol minrow maxrow.
    rewrite Hcols, Hrows, !Z2Nat.id by nia. done.
  - unfold layout_window. fold tl. cbn [snd]. rewrite Hrows, Z.quot_mul by lia. done.
Qed.

(** The tile that covers a pixel of the uncropped window, and the place in
    the tile the pixel is read from. *)
Lemma uncropped_cover (mincol minrow cw ch nyblk : Z) (bw bh : nat) (c r : Z) (x y : nat) :
  (0 < bw)%nat -> (0 < bh)%nat ->
  covers (mincol * Z.of_nat bw, minrow * Z.of_nat bh, cw, ch) bw bh c (nyblk - r) x y = true
  <-> c = mincol + Z.of_nat (x / bw) /\ r = nyblk - (minrow + Z.of_nat (y / bh)).
Proof.
  intros Hbw Hbh. rewrite covers_iff by done.
  rewrite !(Z.add_comm (_ * _)), !Z.div_add by lia. rewrite !Nat2Z.inj_div. lia.
Qed.

Lemma uncropped_source (mincol minrow cw ch : Z) (bw bh : nat) (b x y : nat) :
  (0 < bw)%nat -> (0 < bh)%nat ->
  source_position (mincol * Z.of_nat bw, minrow * Z.of_nat bh, cw, ch) bw bh
    (mincol + Z.of_nat (x / bw)) (minrow + Z.of_nat (y / bh)) b x y
  = ((b * bh + (bh - 1 - y mod bh)) * bw + x mod bw)%nat.
Proof.
  intros Hbw Hbh. unfold source_position. cbn [fst snd].
  pose proof (Nat.div_mod_eq x bw). pose proof (Nat.div_mod_eq y bh).
  pose proof (Nat.mod_upper_bound x bw ltac:(lia)).
  pose proof (Nat.mod_upper_bound y bh ltac:(lia)).
  f_equal; [f_equal; f_equal|]; nia.
Qed.

(** X1. Which tile fills which pixel when no crop box is given. The pixel
    [(x, y)] of band [b] is read from the tile whose key has the column
    [mincol + x / bw] and the row [layoutRows - 1 - (minrow + y / bh)], at
    the place [((b * bh + (bh - 1 - y mod bh)) * bw + x mod bw)] of its data;
    when the group holds no tile with that key the pixel stays as allocated. *)
Theorem uncropped_window_pixel_source
    (junk : nat -> cell) (md : Metadata) (ts : option Z)
    (first : Key * Tile) (rest : list (Key * Tile)) (nb bw bh : nat) :
  let tl := tileLayout (layout_definition md) in
  let mincol := key_col (minKey (bounds md)) in
  let maxcol := key_col (maxKey (bounds md)) in
  let minrow := key_row (minKey (bounds md)) in
  let maxrow := key_row (maxKey (bounds md)) in
  let W := Z.to_nat ((maxcol + 1 - mincol) * Z.of_nat bw) in
  let Hh := Z.to_nat ((maxrow + 1 - minrow) * Z.of_nat bh) in
  Forall (fun t : Key * Tile =>
            shape (cells t.2) = [nb; bw; bh] /\
            length (data (cells t.2)) = (nb * bw * bh)%nat) (first :: rest) ->
  (0 < bw)%nat -> (0 < bh)%nat ->
  tileCols tl = Z.of_nat bw -> tileRows tl = Z.of_nat bh ->
  mincol <= maxcol -> minrow <= maxrow ->
  NoDup (map (fun t : Key * Tile => (key_col t.1, key_row t.1)) (first :: rest)) ->
  exists window,
    stitch_at_time junk (crop_window_of_bounds md) (layout_window md) (ts, first :: rest)
    = Ok (ts, window) /\
    shape window = [nb; W; Hh] /\
    forall b x y, (b < nb)%nat -> (x < W)%nat -> (y < Hh)%nat ->
      (forall t, t ∈ first :: rest ->
         key_col t.1 = mincol + Z.of_nat (x / bw) ->
         key_row t.1 = layoutRows tl - 1 - (minrow + Z.of_nat (y / bh)) ->
         exists v,
           data (cells t.2) !! ((b * bh + (bh - 1 - y mod bh)) * bw + x mod bw)%nat = Some v /\
           get3 window b x y = Ok v) /\
      ((forall t, t ∈ first :: rest ->
          ~ (key_col t.1 = mincol + Z.of_nat (x / bw) /\
             key_row t.1 = layoutRows tl - 1 - (minrow + Z.of_nat (y / bh)))) ->
       get3 window b x y
       = get3 (allocate_window junk (no_data_value first.2) [nb; W; Hh]
                 (dtype (cells first.2))) b x y).
Proof.
  intros tl mincol maxcol minrow maxrow W Hh Hall Hbw Hbh Hcols Hrows Hc Hr Hnd.
  destruct (uncropped_window md bw bh Hbh Hcols Hrows Hc Hr) as [Hwin Hny].
  fold tl mincol maxcol minrow maxrow W Hh in Hwin, Hny.
  destruct (stitch_at_time_pixels junk (mincol * Z.of_nat bw) (minrow * Z.of_nat bh)
              W Hh (layout_window md) ts first rest nb bw bh Hall Hbw Hbh)
    as (window & Hrun & [Hshape _] & _ & Hspec).
  exists window. rewrite Hwin. split; [exact Hrun|]. split; [exact Hshape|].
  intros b x y Hb Hx Hy. specialize (Hspec b x y Hb Hx Hy). rewrite Hny in Hspec.
  split.
  - intros t Ht Hcol Hrow.
    assert (Hcov : covers (mincol * Z.of_nat bw, minrow * Z.of_nat bh, Z.of_nat W, Z.of_nat Hh)
                     bw bh (key_col t.1) (layoutRows tl - 1 - key_row t.1) x y = true).
    { apply uncropped_cover; [done..|]. split; [done|lia]. }
    rewrite (covering_tile_unique _ bw bh (layoutRows tl - 1) x y _ t Hbw Hbh Hnd Ht Hcov)
      in Hspec.
    simpl in Hspec. destruct Hspec as (v & Hv & Hget). exists v. split; [|done].
    rewrite Hcol in Hv.
    replace (layoutRows tl - 1 - key_row t.1) with (minrow + Z.of_nat (y / bh)) in Hv by lia.
    by rewrite uncropped_source in Hv.
  - intros Hnone. rewrite filter_none in Hspec; [done|].
    intros t Ht Hcov. apply uncropped_cover in Hcov as [Hcol Hrow]; [|done..].
    apply (Hnone t Ht). split; [done|lia].
Qed.

(** X2. Bounds that are not mirrored in the layout. Without a crop box the
    window spans the rows of the layer bounds counted from the top of the
    layout, while every tile is placed at its row counted from the bottom.
    When the two ranges do not meet, no tile is copied at all: the result is
    the window as it was allocated. *)
Theorem unmirrored_bounds_leave_window_blank
    (junk : nat -> cell) (md : Metadata) (ts : option Z)
    (first : Key * Tile) (rest : list (Key * Tile)) (nb bw bh : nat) :
  let tl := tileLayout (layout_definition md) in
  let mincol := key_col (minKey (bounds md)) in
  let maxcol := key_col (maxKey (bounds md)) in
  let minrow := key_row (minKey (bounds md)) in
  let maxrow := key_row (maxKey (bounds md)) in
  let W := Z.to_nat ((maxcol + 1 - mincol) * Z.of_nat bw) in
  let Hh := Z.to_nat ((maxrow + 1 - minrow) * Z.of_nat bh) in
  Forall (fun t : Key * Tile =>
            shape (cells t.2) = [nb; bw; bh] /\
            length (data (cells t.2)) = (nb * bw * bh)%nat) (first :: rest) ->
  (0 < bw)%nat -> (0 < bh)%nat ->
  tileCols tl = Z.of_nat bw -> tileRows tl = Z.of_nat bh ->
  mincol <= maxcol -> minrow <= maxrow ->
  Forall (fun t : Key * Tile => minrow <= key_row t.1 <= maxrow) (first :: rest) ->
  maxrow < layoutRows tl - 1 - maxrow \/ layoutRows tl - 1 - minrow < minrow ->
  stitch_at_time junk (crop_window_of_bounds md) (layout_window md) (ts, first :: rest)
  = Ok (ts, allocate_window junk (no_data_value first.2) [nb; W; Hh] (dtype (cells first.2))).
Proof.
  intros tl mincol maxcol minrow maxrow W Hh Hall Hbw Hbh Hcols Hrows Hc Hr Hin Hoff.
  destruct (uncropped_window md bw bh Hbh Hcols Hrows Hc Hr) as [Hwin Hny].
  fold tl mincol maxcol minrow maxrow W Hh in Hwin, Hny.
  destruct (stitch_at_time_pixels junk (mincol * Z.of_nat bw) (minrow * Z.of_nat bh)
              W Hh (layout_window md) ts first rest nb bw bh Hall Hbw Hbh)
    as (window & Hrun & H3d & Hdt & Hspec).
  rewrite Hwin, Hrun. do 2 f_equal.
  apply (is_3d_ext _ _ nb W Hh); [done|apply allocate_window_3d| |].
  { by rewrite allocate_window_dtype. }
  intros b x y Hb Hx Hy. specialize (Hspec b x y Hb Hx Hy). rewrite Hny in Hspec.
  rewrite filter_none in Hspec; [done|].
  intros t Ht Hcov. apply uncropped_cover in Hcov as [_ Hrow]; [|done..].
  rewrite Forall_forall in Hin. specialize (Hin t Ht). cbv beta in Hin.
  assert (Z.of_nat (y / bh) * Z.of_nat bh <= Z.of_nat y).
  { rewrite <- Nat2Z.inj_mul. apply inj_le. rewrite Nat.mul_comm.
    apply Nat.Div0.mul_div_le. }
  assert (Z.of_nat y < (maxrow + 1 - minrow) * Z.of_nat bh) by (unfold Hh in Hy; lia).
  nia.
Qed.

(** ** Collecting a layer into one array *)

Lemma result_bind_inv {A B} (m : result A) (f : A -> result B) (b : B) :
  m ≫= f = Ok b -> exists a, m = Ok a /\ f a = Ok b.
Proof. destruct m as [a|e]; [|done]. intros Hf. by exists a. Qed.

Lemma result_fmap_inv {A B} (g : A -> B) (m : result A) (b : B) :
  g <$> m = Ok b -> exists a, m = Ok a /\ b = g a.
Proof. destruct m as [a|e]; [|done]. intros [= <-]. by exists a. Qed.

Ltac bind_inv H :=
  let a := fresh "a" in
  let E := fresh "E" in
  apply result_bind_inv in H as (a & E & H).

Tactic Notation "bind_inv_as" hyp(H) ident(a) ident(E) :=
  apply result_bind_inv in H as (a & E & H).

Lemma filterM_inv {A} (f : A -> result bool) (l k : list A) :
  filterM f l = Ok k -> forall a, a ∈ k <-> a ∈ l /\ f a = Ok true.
Proof.
  revert k. induction l as [|a l IH]; intros k; simpl.
  - intros [= <-] x. split; [by intros ?%elem_of_nil|by intros [?%elem_of_nil _]].
  - intros Hk x. bind_inv Hk. bind_inv Hk. injection Hk as <-.
    specialize (IH _ E0 x). destruct a0.
    + rewrite !elem_of_cons, IH. split.
      * intros [->|[? ?]]; [by split; [left|]|by split; [right|]].
      * intros [[->|?] ?]; [by left|by right].
    + rewrite elem_of_cons, IH. split.
      * intros [? ?]. by split; [right|].
      * intros [[->|?] ?]; [congruence|done].
Qed.

Lemma stitch_at_time_label (junk : nat -> cell) (crop_win layout_win : Win)
    (items : option Z * list (Key * Tile)) (r : option Z * ndarray) :
  stitch_at_time junk crop_win layout_win items = Ok r -> r.1 = items.1.
Proof.
  unfold stitch_at_time. intros Hr. destruct crop_win as [[[cx cy] cw] ch].
  bind_inv Hr. bind_inv Hr. cbv zeta in Hr. bind_inv Hr. bind_inv Hr. bind_inv Hr.
  by injection Hr as <-.
Qed.

Lemma map_fst_groupByKey {K V} `{EqDecision K} (rdd : list (K * V)) :
  map fst (groupByKey rdd) = remove_dups (map fst rdd).
Proof.
  unfold groupByKey. rewrite <- list_fmap_compose. apply list_fmap_id.
Qed.

(** Whether an instant lies in the requested range of dates. *)
Lemma within_crop_dates_true (crop_dates : option (Z * Z)) (t : Key * Tile) :
  within_crop_dates true crop_dates t = Ok true <->
  match crop_dates with
  | Some (date_from, date_to) =>
      exists i, key_instant t.1 = Ok i /\ date_from <= i <= date_to
  | None => True
  end.
Proof.
  unfold within_crop_dates. destruct crop_dates as [[a b]|]; [|done].
  destruct (key_instant t.1) as [i|e]; simpl.
  - split.
    + intros [= Hi]. apply andb_true_iff in Hi as [?%Z.leb_le ?%Z.leb_le]. by exists i.
    + intros (i' & [= <-] & Hi). f_equal. apply andb_true_iff. split; apply Z.leb_le; lia.
  - split; [done|]. by intros (i & ? & _).
Qed.

Lemma remove_dups_Some (l : list Z) :
  remove_dups (map Some l) = map Some (remove_dups l).
Proof.
  induction l as [|z l IH]; [done|]. simpl. rewrite IH.
  destruct (decide_rel elem_of (Some z) _) as [Hin|Hnin];
    destruct (decide_rel elem_of z _) as [Hin'|Hnin']; try done.
  - exfalso. apply Hnin'. apply list_elem_of_fmap in Hin as (z' & [= ->] & Hz'). done.
  - exfalso. apply Hnin. apply list_elem_of_fmap. by exists z.
Qed.

Lemma time_label_inv (kept : list (Key * Tile)) (labelled : list (option Z * (Key * Tile))) :
  mapM (time_label true) kept = Ok labelled ->
  map fst labelled = map (fun t : Key * Tile => Some (instant_of t.1)) kept /\
  Forall (fun t : Key * Tile => key_instant t.1 = Ok (instant_of t.1)) kept.
Proof.
  intros Hm. apply mapM_result_inv in Hm.
  induction Hm as [|t lb k lbs Ht _ IH]; [by split|]. destruct IH as [IH1 IH2].
  unfold time_label in Ht. destruct t as [[c r|c r i] tile]; simpl in Ht; [done|].
  injection Ht as <-. simpl. split; [by rewrite IH1|by constructor].
Qed.

(** The labels of the stitched windows of a cube with a temporal dimension:
    the distinct instants of the tiles in the range of dates. *)
Lemma stitched_windows_labels (junk : option Z -> nat -> cell) (crop_dates : option (Z * Z))
    (crop_win layout_win : Win) (rdd : TiledRasterLayer)
    (collection : list (option Z * ndarray)) :
  stitched_windows junk true crop_dates crop_win layout_win rdd = Ok collection ->
  exists tiles instants,
    numpy_rdd rdd = Ok tiles /\
    map fst collection = map Some instants /\
    NoDup instants /\
    forall i, i ∈ instants <->
      exists t, t ∈ tiles /\ key_instant t.1 = Ok i /\
                match crop_dates with
                | Some (date_from, date_to) => date_from <= i <= date_to
                | None => True
                end.
Proof.
  unfold stitched_windows. intros Hc. bind_inv Hc. rename a into tiles.
  bind_inv Hc. rename a into kept. bind_inv Hc. rename a into labelled.
  pose proof (filterM_inv _ _ _ E0) as Hkept.
  destruct (time_label_inv _ _ E1) as [Hlab Hkeys].
  apply mapM_result_inv in Hc.
  assert (Hfst : map fst collection = map fst (groupByKey labelled)).
  { clear -Hc. induction Hc as [|g w gs ws Hg _ IH]; [done|].
    apply stitch_at_time_label in Hg. simpl. by rewrite IH, Hg. }
  rewrite map_fst_groupByKey, Hlab in Hfst.
  exists tiles, (remove_dups (map (fun t : Key * Tile => instant_of t.1) kept)).
  split; [done|]. split; [|split; [apply NoDup_remove_dups|]].
  - rewrite Hfst, <- remove_dups_Some. f_equal. by rewrite <- list_fmap_compose.
  - intros i. rewrite elem_of_remove_dups, list_elem_of_fmap. split.
    + intros (t & -> & Ht). pose proof Ht as Ht0. apply Hkept in Ht as [Ht Hd].
      exists t. split; [done|]. rewrite Forall_forall in Hkeys.
      assert (Hk : key_instant t.1 = Ok (instant_of t.1)) by (by apply Hkeys).
      split; [done|]. apply within_crop_dates_true in Hd.
      destruct crop_dates as [[a b]|]; [|done].
      destruct Hd as (i & Hi & Hr). rewrite Hk in Hi. by injection Hi as <-.
    + intros (t & Ht & Hk & Hr). exists t.
      split; [by destruct t as [[c r|c r i'] tile]; simpl in *; [|injection Hk as <-]|].
      apply Hkept. split; [done|].
      apply within_crop_dates_true. destruct crop_dates as [[a b]|]; [|done]. by exists i.
Qed.

Lemma sorted_NoDup_strict (l : list Z) :
  StronglySorted Z.le l -> NoDup l -> StronglySorted Z.lt l.
Proof.
  induction 1 as [|z l Hs IH Hz]; intros Hnd; [constructor|].
  apply NoDup_cons in Hnd as [Hnin Hnd]. constructor; [by apply IH|].
  rewrite Forall_forall in Hz |- *. intros z' Hz'. specialize (Hz z' Hz').
  assert (z <> z') by (by intros ->). lia.
Qed.

(** After the sort the labels ascend strictly. *)
Lemma sort_by_label_sorted {A} (collection collection' : list (option Z * A))
    (instants : list Z) :
  sort_by_label collection = Ok collection' ->
  map fst collection = map Some instants -> NoDup instants ->
  exists ts, map fst collection' = map Some ts /\ ts ≡ₚ instants /\
             StronglySorted Z.lt ts /\ collection' ≡ₚ collection.
Proof.
  unfold sort_by_label. intros Hs Hfst Hnd.
  destruct (1 <? length collection)%nat eqn:Hlen.
  - bind_inv Hs. rename a into decorated. injection Hs as <-.
    apply mapM_result_inv in E.
    assert (Hdec : map fst decorated = instants /\ map snd decorated = collection /\
                   Forall (fun d : Z * (option Z * A) => d.2.1 = Some d.1) decorated).
    { clear Hlen Hnd. revert instants Hfst.
      induction E as [|i d l k Hi _ IH]; intros instants Hfst.
      - by destruct instants.
      - destruct instants as [|z instants]; [done|]. simpl in Hfst.
        injection Hfst as Hz Hfst. rewrite Hz in Hi. injection Hi as <-.
        destruct (IH _ Hfst) as (IH1 & IH2 & IH3). simpl.
        split; [by rewrite IH1|]. split; [by rewrite IH2|]. by constructor. }
    destruct Hdec as (Hd1 & Hd2 & Hd3).
    pose proof (sort_by_perm fst decorated) as Hperm.
    exists (map fst (sort_by fst decorated)). split; [|split; [|split]].
    + rewrite <- !list_fmap_compose. apply Forall_fmap_ext_1, Forall_forall.
      intros d Hd. rewrite Hperm in Hd. rewrite Forall_forall in Hd3.
      unfold compose. by apply Hd3.
    + by rewrite Hperm, Hd1.
    + apply sorted_NoDup_strict.
      * eapply (StronglySorted_fmap _ (fun a b : Z * (option Z * A) => a.1 <= b.1));
          [|apply sort_by_sorted].
        simpl. intros; done.
      * by rewrite Hperm, Hd1.
    + by rewrite Hperm, Hd2.
  - injection Hs as <-. exists instants. split; [done|]. split; [done|]. split; [|done].
    apply Nat.ltb_ge in Hlen. assert (Hl : (length instants <= 1)%nat).
    { by rewrite <- (length_map Some), <- Hfst, length_map. }
    destruct instants as [|z [|z' instants]]; simpl in Hl; [repeat constructor..|lia].
Qed.

Lemma np_stack_shape (arrays : list ndarray) (a : ndarray) :
  np_stack arrays = Ok a ->
  exists first rest, arrays = first :: rest /\ shape a = length arrays :: shape first.
Proof.
  destruct arrays as [|first rest]; [done|]. simpl.
  destruct (forallb _ _); [|done]. intros [= <-]. by exists first, rest.
Qed.

(** What a successful run on a cube with a temporal dimension went through. *)
Lemma _collect_as_xarray_time_inv (junk : option Z -> nat -> cell) (self : ImageCollection)
    (rdd : TiledRasterLayer) (crop_bounds : option Extent) (crop_dates : option (Z * Z))
    (c : Collected) :
  has_temporal_dimension (metadata self) = true ->
  _collect_as_xarray junk self rdd crop_bounds crop_dates = Ok (Filled c) ->
  exists crop_win windows collection declared n,
    stitched_windows junk true crop_dates crop_win (layout_window (layer_metadata rdd)) rdd
    = Ok windows /\
    sort_by_label windows = Ok collection /\
    band_dimension (metadata self) = Ok declared /\
    np_stack (map snd collection) = Ok (col_values c) /\
    shape_third_last (col_values c) = Ok n /\
    col_t c = Some (map fst collection) /\
    col_bands c = Some (if bool_decide (length (band_names declared) <> n)
                        then map (fun i : nat => "band_" +:+ pretty.pretty_nat i) (seq 0 n)
                        else band_names declared).
Proof.
  intros Htime Hrun. unfold _collect_as_xarray in Hrun. cbv zeta in Hrun.
  rewrite Htime in Hrun.
  bind_inv_as Hrun xres Exres. bind_inv_as Hrun yres Eyres.
  bind_inv_as Hrun crop_win Ewin. bind_inv_as Hrun coords_bands Ebands.
  bind_inv_as Hrun coords_x Ex. bind_inv_as Hrun coords_y Ey.
  bind_inv_as Hrun windows Ewindows.
  destruct (length windows =? 0)%nat; [done|].
  bind_inv_as Hrun sorted Esorted. bind_inv_as Hrun collection Ecoll.
  bind_inv_as Hrun npresult Estack. bind_inv_as Hrun names Enames.
  bind_inv_as Hrun n En. injection Hrun as <-. cbn [col_values col_t col_bands].
  destruct coords_bands as [declared_names|]; [|done]. injection Enames as ->.
  destruct (has_band_dimension (metadata self)); [|done].
  apply result_fmap_inv in Ebands as (names' & Ebands & [= ->]).
  apply result_fmap_inv in Ebands as (declared & Ebands & ->).
  injection Ecoll as ->.
  exists crop_win, windows, collection, declared, n. done.
Qed.

(** X5. A temporal cube without bands. For a cube that declares a temporal
    dimension but no band dimension, [_collect_as_xarray] never hands an
    array to xarray: it raises, or the selection is empty. *)
Theorem time_without_bands_is_never_collected (junk : option Z -> nat -> cell)
    (self : ImageCollection) (rdd : TiledRasterLayer) (crop_bounds : option Extent)
    (crop_dates : option (Z * Z)) :
  has_temporal_dimension (metadata self) = true ->
  has_band_dimension (metadata self) = false ->
  (exists e, _collect_as_xarray junk self rdd crop_bounds crop_dates = Raise e) \/
  _collect_as_xarray junk self rdd crop_bounds crop_dates
  = Ok (EmptySelection ["t"; "x"; "y"] ["x"; "y"]).
Proof.
  intros Htime Hbands.
  destruct (_collect_as_xarray junk self rdd crop_bounds crop_dates) as [[dims coords|c]|e]
    eqn:Hrun; [|exfalso|by left; eexists].
  - right. unfold _collect_as_xarray in Hrun. cbv zeta in Hrun.
    rewrite Htime, Hbands in Hrun.
    bind_inv_as Hrun xres Exres. bind_inv_as Hrun yres Eyres.
    bind_inv_as Hrun crop_win Ewin. bind_inv_as Hrun coords_bands Ebands.
    injection Ebands as <-.
    bind_inv_as Hrun coords_x Ex. bind_inv_as Hrun coords_y Ey.
    bind_inv_as Hrun windows Ewindows.
    destruct (length windows =? 0)%nat; [by injection Hrun as <- <-|].
    bind_inv_as Hrun sorted Esorted. bind_inv_as Hrun collection Ecoll.
    bind_inv_as Hrun npresult Estack. by bind_inv_as Hrun names Enames.
  - destruct (_collect_as_xarray_time_inv _ _ _ _ _ _ Htime Hrun)
      as (? & ? & ? & declared & ? & _ & _ & Hdecl & _).
    unfold band_dimension in Hdecl. unfold has_band_dimension in Hbands.
    by destruct (band_dimension_decl (metadata self)).
Qed.

(** X6. The time axis. The labels along [t] that [_collect_as_xarray] passes
    on ascend strictly; they are the instants of the tiles of the layer that
    lie in the requested range of dates, both ends included, each one once;
    and the array has one slice per label. *)
Theorem collected_times_ascend (junk : option Z -> nat -> cell)
    (self : ImageCollection) (rdd : TiledRasterLayer) (crop_bounds : option Extent)
    (crop_dates : option (Z * Z)) (c : Collected) :
  has_temporal_dimension (metadata self) = true ->
  _collect_as_xarray junk self rdd crop_bounds crop_dates = Ok (Filled c) ->
  exists tiles ts rest,
    numpy_rdd rdd = Ok tiles /\
    col_t c = Some (map Some ts) /\
    StronglySorted Z.lt ts /\
    (forall i, i ∈ ts <->
       exists t, t ∈ tiles /\ key_instant t.1 = Ok i /\
                 match crop_dates with
                 | Some (date_from, date_to) => date_from <= i <= date_to
                 | None => True
                 end) /\
    shape (col_values c) = length ts :: rest.
Proof.
  intros Htime Hrun.
  destruct (_collect_as_xarray_time_inv _ _ _ _ _ _ Htime Hrun)
    as (crop_win & windows & collection & declared & n & Hwin & Hsort & _ & Hstack & _ & Ht & _).
  destruct (stitched_windows_labels _ _ _ _ _ _ Hwin)
    as (tiles & instants & Htiles & Hfst & Hnd & Hin).
  destruct (sort_by_label_sorted _ _ _ Hsort Hfst Hnd) as (ts & Hts & Hperm & Hsorted & _).
  apply np_stack_shape in Hstack as (first & others & Hcoll & Hshape).
  exists tiles, ts, (shape first). split; [done|]. split; [by rewrite Ht, Hts|].
  split; [done|]. split.
  - intros i. by rewrite Hperm.
  - rewrite Hshape. f_equal.
    by rewrite length_map, <- (length_map fst), Hts, length_map.
Qed.

(** X7. The band labels. On a cube with a temporal dimension the labels
    along [bands] that [_collect_as_xarray] passes on are as many as the data
    has bands: the declared band names when their number fits, and the names
    [band_0], [band_1], ... when the metadata is out of sync with the tiles. *)
Theorem collected_band_labels_match_data (junk : option Z -> nat -> cell)
    (self : ImageCollection) (rdd : TiledRasterLayer) (crop_bounds : option Extent)
    (crop_dates : option (Z * Z)) (c : Collected) :
  has_temporal_dimension (metadata self) = true ->
  _collect_as_xarray junk self rdd crop_bounds crop_dates = Ok (Filled c) ->
  exists declared names n,
    band_dimension (metadata self) = Ok declared /\
    col_bands c = Some names /\
    shape_third_last (col_values c) = Ok n /\
    length names = n /\
    (length (band_names declared) = n -> names = band_names declared) /\
    (length (band_names declared) <> n ->
     NoDup names /\
     forall i, (i < n)%nat -> names !! i = Some ("band_" +:+ pretty.pretty_nat i)).
Proof.
  intros Htime Hrun.
  destruct (_collect_as_xarray_time_inv _ _ _ _ _ _ Htime Hrun)
    as (crop_win & windows & collection & declared & n & _ & _ & Hdecl & _ & Hn & _ & Hb).
  eexists declared, _, n. split; [done|]. split; [exact Hb|]. split; [done|].
  destruct (decide (length (band_names declared) = n)) as [Heq|Hne].
  - rewrite bool_decide_eq_false_2 by (by intros ?). done.
  - rewrite bool_decide_eq_true_2 by done. split; [by rewrite length_map, length_seq|].
    split; [done|]. intros _. split.
    + apply NoDup_fmap_2; [|apply NoDup_seq].
      intros i j Hij. apply (inj (String.append "band_")) in Hij.
      by apply pretty.pretty_nat_inj in Hij.
    + intros i Hi. rewrite list_lookup_fmap.
      by rewrite (lookup_seq_lt _ _ _ Hi).
Qed.

(** ** Band detection for [ndvi] *)

Lemma list_find_first {A} (p : A -> bool) (coll : list A) (i : nat) :
  fst <$> list_find (fun elem => p elem = true) coll = Some i <-> first_at p coll i.
Proof.
  unfold first_at. split.
  - intros Hf. apply fmap_Some in Hf as ([i' x] & Hf & ->).
    apply list_find_Some in Hf as (Hx & Hp & Hbefore). simpl. split; [by exists x|].
    intros j y Hj Hy. specialize (Hbefore j y Hy Hj). by destruct (p y).
  - intros [(x & Hx & Hp) Hbefore]. apply fmap_Some. exists (i, x). split; [|done].
    apply list_find_Some. split; [done|]. split; [done|].
    intros j y Hy Hj. rewrite (Hbefore j y Hj Hy). done.
Qed.

Lemma list_find_nowhere {A} (p : A -> bool) (coll : list A) :
  fst <$> list_find (fun elem => p elem = true) coll = None
  <-> Forall (fun y => p y = false) coll.
Proof.
  rewrite fmap_None, list_find_None. apply Forall_proper; [|done].
  intros y. by destruct (p y).
Qed.

(** X9. The search with fallbacks. [first_index_if] answers with the first
    position that satisfies the first predicate, in the order given, that
    any element satisfies at all; and with nothing exactly when no element
    satisfies any of the predicates. *)
Theorem first_index_if_takes_predicates_in_order {A} (coll : list A) (pred : A -> bool)
    (fallbacks : list (A -> bool)) :
  match first_index_if coll pred fallbacks with
  | Some i =>
      exists k p,
        (pred :: fallbacks) !! k = Some p /\
        first_at p coll i /\
        forall k' p', (k' < k)%nat -> (pred :: fallbacks) !! k' = Some p' ->
                      Forall (fun y => p' y = false) coll
  | None =>
      forall p, p ∈ pred :: fallbacks -> Forall (fun y => p y = false) coll
  end.
Proof.
  revert pred. induction fallbacks as [|head tail IH]; intros pred; simpl.
  - destruct (fst <$> list_find _ coll) as [i|] eqn:Hf.
    + exists 0%nat, pred. split; [done|]. split; [by apply list_find_first|].
      intros k' p' Hk'. lia.
    + intros p Hp. apply list_elem_of_singleton in Hp as ->. by apply list_find_nowhere.
  - destruct (fst <$> list_find _ coll) as [i|] eqn:Hf.
    + exists 0%nat, pred. split; [done|]. split; [by apply list_find_first|].
      intros k' p' Hk'. lia.
    + apply list_find_nowhere in Hf. specialize (IH head).
      destruct (first_index_if coll head tail) as [i|].
      * destruct IH as (k & p & Hk & Hfirst & Hearlier).
        exists (S k), p. split; [done|]. split; [done|].
        intros [|k'] p' Hk' Hp'; simpl in Hp'.
        -- by injection Hp' as <-.
        -- apply (Hearlier k' p'); [lia|done].
      * intros p Hp. apply elem_of_cons in Hp as [->|Hp]; [done|by apply IH].
Qed.

Lemma first_index_if_one {A} (coll : list A) (p : A -> bool) (i : nat) :
  first_index_if coll p [] = Some i <-> first_at p coll i.
Proof.
  simpl. rewrite <- list_find_first.
  destruct (fst <$> list_find _ coll); [done|]. split; done.
Qed.

Lemma first_index_if_two {A} (coll : list A) (p q : A -> bool) (i : nat) :
  first_index_if coll p [q] = Some i <->
  first_at p coll i \/ (Forall (fun y => p y = false) coll /\ first_at q coll i).
Proof.
  simpl. rewrite <- !list_find_first, <- list_find_nowhere.
  destruct (fst <$> list_find (fun elem => p elem = true) coll) as [i'|].
  - split; [by left|]. intros [?|[? _]]; done.
  - destruct (fst <$> list_find (fun elem => q elem = true) coll) as [i'|].
    + split; [by right|]. intros [?|[_ ?]]; done.
    + split; [done|]. intros [?|[_ ?]]; done.
Qed.

Lemma first_index_if_resolved (bands : list Band) (arg : option string) (fallback : string)
    (i : nat) :
  (if negb (truthy_str arg)
   then first_index_if bands (has_common_name fallback) []
   else first_index_if bands (has_name (default "" arg))
                       [has_common_name (default "" arg)]) = Some i
  <-> resolved_band bands arg fallback i.
Proof.
  unfold resolved_band. destruct (truthy_str arg); simpl negb; cbv iota.
  - apply first_index_if_two.
  - apply first_index_if_one.
Qed.

(** X10. The bands of [ndvi] (1.0). [_ndvi_v10] gets as far as the two band
    indices exactly when the cube has a band dimension, the target band (if
    one is named) is not among the band names, and both arguments resolve to
    a band: by name first and by common name only when no band has that
    name.  The indices are positions of the band list. *)
Theorem ndvi_v10_resolves_bands_by_name_first (has_bands : bool) (band_names : list string)
    (bands : list Band) (nir red target_band : option string) (r n : nat) :
  _ndvi_v10_indices has_bands band_names bands nir red target_band = inr (r, n)
  <-> has_bands = true /\
      ~ (truthy_str target_band = true /\ default "" target_band ∈ band_names) /\
      resolved_band bands red "red" r /\
      resolved_band bands nir "nir" n.
Proof.
  unfold _ndvi_v10_indices. rewrite <- !first_index_if_resolved.
  destruct has_bands; simpl negb; cbv iota; [|split; [done|by intros [? _]]].
  destruct (truthy_str target_band); simpl andb.
  - destruct (decide (default "" target_band ∈ band_names)) as [Hin|Hnin].
    + rewrite bool_decide_eq_true_2 by done.
      split; [done|]. intros (_ & Hno & _). by destruct Hno.
    + rewrite bool_decide_eq_false_2 by done.
      destruct (if negb (truthy_str red) then _ else _) as [r'|];
        destruct (if negb (truthy_str nir) then _ else _) as [n'|];
        (split; [intros [= -> ->]|intros (_ & _ & ? & ?)]); try done;
        try (split; [done|split; [by intros [_ ?]|done]]); congruence.
  - destruct (if negb (truthy_str red) then _ else _) as [r'|];
      destruct (if negb (truthy_str nir) then _ else _) as [n'|];
      (split; [intros [= -> ->]|intros (_ & _ & ? & ?)]); try done;
      try (split; [done|split; [by intros [? _]|done]]); congruence.
Qed.

Lemma elem_of_indices_where {A} (pred : A -> bool) (coll : list A) (i : nat) :
  i ∈ indices_where pred coll <-> exists x, coll !! i = Some x /\ pred x = true.
Proof.
  unfold indices_where. rewrite list_elem_of_omap. split.
  - intros ([j x] & Hjx & Hp). apply list_elem_of_lookup in Hjx as [k Hk].
    rewrite list_lookup_imap in Hk. destruct (coll !! k) as [y|] eqn:Hy; [|done].
    simpl in Hk. injection Hk as <- <-. simpl in Hp.
    destruct (pred y) eqn:Hpy; [|done]. injection Hp as <-. by exists y.
  - intros (x & Hx & Hp). exists (i, x). split.
    + apply list_elem_of_lookup. exists i. by rewrite list_lookup_imap, Hx.
    + simpl. by rewrite Hp.
Qed.

Lemma NoDup_indices_where {A} (pred : A -> bool) (coll : list A) :
  NoDup (indices_where pred coll).
Proof.
  unfold indices_where.
  assert (Hgen : forall (f : nat -> nat), Inj (=) (=) f ->
            NoDup (omap (fun ib : nat * A => if pred ib.2 then Some ib.1 else None)
                        (imap (fun i x => (f i, x)) coll))).
  { induction coll as [|x coll IH]; intros f Hf; [constructor|].
    rewrite imap_cons. simpl. destruct (pred x) eqn:Hp.
    - apply NoDup_cons. split.
      + rewrite list_elem_of_omap. intros ([j y] & Hjy & Hpy).
        apply list_elem_of_lookup in Hjy as [k Hk].
        rewrite list_lookup_imap in Hk. destruct (coll !! k) as [z|]; [|done].
        simpl in Hk. injection Hk as Hj Hz. subst j y. simpl in Hpy.
        destruct (pred z); [|done]. injection Hpy as Hpy. apply Hf in Hpy. done.
      + apply (IH (f ∘ S)). intros a b Hab. apply Hf in Hab. by injection Hab.
    - apply (IH (f ∘ S)). intros a b Hab. apply Hf in Hab. by injection Hab. }
  apply (Hgen id). by intros a b.
Qed.

Lemma indices_where_single {A} (pred : A -> bool) (coll : list A) (r : nat) :
  indices_where pred coll = [r]
  <-> forall i, (exists x, coll !! i = Some x /\ pred x = true) <-> i = r.
Proof.
  split.
  - intros Hw i. rewrite <- elem_of_indices_where, Hw. apply list_elem_of_singleton.
  - intros Hr. pose proof (NoDup_indices_where pred coll) as Hnd.
    assert (Hmem : forall i, i ∈ indices_where pred coll <-> i = r).
    { intros i. by rewrite elem_of_indices_where. }
    destruct (indices_where pred coll) as [|a [|b l]].
    + exfalso. by apply (elem_of_nil r), Hmem.
    + f_equal. apply Hmem, list_elem_of_here.
    + exfalso. apply NoDup_cons in Hnd as [Hnin _]. apply Hnin.
      assert (a = r) as -> by apply Hmem, list_elem_of_here.
      assert (b = r) as -> by (apply Hmem; right; left).
      left.
Qed.

(** X11. The bands of [ndvi] (0.4). [_ndvi_v04] finds its two bands exactly
    when one band, and no other, has the common name [red] and one band, and
    no other, has the common name [nir]; in every other case (none, or more
    than one) it raises the [ValueError] about failed detection. *)
Theorem ndvi_v04_needs_one_red_and_one_nir (bands : list Band) :
  (forall r n,
     _ndvi_v04_indices bands = Ok (r, n) <->
     (forall i, (exists b, bands !! i = Some b /\ band_common_name b = Some "red") <-> i = r) /\
     (forall i, (exists b, bands !! i = Some b /\ band_common_name b = Some "nir") <-> i = n)) /\
  (forall e, _ndvi_v04_indices bands = Raise e ->
             e = ValueError "Failed to detect 'red' and 'nir' bands").
Proof.
  assert (Hcn : forall name i,
            (exists b, bands !! i = Some b /\ band_common_name b = Some name)
            <-> (exists b, bands !! i = Some b /\ has_common_name name b = true)).
  { intros name i. unfold has_common_name. split; intros (b & Hb & Hc); exists b;
      (split; [done|]); [by apply bool_decide_eq_true_2|by apply bool_decide_eq_true_1 in Hc]. }
  split.
  - intros r n. setoid_rewrite Hcn. rewrite <- !indices_where_single.
    unfold _ndvi_v04_indices.
    destruct (indices_where (has_common_name "red") bands) as [|r' [|? ?]];
      destruct (indices_where (has_common_name "nir") bands) as [|n' [|? ?]];
      split; try done; try (by intros [? ?]); try (by intros [= -> ->]).
    intros [[= ->] [= ->]]. done.
  - intros e. unfold _ndvi_v04_indices.
    destruct (indices_where (has_common_name "red") bands) as [|r' [|? ?]];
      destruct (indices_where (has_common_name "nir") bands) as [|n' [|? ?]];
      try done; by intros [= <-].
Qed.

(** ** The dispatcher *)

Lemma lower_upper_ascii (c : Ascii.ascii) : lower_ascii (upper_ascii c) = lower_ascii c.
Proof. by destruct c as [[] [] [] [] [] [] [] []]; vm_compute. Qed.

Lemma upper_lower_ascii (c : Ascii.ascii) : upper_ascii (lower_ascii c) = upper_ascii c.
Proof. by destruct c as [[] [] [] [] [] [] [] []]; vm_compute. Qed.

Lemma lower_upper (s : string) : lower (upper s) = lower s.
Proof.
  induction s as [|c s IH]; [done|]. unfold lower, upper in *. simpl.
  by rewrite lower_upper_ascii, IH.
Qed.

(** The normalised name depends on the upper-case form of the name only. *)
Lemma capitalize_lower_upper (s : string) :
  capitalize (lower s) = capitalize (lower (upper s)).
Proof.
  destruct s as [|c s]; [done|].
  change (lower (String c s)) with (String (lower_ascii c) (lower s)).
  change (upper (String c s)) with (String (upper_ascii c) (upper s)).
  change (lower (String (upper_ascii c) (upper s)))
    with (String (lower_ascii (upper_ascii c)) (lower (upper s))).
  unfold capitalize. by rewrite lower_upper, lower_upper_ascii.
Qed.

(** X12. Reducer names. On the temporal dimension
    [_normalize_temporal_reducer] answers for an (ASCII) name according to
    its upper-case form alone: [Min], [Max], [Sum], [Mean], [Variance] for
    MIN, MAX, SUM, MEAN, VARIANCE and [StandardDeviation] for SD, so with one
    of the six names the tile store knows, and the same for two spellings
    that differ in letter case only; a name with any other upper-case form
    is refused with the exception that carries it, and no other name is. *)
Theorem temporal_reducer_names_are_canonical (self : ImageCollection)
    (dimension reducer : string) :
  is_ascii_text reducer = true ->
  temporal_dimension (metadata self) = Ok dimension ->
  match _normalize_temporal_reducer self dimension reducer with
  | Ok name =>
      name ∈ reducer_names /\
      forall reducer', upper reducer' = upper reducer ->
        _normalize_temporal_reducer self dimension reducer' = Ok name
  | Raise e =>
      e = UnsupportedReducer reducer /\
      upper reducer ∉ ["MIN"; "MAX"; "SUM"; "MEAN"; "VARIANCE"; "SD"]
  end /\
  (upper reducer = "MIN" -> _normalize_temporal_reducer self dimension reducer = Ok "Min") /\
  (upper reducer = "MAX" -> _normalize_temporal_reducer self dimension reducer = Ok "Max") /\
  (upper reducer = "SUM" -> _normalize_temporal_reducer self dimension reducer = Ok "Sum") /\
  (upper reducer = "MEAN" -> _normalize_temporal_reducer self dimension reducer = Ok "Mean") /\
  (upper reducer = "VARIANCE" ->
   _normalize_temporal_reducer self dimension reducer = Ok "Variance") /\
  (upper reducer = "SD" ->
   _normalize_temporal_reducer self dimension reducer = Ok "StandardDeviation") /\
  (upper reducer ∉ ["MIN"; "MAX"; "SUM"; "MEAN"; "VARIANCE"; "SD"] ->
   _normalize_temporal_reducer self dimension reducer = Raise (UnsupportedReducer reducer)).
Proof.
  intros _ Hdim.
  assert (Hnamed : forall up name,
            up ∈ ["MIN"; "MAX"; "SUM"; "MEAN"; "VARIANCE"] ->
            capitalize (lower up) = name -> upper reducer = up ->
            _normalize_temporal_reducer self dimension reducer = Ok name).
  { intros up name Hin Hname Hup. unfold _normalize_temporal_reducer.
    rewrite Hdim, result_bind_Ok. rewrite bool_decide_eq_false_2 by (by intros ?).
    rewrite Hup, bool_decide_eq_true_2 by done.
    by rewrite capitalize_lower_upper, Hup, Hname. }
  assert (Hother : upper reducer ∉ ["MIN"; "MAX"; "SUM"; "MEAN"; "VARIANCE"; "SD"] ->
            _normalize_temporal_reducer self dimension reducer
            = Raise (UnsupportedReducer reducer)).
  { intros Hnot. unfold _normalize_temporal_reducer.
    rewrite Hdim, result_bind_Ok. rewrite bool_decide_eq_false_2 by (by intros ?).
    change ["MIN"; "MAX"; "SUM"; "MEAN"; "VARIANCE"; "SD"]
      with (["MIN"; "MAX"; "SUM"; "MEAN"; "VARIANCE"] ++ ["SD"])%list in Hnot.
    rewrite elem_of_app, list_elem_of_singleton in Hnot.
    rewrite bool_decide_eq_false_2 by tauto. by rewrite bool_decide_eq_false_2 by tauto. }
  assert (Hsd : upper reducer = "SD" ->
            _normalize_temporal_reducer self dimension reducer = Ok "StandardDeviation").
  { intros Hup. unfold _normalize_temporal_reducer.
    rewrite Hdim, result_bind_Ok. rewrite bool_decide_eq_false_2 by (by intros ?).
    rewrite Hup. done. }
  split; [|split; [|split; [|split; [|split; [|split; [|split]]]]]].
  2:{ intros Hup. apply (Hnamed "MIN" "Min"); [|reflexivity|exact Hup].
      repeat (first [apply list_elem_of_here|apply list_elem_of_further]). }
  2:{ intros Hup. apply (Hnamed "MAX" "Max"); [|reflexivity|exact Hup].
      repeat (first [apply list_elem_of_here|apply list_elem_of_further]). }
  2:{ intros Hup. apply (Hnamed "SUM" "Sum"); [|reflexivity|exact Hup].
      repeat (first [apply list_elem_of_here|apply list_elem_of_further]). }
  2:{ intros Hup. apply (Hnamed "MEAN" "Mean"); [|reflexivity|exact Hup].
      repeat (first [apply list_elem_of_here|apply list_elem_of_further]). }
  2:{ intros Hup. apply (Hnamed "VARIANCE" "Variance"); [|reflexivity|exact Hup].
      repeat (first [apply list_elem_of_here|apply list_elem_of_further]). }
  2:{ exact Hsd. }
  2:{ exact Hother. }
  unfold _normalize_temporal_reducer. rewrite Hdim, result_bind_Ok.
  rewrite bool_decide_eq_false_2 by (by intros ?).
  destruct (decide (upper reducer ∈ ["MIN"; "MAX"; "SUM"; "MEAN"; "VARIANCE"])) as [Hin|Hnin].
  - rewrite bool_decide_eq_true_2 by done. rewrite capitalize_lower_upper. split.
    + unfold reducer_names. set_unfold in Hin.
      destruct Hin as [->|[->|[->|[->|[->|[]]]]]];
        match goal with
        | |- ?x ∈ _ => let y := eval vm_compute in x in change x with y
        end; repeat (first [apply list_elem_of_here|apply list_elem_of_further]).
    + intros reducer' Hup. rewrite Hup, bool_decide_eq_true_2 by done.
      rewrite result_bind_Ok, bool_decide_eq_false_2 by (by intros ?).
      by rewrite (capitalize_lower_upper reducer'), Hup.
  - rewrite bool_decide_eq_false_2 by done.
    destruct (decide (upper reducer = "SD")) as [Hsd'|Hnsd].
    + rewrite bool_decide_eq_true_2 by done. split.
      { unfold reducer_names.
        repeat (first [apply list_elem_of_here|apply list_elem_of_further]). }
      intros reducer' Hup. rewrite result_bind_Ok, Hup.
      rewrite bool_decide_eq_false_2 by (by intros ?).
      rewrite bool_decide_eq_false_2 by done. by rewrite bool_decide_eq_true_2.
    + rewrite bool_decide_eq_false_2 by done. split; [done|].
      change ["MIN"; "MAX"; "SUM"; "MEAN"; "VARIANCE"; "SD"]
        with (["MIN"; "MAX"; "SUM"; "MEAN"; "VARIANCE"] ++ ["SD"])%list.
      rewrite elem_of_app, list_elem_of_singleton. tauto.
Qed.

(** [apply_to_levels] with a function that returns on every level after a
    fixed sequence of calls into the tile store. *)
Lemma apply_to_levels_log `{Collaborators}
    (func : TiledRasterLayer -> Exec TiledRasterLayer)
    (g : TiledRasterLayer -> TiledRasterLayer) (calls : TiledRasterLayer -> list StoreCall)
    (self : ImageCollection) :
  (forall l log, func l log = (Ok (g l), (log ++ calls l)%list)) ->
  levels (pyramid self) <> [] ->
  forall log,
    apply_to_levels func self log
    = (Ok (mk_ImageCollection
             (mk_Pyramid (map (fun kl : Z * TiledRasterLayer => (kl.1, g kl.2))
                              (levels (pyramid self))))
             (metadata self)),
       (log ++ concat (map (fun kl : Z * TiledRasterLayer => calls kl.2)
                           (levels (pyramid self))))%list).
Proof.
  intros Hfunc Hne log. unfold apply_to_levels.
  assert (HmapM : forall lv log,
            mapM (fun kl : Z * TiledRasterLayer => l ← func kl.2; mret (kl.1, l)) lv log
            = (Ok (map (fun kl : Z * TiledRasterLayer => (kl.1, g kl.2)) lv),
               (log ++ concat (map (fun kl : Z * TiledRasterLayer => calls kl.2) lv))%list)).
  { induction lv as [|kl lv IH]; intros log0.
    - simpl. by rewrite app_nil_r.
    - rewrite Exec_mapM_cons, Exec_bind_eq, Hfunc, Exec_ret_eq, IH. simpl.
      by rewrite <- app_assoc. }
  rewrite Exec_bind_eq, HmapM.
  destruct (levels (pyramid self)) as [|kl l] eqn:E; [done|]. done.
Qed.

Lemma _apply_to_levels_geotrellis_rdd_log `{Collaborators}
    (func : TiledRasterLayer -> Z -> Exec TiledRasterLayer)
    (g : TiledRasterLayer -> Z -> TiledRasterLayer)
    (calls : TiledRasterLayer -> Z -> list StoreCall) (self : ImageCollection) :
  (forall l k log, func l k log = (Ok (g l k), (log ++ calls l k)%list)) ->
  levels (pyramid self) <> [] ->
  forall log,
    _apply_to_levels_geotrellis_rdd func self log
    = (Ok (mk_ImageCollection
             (mk_Pyramid
                (map (fun kl : Z * TiledRasterLayer =>
                        (kl.1, mk_TiledRasterLayer (layer_type kl.2)
                                 (layer_metadata (g kl.2 kl.1)) (numpy_rdd (g kl.2 kl.1))))
                     (levels (pyramid self))))
             (metadata self)),
       (log ++ concat (map (fun kl : Z * TiledRasterLayer => calls kl.2 kl.1)
                           (levels (pyramid self))))%list).
Proof.
  intros Hfunc Hne log. unfold _apply_to_levels_geotrellis_rdd.
  assert (HmapM : forall lv log,
            mapM (fun kl : Z * TiledRasterLayer =>
                    l ← func kl.2 kl.1;
                    mret (kl.1, mk_TiledRasterLayer (layer_type kl.2) (layer_metadata l)
                                  (numpy_rdd l))) lv log
            = (Ok (map (fun kl : Z * TiledRasterLayer =>
                          (kl.1, mk_TiledRasterLayer (layer_type kl.2)
                                   (layer_metadata (g kl.2 kl.1)) (numpy_rdd (g kl.2 kl.1))))
                       lv),
               (log ++ concat (map (fun kl : Z * TiledRasterLayer => calls kl.2 kl.1) lv))%list)).
  { induction lv as [|kl lv IH]; intros log0.
    - simpl. by rewrite app_nil_r.
    - rewrite Exec_mapM_cons, Exec_bind_eq, Hfunc, Exec_ret_eq, IH. simpl.
      by rewrite <- app_assoc. }
  rewrite Exec_bind_eq, HmapM.
  destruct (levels (pyramid self)) as [|kl l] eqn:E; [done|]. done.
Qed.

Lemma NoDup_map_fst_groupByKey {K V} `{EqDecision K} (rdd : list (K * V)) :
  NoDup (map fst (groupByKey rdd)).
Proof. rewrite map_fst_groupByKey. apply NoDup_remove_dups. Qed.

(** X14. Temporal composites. [_aggregate_over_time_numpy] answers, on every
    level, with a spatial layer under the metadata of the level that holds
    one tile for every key of the level's spatial layer and no other: the
    composite of the tiles of that key, converted to float32, in the order in
    which the layer holds them.  Per level it makes four calls into the tile
    store. *)
Theorem aggregate_over_time_one_tile_per_key `{Collaborators} (composite : string)
    (self : ImageCollection) :
  levels (pyramid self) <> [] ->
  exists out,
    run (_aggregate_over_time_numpy composite self)
    = (Ok out,
       concat (map (fun _ : Z * TiledRasterLayer =>
                      [ToSpatialLayer; ConvertDataType FLOAT32; ToNumpyRdd;
                       FromNumpyRdd SPATIAL])
                   (levels (pyramid self)))) /\
    metadata out = metadata self /\
    Forall2 (fun kl kl' : Z * TiledRasterLayer =>
               kl'.1 = kl.1 /\
               layer_type kl'.2 = SPATIAL /\
               layer_metadata kl'.2 = layer_metadata kl.2 /\
               forall tiles out_tiles,
                 numpy_rdd (store_to_spatial_layer kl.2) = Ok tiles ->
                 numpy_rdd kl'.2 = Ok out_tiles ->
                 NoDup (map fst out_tiles) /\
                 (forall k, k ∈ map fst out_tiles <-> k ∈ map fst tiles) /\
                 forall k t, (k, t) ∈ out_tiles ->
                   numpy_composite composite
                     (map (fun kt : Key * Tile => convert_tile FLOAT32 kt.2)
                          (filter (fun kt : Key * Tile => kt.1 = k) tiles)) = Ok t)
            (levels (pyramid self)) (levels (pyramid out)).
Proof.
  intros Hne. unfold run, _aggregate_over_time_numpy.
  eexists. split.
  { apply (apply_to_levels_log _
             (fun layer =>
                mk_TiledRasterLayer SPATIAL (layer_metadata layer)
                  (numpy_rdd (convert_data_type FLOAT32 (store_to_spatial_layer layer)) ≫=
                     fun tiles =>
                       mapM (fun g : Key * list Tile =>
                               t ← numpy_composite composite g.2; mret (g.1, t))
                            (groupByKey tiles)))
             (fun _ => [ToSpatialLayer; ConvertDataType FLOAT32; ToNumpyRdd;
                        FromNumpyRdd SPATIAL])); [|done].
    intros l log. unfold call_store. rewrite !Exec_bind_eq, Exec_ret_eq.
    by rewrite <- !app_assoc. }
  split; [done|]. simpl. apply Forall2_fmap_r, Forall_Forall2_diag, Forall_forall.
  intros kl _. unfold compose. cbn [fst snd layer_type layer_metadata numpy_rdd].
  split; [done|]. split; [done|]. split; [done|].
  intros tiles out_tiles Htiles Hout. unfold convert_data_type in Hout.
  cbn [numpy_rdd] in Hout. rewrite Htiles in Hout. simpl in Hout.
  set (float := map (fun t : Key * Tile => (t.1, convert_tile FLOAT32 t.2)) tiles) in *.
  apply mapM_result_inv in Hout.
  assert (Hkeys : map fst out_tiles = map fst (groupByKey float)).
  { clear -Hout. induction Hout as [|g o gs os Hg _ IH]; [done|].
    simpl. rewrite IH. f_equal. destruct (numpy_composite composite g.2); [|done].
    by injection Hg as <-. }
  assert (Hfloat : map fst float = map fst tiles).
  { unfold float. rewrite <- list_fmap_compose. done. }
  split; [rewrite Hkeys; apply NoDup_map_fst_groupByKey|]. split.
  - intros k. by rewrite Hkeys, map_fst_groupByKey, elem_of_remove_dups, Hfloat.
  - intros k t Hkt. apply list_elem_of_lookup in Hkt as [i Hi].
    destruct (Forall2_lookup_r _ _ _ _ _ Hout Hi) as (g & Hg & Hcomp).
    destruct (numpy_composite composite g.2) as [t'|] eqn:Ht'; [|done].
    injection Hcomp as <- <-.
    assert (Hgin : g ∈ groupByKey float) by (by eapply list_elem_of_lookup_2).
    apply elem_of_groupByKey in Hgin as [_ Hg2]. rewrite Hg2 in Ht'.
    rewrite <- Ht'. f_equal. unfold float. symmetry. etrans.
    { apply (f_equal (map snd)).
      exact (filter_converted (fun k' => k' = g.1) (convert_tile FLOAT32) tiles). }
    by rewrite <- list_fmap_compose.
Qed.

(** The calls [apply_tiles] makes, whatever the user code is. *)
Lemma apply_tiles_run `{Collaborators} (function : string) (context : UserContext)
    (self : ImageCollection) (log : list StoreCall) :
  levels (pyramid self) <> [] ->
  apply_tiles function context self log
  = (Ok (mk_ImageCollection
           (mk_Pyramid (map (fun kl : Z * TiledRasterLayer =>
                               (kl.1, rdd_function function context (metadata self) kl.2))
                            (levels (pyramid self))))
           (metadata self)),
     (log ++ concat (map (fun kl : Z * TiledRasterLayer =>
                            [ConvertDataType FLOAT32; ToNumpyRdd;
                             FromNumpyRdd (layer_type kl.2)])
                         (levels (pyramid self))))%list).
Proof.
  intros Hne. unfold apply_tiles.
  apply (apply_to_levels_log _ (rdd_function function context (metadata self))
           (fun l => [ConvertDataType FLOAT32; ToNumpyRdd; FromNumpyRdd (layer_type l)]));
    [|done].
  intros l log0. unfold call_store. rewrite !Exec_bind_eq, Exec_ret_eq.
  by rewrite <- !app_assoc.
Qed.

(** X16. [apply] with a visitor. Called with a visitor object, [apply] never
    answers with a collection: it raises or returns [None].  With the
    visitor of a single UDF whose code is a string it sets up [apply_tiles]
    on every level, three calls into the tile store each, drops the outcome
    and returns [None]. *)
Theorem apply_with_a_visitor_returns_no_collection `{Collaborators} (v : Visitor)
    (self : ImageCollection) :
  levels (pyramid self) <> [] ->
  (forall out log, run (apply (ReducerVisitor v) self) <> (Ok (Some out), log)) /\
  forall udf context,
    v = SingleNodeUDFProcessGraphVisitor (Some (PyStr udf)) context ->
    run (apply (ReducerVisitor v) self)
    = (Ok None,
       concat (map (fun kl : Z * TiledRasterLayer =>
                      [ConvertDataType FLOAT32; ToNumpyRdd; FromNumpyRdd (layer_type kl.2)])
                   (levels (pyramid self)))).
Proof.
  intros Hne. split.
  - intros out log. unfold run, apply.
    destruct v as [[[udf| |]|] context|processes builder|processes]; try done.
    rewrite Exec_bind_eq, (apply_tiles_run _ _ _ _ Hne). done.
  - intros udf context ->. unfold run, apply.
    rewrite Exec_bind_eq, (apply_tiles_run _ _ _ _ Hne). done.
Qed.

(** One tile through [tilefunction]: the key, the cell type and the nodata
    value are those of the tile that went in. *)
Lemma tilefunction_keeps_key `{Collaborators} (function : string) (context : UserContext)
    (md : Metadata) (omd : CollectionMetadata) (t t' : Key * Tile) :
  tilefunction function context md omd t = Ok t' ->
  t'.1 = t.1 /\ cell_type t'.2 = cell_type t.2 /\ no_data_value t'.2 = no_data_value t.2.
Proof.
  unfold tilefunction. intros Ht. cbv zeta in Ht.
  bind_inv_as Ht extent Eextent. bind_inv_as Ht band_dim Eband.
  bind_inv_as Ht result_data Erun.
  destruct (datacube_list result_data) as [|cube [|? ?]]; [done| |done].
  by injection Ht as <-.
Qed.

(** X17. What [apply_tiles] keeps. Whatever the user code computes, the tiles
    [apply_tiles] yields on a level are the tiles of the level converted to
    float32, one for one and in the same order, as far as the key, the cell
    type and the nodata value go; only the cell values come from the user
    code.  The zoom levels, the layer types and the metadata stay as they
    are. *)
Theorem apply_tiles_keeps_keys_and_nodata `{Collaborators} (function : string)
    (context : UserContext) (self : ImageCollection) :
  levels (pyramid self) <> [] ->
  exists out log,
    run (apply_tiles function context self) = (Ok out, log) /\
    metadata out = metadata self /\
    Forall2 (fun kl kl' : Z * TiledRasterLayer =>
               kl'.1 = kl.1 /\
               layer_type kl'.2 = layer_type kl.2 /\
               layer_metadata kl'.2 = layer_metadata kl.2 /\
               forall out_tiles,
                 numpy_rdd kl'.2 = Ok out_tiles ->
                 exists tiles,
                   numpy_rdd kl.2 = Ok tiles /\
                   Forall2 (fun t t' : Key * Tile =>
                              t'.1 = t.1 /\
                              cell_type t'.2 = cell_type (convert_tile FLOAT32 t.2) /\
                              no_data_value t'.2 = no_data_value (convert_tile FLOAT32 t.2))
                           tiles out_tiles)
            (levels (pyramid self)) (levels (pyramid out)).
Proof.
  intros Hne. eexists _, _. split; [apply (apply_tiles_run _ _ _ _ Hne)|].
  split; [done|]. simpl. apply Forall2_fmap_r, Forall_Forall2_diag, Forall_forall.
  intros kl _. unfold compose. cbn [fst snd]. split; [done|]. split; [done|].
  split; [done|]. intros out_tiles Hout. unfold rdd_function, convert_data_type in Hout.
  cbn [numpy_rdd] in Hout. destruct (numpy_rdd kl.2) as [tiles|] eqn:Htiles; [|done].
  exists tiles. split; [done|]. simpl in Hout. apply mapM_result_inv in Hout.
  apply Forall2_fmap_l in Hout. eapply Forall2_impl; [exact Hout|].
  intros t t' Ht. unfold compose in Ht. apply tilefunction_keeps_key in Ht. done.
Qed.

(** X21. Neighbouring tiles. [_mapTransform] fails exactly on a layout without
    columns or rows; otherwise the extents of neighbouring keys meet edge on
    edge: the left edge of the key to the east is the right edge of the key,
    the top edge of the key to the south is its bottom edge, and keys of one
    row (column) share top and bottom (left and right). *)
Theorem neighbouring_tiles_share_an_edge (ld : LayoutDefinition) (c r : Z) :
  (layoutCols (tileLayout ld) = 0 \/ layoutRows (tileLayout ld) = 0 ->
   _mapTransform ld (SpatialKey c r) = Raise ZeroDivisionError) /\
  (layoutCols (tileLayout ld) <> 0 -> layoutRows (tileLayout ld) <> 0 ->
   exists here east south,
     _mapTransform ld (SpatialKey c r) = Ok here /\
     _mapTransform ld (SpatialKey (c + 1) r) = Ok east /\
     _mapTransform ld (SpatialKey c (r + 1)) = Ok south /\
     left east = right here /\ top east = top here /\ bottom east = bottom here /\
     top south = bottom here /\ left south = left here /\ right south = right here).
Proof.
  unfold _mapTransform. split.
  - intros [Hc|Hr].
    + by rewrite Hc.
    + rewrite Hr. by destruct (layoutCols (tileLayout ld) =? 0).
  - intros Hc Hr. apply Z.eqb_neq in Hc, Hr. rewrite Hc, Hr.
    eexists _, _, _. repeat split.
Qed.

Lemma concat_map_singleton {A B} (c : B) (l : list A) :
  concat (map (fun _ => [c]) l) = replicate (length l) c.
Proof. induction l as [|a l IH]; [done|]. simpl. by rewrite IH. Qed.

(** X15. [reduce_bands]. With the visitor of a band-math graph, [reduce_bands]
    first converts every level to float32 and only then maps the bands of
    every level; the cube it answers with has the zoom levels, the layer
    types and the metadata of the cube it was called on, and on every level
    the tiles the band mapping yields.  With a visitor that has no script
    builder it raises [AttributeError] after the conversions. *)
Theorem reduce_bands_converts_then_maps `{Collaborators} (pgVisitor : Visitor)
    (self : ImageCollection) :
  levels (pyramid self) <> [] ->
  let n := length (levels (pyramid self)) in
  match visitor_builder pgVisitor with
  | Ok b =>
      exists out,
        run (reduce_bands pgVisitor self)
        = (Ok out, (replicate n (ConvertDataType FLOAT32) ++ replicate n (MapBands b))%list) /\
        metadata out = metadata self /\
        Forall2 (fun kl kl' : Z * TiledRasterLayer =>
                   kl'.1 = kl.1 /\
                   layer_type kl'.2 = layer_type kl.2 /\
                   numpy_rdd kl'.2
                   = numpy_rdd (store_mapBands b (convert_data_type FLOAT32 kl.2)))
                (levels (pyramid self)) (levels (pyramid out))
  | Raise e =>
      run (reduce_bands pgVisitor self)
      = (Raise (AttributeError "builder"), replicate n (ConvertDataType FLOAT32))
  end.
Proof.
  intros Hne n. unfold run, reduce_bands. rewrite Exec_bind_eq.
  rewrite (apply_to_levels_log _ (convert_data_type FLOAT32)
             (fun _ => [ConvertDataType FLOAT32])).
  2:{ intros l log. unfold call_store. by rewrite Exec_bind_eq, Exec_ret_eq. }
  2:{ done. }
  rewrite app_nil_l, concat_map_singleton. fold n.
  set (float_datacube := mk_ImageCollection _ _).
  assert (Hne' : levels (pyramid float_datacube) <> []).
  { simpl. by destruct (levels (pyramid self)). }
  destruct (visitor_builder pgVisitor) as [b|e] eqn:Hb.
  - rewrite (_apply_to_levels_geotrellis_rdd_log _ (fun rdd _ => store_mapBands b rdd)
               (fun _ _ => [MapBands b])); [|by intros l k log|done].
    eexists. split.
    { f_equal. f_equal. rewrite (concat_map_singleton (MapBands b)). simpl.
      by rewrite length_map. }
    split; [done|]. simpl. rewrite <- list_fmap_compose.
    apply Forall2_fmap_r, Forall_Forall2_diag, Forall_forall. by intros kl _.
  - assert (He : e = AttributeError "builder").
    { destruct pgVisitor; simpl in Hb; congruence. }
    subst e. unfold _apply_to_levels_geotrellis_rdd. rewrite Exec_bind_eq.
    simpl in Hne'. simpl levels.
    destruct (map _ (levels (pyramid self))) as [|kl lv] eqn:Hlv; [done|].
    rewrite Exec_mapM_cons, Exec_bind_eq, Exec_bind_lift_Raise. done.
Qed.

(** ** Cubes without a temporal dimension, and layers without instants *)

Lemma filterM_keep_all {A} (f : A -> result bool) (l : list A) :
  (forall a, f a = Ok true) -> filterM f l = Ok l.
Proof.
  intros Hf. induction l as [|a l IH]; [done|]. simpl. by rewrite Hf, IH.
Qed.

Lemma filter_all {A} (P : A -> Prop) `{forall a, Decision (P a)} (l : list A) :
  (forall a, P a) -> filter P l = l.
Proof.
  intros HP. induction l as [|a l IH]; [done|]. by rewrite filter_cons_True, IH.
Qed.

Lemma remove_dups_replicate {A} `{EqDecision A} (a : A) (n : nat) :
  remove_dups (replicate (S n) a) = [a].
Proof.
  induction n as [|n IH]; [done|].
  change (replicate (S (S n)) a) with (a :: replicate (S n) a).
  cbn [remove_dups]. destruct (decide_rel _ _ _) as [_|Hn]; [exact IH|].
  exfalso. apply Hn. simpl. left.
Qed.

(** Without a temporal dimension every tile gets the label [None], so the
    whole layer is one group. *)
Lemma timeless_groups (tiles : list (Key * Tile)) :
  tiles <> [] ->
  groupByKey (map (fun t : Key * Tile => (@None Z, t)) tiles) = [(None, tiles)].
Proof.
  intros Hne. unfold groupByKey. rewrite <- list_fmap_compose.
  assert (Hlabels : fst ∘ (fun t : Key * Tile => (@None Z, t)) <$> tiles
                    = replicate (length tiles) (@None Z)).
  { clear. induction tiles as [|t l IH]; [done|]. csimpl. by rewrite IH. }
  rewrite Hlabels. clear Hlabels.
  destruct tiles as [|t l]; [done|].
  change (length (t :: l)) with (S (length l)). rewrite remove_dups_replicate.
  cbn [map]. do 2 f_equal.
  etrans; [exact (group_values (fun _ : Key * Tile => @None Z) None (t :: l))|].
  by apply filter_all.
Qed.

(** X8. Cubes without a temporal dimension. When the cube declares no
    temporal dimension, [_collect_as_xarray] ignores the range of dates and
    the instants of the keys: all the tiles of the layer go into one window,
    a later tile overwriting an earlier one of the same column and row, and
    that one window is the array it passes on, without a [t] coordinate. *)
Theorem timeless_cube_is_one_window (junk : option Z -> nat -> cell)
    (self : ImageCollection) (rdd : TiledRasterLayer) (crop_bounds : option Extent)
    (crop_dates : option (Z * Z)) (c : Collected) :
  has_temporal_dimension (metadata self) = false ->
  _collect_as_xarray junk self rdd crop_bounds crop_dates = Ok (Filled c) ->
  exists tiles crop_win window,
    numpy_rdd rdd = Ok tiles /\ tiles <> [] /\
    stitch_at_time (junk None) crop_win (layout_window (layer_metadata rdd)) (None, tiles)
    = Ok (None, window) /\
    col_t c = None /\
    ~ "t" ∈ col_dims c /\
    (if has_band_dimension (metadata self)
     then col_values c = window
     else reshape_last_two window = Ok (col_values c)).
Proof.
  intros Htime Hrun. unfold _collect_as_xarray in Hrun. cbv zeta in Hrun.
  rewrite Htime in Hrun.
  bind_inv_as Hrun xres Exres. bind_inv_as Hrun yres Eyres.
  bind_inv_as Hrun crop_win Ewin. bind_inv_as Hrun coords_bands Ebands.
  bind_inv_as Hrun coords_x Ex. bind_inv_as Hrun coords_y Ey.
  bind_inv_as Hrun windows Ewindows.
  unfold stitched_windows in Ewindows. bind_inv_as Ewindows tiles Etiles.
  rewrite filterM_keep_all in Ewindows.
  2:{ intros t. unfold within_crop_dates. by destruct crop_dates as [[? ?]|]. }
  rewrite result_bind_Ok in Ewindows.
  rewrite (mapM_result_Ok _ (fun t : Key * Tile => (@None Z, t))) in Ewindows
    by (by apply Forall_forall).
  rewrite result_bind_Ok in Ewindows.
  destruct tiles as [|t0 tiles'] eqn:Et.
  { injection Ewindows as <-. done. }
  rewrite <- Et in *. assert (Hne : tiles <> []) by (by rewrite Et).
  rewrite (timeless_groups tiles Hne) in Ewindows.
  change (mapM ?f [(None, tiles)]) with (y ← f (@None Z, tiles); mret [y]) in Ewindows.
  bind_inv_as Ewindows w Estitch. injection Ewindows as <-. cbn [fst] in Estitch.
  pose proof (stitch_at_time_label _ _ _ _ _ Estitch) as Hlabel. simpl in Hlabel.
  destruct w as [label window]. simpl in Hlabel. subst label.
  simpl in Hrun. unfold sort_by_label in Hrun. simpl in Hrun.
  exists tiles, crop_win, window. split; [done|]. split; [done|]. split; [done|].
  destruct (has_band_dimension (metadata self)).
  - simpl in Hrun. injection Hrun as <-. simpl. split; [done|]. split; [|done].
    intros Hin. repeat (apply elem_of_cons in Hin as [Hin|Hin]; [done|]).
    by apply elem_of_nil in Hin.
  - simpl in Hrun. bind_inv_as Hrun collection Ecoll.
    change (mapM ?f [(None, window)]) with (y ← f (@None Z, window); mret [y]) in Ecoll.
    bind_inv_as Ecoll w' Ew'. injection Ecoll as <-. simpl in Ew'.
    bind_inv_as Ew' a Ea. injection Ew' as <-. simpl in Hrun. injection Hrun as <-.
    simpl. split; [done|]. split; [|done].
    intros Hin. repeat (apply elem_of_cons in Hin as [Hin|Hin]; [done|]).
    by apply elem_of_nil in Hin.
Qed.

Lemma mapM_result_Raise {A B} (f : A -> result B) (l : list A) (e : Error) :
  (forall a e', f a = Raise e' -> e' = e) ->
  Exists (fun a => is_Ok (f a) = false) l ->
  mapM f l = Raise e.
Proof.
  intros He Hex. induction Hex as [a l Ha|a l _ IH].
  - change (mapM f (a :: l)) with (y ← f a; k ← mapM f l; mret (y :: k)).
    destruct (f a) as [b|e'] eqn:Hfa; [done|]. by rewrite (He a e' Hfa).
  - change (mapM f (a :: l)) with (y ← f a; k ← mapM f l; mret (y :: k)).
    destruct (f a) as [b|e'] eqn:Hfa; [|by rewrite (He a e' Hfa)].
    by rewrite IH.
Qed.

(** X20. The zonal mean needs instants. On a layer whose masked tiles include
    one with a key that has no instant, [polygonal_mean_timeseries] raises
    the [AttributeError] for [instant], however the tiles are split into
    partitions; on a layer without tiles it answers with no entry at all. *)
Theorem zonal_mean_needs_instants `{Collaborators}
    (partition : list (Key * Tile) -> list (list (Key * Tile)))
    (polygon : list (Q * Q)) (self : ImageCollection)
    (j : nat) (zoom : Z) (max_level : TiledRasterLayer) (tiles : list (Key * Tile)) :
  list_find (fun kl : Z * TiledRasterLayer => kl.1 = max_zoom (pyramid self))
            (levels (pyramid self)) = Some (j, (zoom, max_level)) ->
  numpy_rdd (store_mask polygon max_level) = Ok tiles ->
  mjoin (partition tiles) ≡ₚ tiles ->
  (Exists (fun t : Key * Tile => is_spacetime t.1 = false) tiles ->
   polygonal_mean_timeseries partition polygon self = Raise (AttributeError "instant")) /\
  (tiles = [] -> polygonal_mean_timeseries partition polygon self = Ok []).
Proof.
  intros Hfind Htiles Hperm. unfold polygonal_mean_timeseries.
  rewrite Hfind, result_bind_Ok. cbv zeta. cbn [snd]. rewrite Htiles, result_bind_Ok.
  set (label := fun pair : Key * Tile => i ← key_instant pair.1; mret (i, pair.2)).
  assert (Hlabel : forall a e', label a = Raise e' -> e' = AttributeError "instant").
  { intros [[c r|c r i] t] e'; unfold label; simpl; intros Heq; [|done].
    by injection Heq as <-. }
  split.
  - intros Hex.
    rewrite (mapM_result_Raise _ _ (AttributeError "instant")); [done| |].
    + intros part e' Hpart.
      destruct (decide (Exists (fun a => is_Ok (label a) = false) part)) as [Hp|Hp].
      * rewrite (mapM_result_Raise _ _ (AttributeError "instant") Hlabel Hp) in Hpart.
        congruence.
      * exfalso. apply not_Exists_Forall in Hp; [|intros a; apply _].
        rewrite (mapM_result_Ok label
                   (fun a => match label a with Ok b => b | Raise _ => (0, a.2) end))
          in Hpart; [done|].
        eapply Forall_impl; [exact Hp|]. intros a Ha. simpl in Ha.
        destruct (label a); [done|]. by destruct Ha.
    + apply Exists_exists in Hex as (t & Ht & Hst). rewrite <- Hperm in Ht.
      apply list_elem_of_join in Ht as (part & Ht & Hpart).
      apply Exists_exists. exists part. split; [done|].
      rewrite (mapM_result_Raise _ _ (AttributeError "instant") Hlabel); [done|].
      apply Exists_exists. exists t. split; [done|].
      by destruct t as [[c r|c r i] t].
  - intros ->. assert (Hparts : Forall (fun part => part = []) (partition [])).
    { apply Forall_forall. intros part Hpart. destruct part as [|t part]; [done|].
      exfalso. apply (elem_of_nil t). rewrite <- Hperm.
      apply list_elem_of_join. exists (t :: part). split; [left|done]. }
    rewrite (mapM_result_Ok _ (fun _ => [])).
    2:{ eapply Forall_impl; [exact Hparts|]. by intros part ->. }
    rewrite result_bind_Ok. unfold aggregateByKey.
    rewrite (mapM_result_Ok _ (fun _ => ∅)).
    2:{ apply Forall_fmap, Forall_forall. by intros part _. }
    rewrite result_bind_Ok.
    replace (map (fun _ => ∅) (map (fun _ => []) (partition [])) ≫= map_to_list)
      with (@nil (Z * Acc)).
    2:{ clear. induction (partition []) as [|p l IH]; [done|]. simpl.
        by rewrite map_to_list_empty. }
    simpl. by rewrite map_to_list_empty.
Qed.

(** X19. A UDF reducer needs a temporal dimension. With a UDF as the reducer,
    [reduce_dimension] asks the metadata for the temporal dimension first;
    on a cube that declares none it raises the metadata's exception, also
    for the band dimension, before any call into the tile store. *)
Theorem udf_reduce_needs_temporal_dimension `{Collaborators} (self : ImageCollection)
    (dimension udf : string) (context : option UserContext) :
  has_temporal_dimension (metadata self) = false ->
  run (reduce_dimension dimension
         (ReducerVisitor (SingleNodeUDFProcessGraphVisitor (Some (PyStr udf)) context)) self)
  = (Raise MetadataException, []).
Proof.
  intros Htime. unfold run, reduce_dimension.
  rewrite Exec_bind_eq, Exec_ret_eq. cbv zeta. rewrite !Exec_bind_eq.
  unfold temporal_dimension. unfold has_temporal_dimension in Htime.
  destruct (temporal_dimension_decl (metadata self)); [done|]. done.
Qed.

(** ** Reducing over time, and grouped mode on spatial layers *)

(** X13. Where a temporal reducer is computed. On the temporal dimension,
    [reduce] hands [mean], in any letter case, to the cell-wise aggregation
    of the tile store under the name [Mean], two calls per level; the other
    five reducers are computed on the numpy side by
    [_aggregate_over_time_numpy] under their normalised name. *)
Theorem reduce_delegates_only_the_mean `{Collaborators} (self : ImageCollection)
    (dimension reducer : string) :
  is_ascii_text reducer = true ->
  temporal_dimension (metadata self) = Ok dimension ->
  levels (pyramid self) <> [] ->
  (upper reducer = "MEAN" ->
   run (reduce reducer dimension self)
   = (Ok (mk_ImageCollection
            (mk_Pyramid
               (map (fun kl : Z * TiledRasterLayer =>
                       (kl.1, store_aggregate_by_cell "Mean" (store_to_spatial_layer kl.2)))
                    (levels (pyramid self))))
            (metadata self)),
      concat (map (fun _ : Z * TiledRasterLayer => [ToSpatialLayer; AggregateByCell "Mean"])
                  (levels (pyramid self))))) /\
  (upper reducer ∈ ["MIN"; "MAX"; "SUM"; "VARIANCE"; "SD"] ->
   exists name,
     _normalize_temporal_reducer self dimension reducer = Ok name /\
     name ∈ ["Min"; "Max"; "Sum"; "Variance"; "StandardDeviation"] /\
     run (reduce reducer dimension self) = run (_aggregate_over_time_numpy name self)).
Proof.
  intros _ Hdim Hne. split.
  - intros Hup. unfold run, reduce.
    assert (Hnorm : _normalize_temporal_reducer self dimension reducer = Ok "Mean").
    { unfold _normalize_temporal_reducer. rewrite Hdim, result_bind_Ok.
      rewrite bool_decide_eq_false_2 by (by intros ?).
      rewrite capitalize_lower_upper, Hup. done. }
    rewrite Hnorm, Exec_bind_lift_Ok.
    rewrite bool_decide_eq_false_2.
    2:{ intros Hin. repeat (apply elem_of_cons in Hin as [Hin|Hin]; [done|]).
        by apply elem_of_nil in Hin. }
    apply (apply_to_levels_log _
             (fun layer => store_aggregate_by_cell "Mean" (store_to_spatial_layer layer))
             (fun _ => [ToSpatialLayer; AggregateByCell "Mean"])); [|done].
    intros l log. unfold call_store. rewrite !Exec_bind_eq, Exec_ret_eq.
    by rewrite <- !app_assoc.
  - intros Hin.
    assert (Hnorm : exists name,
              _normalize_temporal_reducer self dimension reducer = Ok name /\
              name ∈ ["Min"; "Max"; "Sum"; "Variance"; "StandardDeviation"]).
    { unfold _normalize_temporal_reducer. rewrite Hdim, result_bind_Ok.
      rewrite bool_decide_eq_false_2 by (by intros ?).
      rewrite capitalize_lower_upper.
      repeat (apply elem_of_cons in Hin as [->|Hin];
              [eexists; split; [vm_compute; reflexivity|];
               repeat (first [apply list_elem_of_here|apply list_elem_of_further])|]).
      by apply elem_of_nil in Hin. }
    destruct Hnorm as (name & Hnorm & Hname). exists name. split; [done|]. split; [done|].
    unfold run, reduce. rewrite Hnorm, Exec_bind_lift_Ok.
    rewrite bool_decide_eq_true_2; [done|].
    repeat (apply elem_of_cons in Hname as [->|Hname];
            [repeat (first [apply list_elem_of_here|apply list_elem_of_further])|]).
    by apply elem_of_nil in Hname.
Qed.

(** X18. Grouped mode needs instants. [apply_tiles_spatiotemporal] returns on
    a level whose keys carry no instant, and labels the level as a space-time
    layer; the tiles of that layer cannot be computed: sorting the first
    group by instant raises [AttributeError]. *)
Theorem grouped_mode_needs_instants `{Collaborators} (function : string)
    (context : UserContext) (omd : CollectionMetadata) (rdd : TiledRasterLayer)
    (tiles : list (Key * Tile)) :
  numpy_rdd rdd = Ok tiles -> tiles <> [] ->
  Forall (fun t : Key * Tile => is_spacetime t.1 = false) tiles ->
  layer_type (spatiotemporal_rdd_function function context omd rdd) = SPACETIME /\
  numpy_rdd (spatiotemporal_rdd_function function context omd rdd)
  = Raise (AttributeError "instant").
Proof.
  intros Htiles Hne Hst. split; [done|]. unfold spatiotemporal_rdd_function.
  cbn [numpy_rdd]. unfold convert_data_type. cbn [numpy_rdd]. rewrite Htiles. simpl.
  set (float := map (fun t : Key * Tile => (t.1, convert_tile FLOAT32 t.2)) tiles).
  unfold flatMap.
  assert (Hgroups : Forall (fun g : Key * list (Key * Tile) =>
                              spatiotemporal_tilefunction function context
                                (layer_metadata rdd) omd g = Raise (AttributeError "instant"))
                           (grouped_by_spatial_key float)).
  { apply Forall_forall. intros g Hg. unfold grouped_by_spatial_key in Hg.
    apply elem_of_groupByKey in Hg as [Hk Hv].
    unfold spatiotemporal_tilefunction, spatiotemporal_udf_data, sort_by_instant.
    apply list_elem_of_fmap in Hk as ([k t] & Hgk & Hkt). simpl in Hgk.
    apply list_elem_of_fmap in Hkt as (t0 & [= -> ->] & Ht0).
    assert (Hmember : t0 ∈ g.2).
    { rewrite Hv. apply list_elem_of_fmap.
      exists (SpatialKey (key_col t0.1) (key_row t0.1), t0). split; [done|].
      apply list_elem_of_filter. split; [done|].
      apply list_elem_of_fmap. by exists t0. }
    assert (Hfail : Forall (fun t : Key * Tile => is_spacetime t.1 = false) g.2).
    { apply Forall_forall. intros t Ht. rewrite Hv in Ht.
      apply list_elem_of_fmap in Ht as ([k' t'] & -> & Ht'). simpl.
      apply list_elem_of_filter in Ht' as [_ Ht'].
      apply list_elem_of_fmap in Ht' as (t'' & [= -> ->] & Ht'').
      unfold float in Ht''. apply list_elem_of_fmap in Ht'' as (t3 & -> & Ht3).
      rewrite Forall_forall in Hst. simpl. by apply Hst. }
    rewrite (mapM_result_Raise _ _ (AttributeError "instant")); [done| |].
    - intros [[c r|c r i] tile] e'; simpl; intros Heq; [|done]. by injection Heq as <-.
    - apply Exists_exists. exists t0. split; [done|].
      rewrite Forall_forall in Hfail. specialize (Hfail t0 Hmember).
      by destruct t0 as [[c r|c r i] tile]. }
  destruct (grouped_by_spatial_key float) as [|g groups] eqn:Hg.
  - exfalso. unfold grouped_by_spatial_key in Hg.
    apply (f_equal length) in Hg. rewrite length_groupByKey in Hg.
    destruct tiles as [|t tiles']; [done|]. unfold float in Hg. simpl in Hg.
    destruct (decide_rel _ _ _) as [Hin|_]; [|done].
    apply elem_of_remove_dups in Hin.
    destruct (remove_dups _); [by apply elem_of_nil in Hin|done].
  - apply Forall_cons in Hgroups as [Hgfail _].
    change (mapM ?f (g :: groups)) with (y ← f g; k ← mapM f groups; mret (y :: k)).
    by rewrite Hgfail.
Qed.

(** ** Grouped mode at the level of the cube *)


(** ** The statements at concrete inputs *)

Section Instances.
Local Existing Instance Reference.collaborators.
Import Examples.


Lemma udf_result_count_contract_witness :
  (exists cubes,
     tilefunction Reference.twice_udf [] md omd (SpaceTimeKey 0 0 10, tile 1)
     = Raise (UdfContractViolation cubes)) /\
  (exists cubes,
     spatiotemporal_tilefunction Reference.empty_udf [] md omd group00
     = Raise (UdfContractViolation cubes)).
Proof.
  destruct (udf_result_count_contract Reference.twice_udf [] md omd) as [Hsingle _].
  destruct (udf_result_count_contract Reference.empty_udf [] md omd) as [_ Hgrouped].
  split.
  - edestruct (Hsingle (SpaceTimeKey 0 0 10, tile 1)) as [Hiff _];
      [reflexivity|reflexivity|reflexivity|].
    apply Hiff. simpl. lia.
  - edestruct (Hgrouped group00) as [Hiff _]; [reflexivity|reflexivity|].
    apply Hiff. simpl. lia.
Defined.

Lemma grouped_mode_output_tiles_witness :
  exists out first rest,
    spatiotemporal_tilefunction Reference.as_int_udf [] md omd group00 = Ok out /\
    Forall (fun o : Key * Tile => dtype (cells o.2) = dt_int32) out /\
    sort_by_instant group00.2 = Ok (first :: rest) /\
    first ∈ group00.2 /\
    Forall (fun t : Key * Tile => is_spacetime t.1 = true
                                  /\ instant_of first.1 <= instant_of t.1) group00.2 /\
    Forall (fun o : Key * Tile =>
              cell_type o.2 = FLOAT32 /\ no_data_value o.2 = no_data_value first.2) out.
Proof.
  eexists.
  assert (Hrun : spatiotemporal_tilefunction Reference.as_int_udf [] md omd group00 = Ok _)
    by (vm_compute; reflexivity).
  destruct (grouped_mode_output_tiles _ _ _ _ _ _ Hrun) as (first & rest & Hs & Hin & Hleast & Hout).
  exists first, rest. split; [exact Hrun|]. split; [by repeat constructor|]. done.
Defined.

Lemma syntax_check_only_in_grouped_mode_witness :
  run (apply_tiles_spatiotemporal "def (" [] cube) = (Raise SyntaxError, []) /\
  exists out log, run (apply_tiles "def (" [] cube) = (Ok out, log).
Proof.
  apply (syntax_check_only_in_grouped_mode "def (" [] cube); [reflexivity|discriminate].
Defined.

Lemma reduce_dimension_udf_other_dimension_witness :
  run (reduce_dimension "x" udf_reducer cube) = (Ok None, []).
Proof.
  apply (reduce_dimension_udf_other_dimension cube "x" Reference.identity_udf None "t"
           (mk_BandDimension "bands" ["B1"])); [reflexivity|reflexivity|discriminate|discriminate].
Defined.






Lemma stitch_at_time_flips_rows_and_copies_overlap_witness :
  exists window,
    stitch_at_time (numbered 0) (crop_window_of_bounds grid_md) (layout_window grid_md)
      (None, grid (numbered 100) (numbered 200) (numbered 300) (numbered 400))
    = Ok (None, window) /\
    get3 window 0 0 0 = Ok (numbered 300 12).
Proof.
  destruct (stitch_at_time_flips_rows_and_copies_overlap (numbered 0) 0 0 8 8
              (layout_window grid_md) None
              (SpatialKey 0 0, grid_tile (numbered 100))
              [(SpatialKey 1 0, grid_tile (numbered 200));
               (SpatialKey 0 1, grid_tile (numbered 300));
               (SpatialKey 1 1, grid_tile (numbered 400))] 1 4 4)
    as [(window & Hrun & _ & Hspec) _].
  - repeat constructor.
  - lia.
  - lia.
  - exists window. split; [exact Hrun|].
    pose proof (Hspec 0%nat 0%nat 0%nat) as Hpixel.
    destruct Hpixel as (v & Hv & Hget); [lia..|].
    vm_compute in Hv. injection Hv as <-. exact Hget.
Defined.

End Instances.

(** ** Further instances *)
Section MoreInstances.
Local Existing Instance Reference.collaborators.
Import Examples MoreExamples.


Lemma uncovered_pixels_hold_nodata_witness :
  exists window,
    stitch_at_time junk (0, 0, 2, 2) (layout_window strip_md)
      (None, [(SpatialKey 0 0, strip_tile)]) = Ok (None, window) /\
    get3 window 0 0 0 = Ok (Num 7).
Proof.
  destruct (uncovered_pixels_hold_nodata junk 0 0 2 2 (layout_window strip_md) None
              (SpatialKey 0 0, strip_tile) [] 1 2 2) as (window & Hrun & Hspec).
  - repeat constructor.
  - lia.
  - lia.
  - exists window. split; [exact Hrun|].
    apply (Hspec 0%nat 0%nat 0%nat); [lia..|].
    intros t Ht. apply list_elem_of_singleton in Ht as ->. reflexivity.
Defined.

Lemma stitching_ignores_tile_order_witness :
  exists window,
    stitch_at_time junk (crop_window_of_bounds grid_md) (layout_window grid_md)
      (None, [west; east]) = Ok (None, window) /\
    stitch_at_time junk (crop_window_of_bounds grid_md) (layout_window grid_md)
      (None, [east; west]) = Ok (None, window).
Proof.
  apply (stitching_ignores_tile_order junk 0 0 8 8 (layout_window grid_md) None
           west east [east] [west] 1 4 4).
  - repeat constructor.
  - lia.
  - lia.
  - refine (bool_decide_unpack (NoDup _) _). vm_compute. exact I.
  - apply perm_swap.
  - reflexivity.
  - reflexivity.
Defined.

Lemma uncropped_window_pixel_source_witness :
  exists window,
    stitch_at_time junk (crop_window_of_bounds grid_md) (layout_window grid_md)
      (None, grid (numbered 100) (numbered 200) (numbered 300) (numbered 400))
    = Ok (None, window) /\
    get3 window 0 5 6 = Ok (numbered 200 5).
Proof.
  destruct (uncropped_window_pixel_source junk grid_md None
              (SpatialKey 0 0, grid_tile (numbered 100))
              [(SpatialKey 1 0, grid_tile (numbered 200));
               (SpatialKey 0 1, grid_tile (numbered 300));
               (SpatialKey 1 1, grid_tile (numbered 400))] 1 4 4)
    as (window & Hrun & _ & Hspec).
  - repeat constructor.
  - lia.
  - lia.
  - reflexivity.
  - reflexivity.
  - simpl. lia.
  - simpl. lia.
  - refine (bool_decide_unpack (NoDup _) _). vm_compute. exact I.
  - exists window. split; [exact Hrun|].
    destruct (Hspec 0%nat 5%nat 6%nat) as [Hsource _]; [simpl; lia..|].
    destruct (Hsource (SpatialKey 1 0, grid_tile (numbered 200))) as (v & Hv & Hget).
    + right. left.
    + reflexivity.
    + reflexivity.
    + vm_compute in Hv. injection Hv as <-. exact Hget.
Defined.

Lemma unmirrored_bounds_leave_window_blank_witness :
  stitch_at_time junk (crop_window_of_bounds strip_md) (layout_window strip_md)
    (None, [(SpatialKey 0 0, strip_tile)])
  = Ok (None, np_full [1; 2; 2]%nat (Num 7) dt_float32).
Proof.
  apply (unmirrored_bounds_leave_window_blank junk strip_md None
           (SpatialKey 0 0, strip_tile) [] 1 2 2).
  - repeat constructor.
  - lia.
  - lia.
  - reflexivity.
  - reflexivity.
  - simpl. lia.
  - simpl. lia.
  - repeat constructor; simpl; lia.
  - left. simpl. lia.
Defined.

Lemma time_without_bands_is_never_collected_witness :
  (exists e, _collect_as_xarray (fun _ => junk) cube_without_bands layer None None = Raise e) \/
  _collect_as_xarray (fun _ => junk) cube_without_bands layer None None
  = Ok (EmptySelection ["t"; "x"; "y"] ["x"; "y"]).
Proof.
  apply (time_without_bands_is_never_collected (fun _ => junk) cube_without_bands layer
           None None); reflexivity.
Defined.

Lemma collected_times_ascend_witness :
  exists c ts,
    _collect_as_xarray (fun _ => junk) cube layer None (Some (10, 20)) = Ok (Filled c) /\
    col_t c = Some (map Some ts) /\ StronglySorted Z.lt ts.
Proof.
  assert (Hrun : exists c, _collect_as_xarray (fun _ => junk) cube layer None (Some (10, 20))
                           = Ok (Filled c)) by (vm_compute; eexists; reflexivity).
  destruct Hrun as [c Hrun].
  destruct (collected_times_ascend (fun _ => junk) cube layer None (Some (10, 20)) c
              eq_refl Hrun) as (tiles & ts & rest & _ & Ht & Hsorted & _).
  exists c, ts. split; [exact Hrun|]. split; [exact Ht|exact Hsorted].
Defined.

Lemma collected_band_labels_match_data_witness :
  exists c names,
    _collect_as_xarray (fun _ => junk) cube_out_of_sync layer None None = Ok (Filled c) /\
    col_bands c = Some names /\ length names = 1%nat.
Proof.
  assert (Hrun : exists c, _collect_as_xarray (fun _ => junk) cube_out_of_sync layer None None
                           = Ok (Filled c)) by (vm_compute; eexists; reflexivity).
  destruct Hrun as [c Hrun].
  destruct (collected_band_labels_match_data (fun _ => junk) cube_out_of_sync layer None None
              c eq_refl Hrun) as (declared & names & n & _ & Hb & Hn & Hlen & _).
  exists c, names. split; [done|]. split; [done|].
  rewrite Hlen. clear -Hrun Hn. vm_compute in Hrun. injection Hrun as <-.
  vm_compute in Hn. by injection Hn as <-.
Defined.

Lemma timeless_cube_is_one_window_witness :
  exists c window,
    _collect_as_xarray (fun _ => junk) timeless_cube layer None (Some (10, 10)) = Ok (Filled c) /\
    col_t c = None /\ col_values c = window.
Proof.
  assert (Hrun : exists c, _collect_as_xarray (fun _ => junk) timeless_cube layer None
                             (Some (10, 10)) = Ok (Filled c))
    by (vm_compute; eexists; reflexivity).
  destruct Hrun as [c Hrun].
  destruct (timeless_cube_is_one_window (fun _ => junk) timeless_cube layer None
              (Some (10, 10)) c eq_refl Hrun)
    as (tiles & crop_win & window & _ & _ & _ & Ht & _ & Hvalues).
  exists c, window. split; [exact Hrun|]. split; [exact Ht|exact Hvalues].
Defined.

Lemma temporal_reducer_names_are_canonical_witness :
  _normalize_temporal_reducer cube "t" "mAx" = Ok "Max" /\
  _normalize_temporal_reducer cube "t" "MAX" = Ok "Max" /\
  _normalize_temporal_reducer cube "t" "median" = Raise (UnsupportedReducer "median").
Proof.
  destruct (temporal_reducer_names_are_canonical cube "t" "mAx" eq_refl eq_refl)
    as (Hn & _ & Hmax & _).
  change (_normalize_temporal_reducer cube "t" "mAx") with (@Ok string "Max") in Hn.
  destruct Hn as [_ Hsame]. split; [by apply Hmax|]. split; [by apply Hsame|].
  destruct (temporal_reducer_names_are_canonical cube "t" "median" eq_refl eq_refl)
    as (_ & _ & _ & _ & _ & _ & _ & Hrefused).
  apply Hrefused. intros Hin.
  repeat (apply elem_of_cons in Hin as [Hin|Hin]; [discriminate|]).
  by apply elem_of_nil in Hin.
Defined.

Lemma aggregate_over_time_one_tile_per_key_witness :
  exists out,
    run (_aggregate_over_time_numpy "Max" cube)
    = (Ok out, [ToSpatialLayer; ConvertDataType FLOAT32; ToNumpyRdd; FromNumpyRdd SPATIAL]) /\
    metadata out = omd.
Proof.
  destruct (aggregate_over_time_one_tile_per_key "Max" cube) as (out & Hrun & Hmd & _).
  - discriminate.
  - by exists out.
Defined.

Lemma apply_with_a_visitor_returns_no_collection_witness :
  run (apply udf_reducer cube)
  = (Ok None, [ConvertDataType FLOAT32; ToNumpyRdd; FromNumpyRdd SPACETIME]).
Proof.
  destruct (apply_with_a_visitor_returns_no_collection
              (SingleNodeUDFProcessGraphVisitor (Some (PyStr Reference.identity_udf)) None)
              cube) as [_ Hrun].
  - discriminate.
  - by apply (Hrun Reference.identity_udf None).
Defined.

Lemma apply_tiles_keeps_keys_and_nodata_witness :
  exists out log,
    run (apply_tiles Reference.as_int_udf [] cube) = (Ok out, log) /\
    metadata out = omd.
Proof.
  destruct (apply_tiles_keeps_keys_and_nodata Reference.as_int_udf [] cube)
    as (out & log & Hrun & Hmd & _).
  - discriminate.
  - by exists out, log.
Defined.

Lemma neighbouring_tiles_share_an_edge_witness :
  exists here east,
    _mapTransform (layout_definition grid_md) (SpatialKey 0 0) = Ok here /\
    _mapTransform (layout_definition grid_md) (SpatialKey 1 0) = Ok east /\
    left east = right here.
Proof.
  destruct (neighbouring_tiles_share_an_edge (layout_definition grid_md) 0 0) as [_ Hok].
  destruct Hok as (here & east & south & H1 & H2 & _ & Hedge & _); [discriminate..|].
  by exists here, east.
Defined.

Lemma reduce_bands_converts_then_maps_witness :
  exists out,
    run (reduce_bands (GeotrellisTileProcessGraphVisitor ["add"] (mk_Builder ["add"])) cube)
    = (Ok out, [ConvertDataType FLOAT32; MapBands (mk_Builder ["add"])]) /\
    metadata out = omd.
Proof.
  destruct (reduce_bands_converts_then_maps
              (GeotrellisTileProcessGraphVisitor ["add"] (mk_Builder ["add"])) cube)
    as (out & Hrun & Hmd & _).
  - discriminate.
  - by exists out.
Defined.

Lemma zonal_mean_needs_instants_witness :
  polygonal_mean_timeseries (fun l => [l]) zonal_polygon spatial_cube
  = Raise (AttributeError "instant").
Proof.
  destruct (zonal_mean_needs_instants (fun l => [l]) zonal_polygon spatial_cube
              0 0 spatial_layer
              [Reference.mask_tile zonal_polygon zonal_md (SpatialKey 0 0, zonal_tile)])
    as [Hraise _].
  - reflexivity.
  - reflexivity.
  - reflexivity.
  - apply Hraise. by left.
Defined.

Lemma udf_reduce_needs_temporal_dimension_witness :
  run (reduce_dimension "bands" udf_reducer timeless_cube) = (Raise MetadataException, []).
Proof.
  by apply (udf_reduce_needs_temporal_dimension timeless_cube "bands"
              Reference.identity_udf None).
Defined.

Lemma reduce_delegates_only_the_mean_witness :
  run (reduce "mEaN" "t" cube)
  = (Ok (mk_ImageCollection (mk_Pyramid [(0, Reference.to_spatial layer)]) omd),
     [ToSpatialLayer; AggregateByCell "Mean"]).
Proof.
  destruct (reduce_delegates_only_the_mean cube "t" "mEaN") as [Hmean _].
  - reflexivity.
  - reflexivity.
  - discriminate.
  - by apply Hmean.
Defined.

Lemma grouped_mode_needs_instants_witness :
  numpy_rdd (spatiotemporal_rdd_function Reference.identity_udf [] omd spatial_layer)
  = Raise (AttributeError "instant").
Proof.
  destruct (grouped_mode_needs_instants Reference.identity_udf [] omd spatial_layer
              [(SpatialKey 0 0, zonal_tile)]) as [_ Hfail].
  - reflexivity.
  - discriminate.
  - by repeat constructor.
  - exact Hfail.
Defined.

End MoreInstances.
